(** * driveMybox API client: validators and request dispatcher

    A shallow embedding of the two client implementations of the
    repository,

    - [src/api/dMB.py]          (module [dMB]), and
    - [app/api/dMB_client.py]   (module [dMB_client]),

    together with the fragment of Python they rely on: JSON-like values,
    the exceptions the code raises or lets escape, and the operators
    [in], [x[k]], [len], [<], truthiness and iteration with the
    behaviour Python gives them on every kind of value. *)

From Stdlib Require Import ZArith List String Ascii Bool Lia.
Import ListNotations.

#[local] Set Warnings "-register-all".

Local Open Scope string_scope.
Local Open Scope Z_scope.

(* ===================================================================== *)
(** * The Python fragment                                                  *)
(* ===================================================================== *)

Module Py.

(** Documents are what [json] produces and what the callers build by
    hand: [None], booleans, integers, strings, lists and dicts with string
    keys.  A dict is the list of its items in insertion order; Python never
    keeps a key twice, and [lookup] reads the first binding.  Floating
    point numbers are left out. *)
Inductive value : Type :=
| VNone
| VBool (b : bool)
| VInt (n : Z)
| VStr (s : string)
| VList (xs : list value)
| VDict (items : list (string * value)).

Definition dict : Type := list (string * value).

Fixpoint lookup (k : string) (d : dict) : option value :=
  match d with
  | [] => None
  | (k', v) :: d' => if String.eqb k k' then Some v else lookup k d'
  end.

Definition has_key (k : string) (d : dict) : bool :=
  match lookup k d with Some _ => true | None => false end.

(** The text of an exception.  f-strings that print a value keep the value
    ([Str v] for [{v}], [Repr v] for [%r]) instead of its rendering. *)
Inductive piece : Type :=
| Lit (s : string)
| Str (v : value)
| Repr (v : value).

Definition message : Type := list piece.

Definition Text (s : string) : message := [Lit s].

(** The exceptions that the code raises itself or that the operators it
    uses can raise.  [DriveMyBoxAPIException] carries [status_code],
    [message] and [details]; [details] is [None] when it is not given. *)
Inductive exn : Type :=
| ValueError (msg : message)
| TypeError
| KeyError (key : string)
| AttributeError
| IndexError
| DriveMyBoxAPIException (status_code : Z) (msg : string) (details : value).

Inductive result (A : Type) : Type :=
| Ok (a : A)
| Raise (e : exn).

Arguments Ok {A} a.
Arguments Raise {A} e.

Definition bind {A B : Type} (r : result A) (k : A -> result B) : result B :=
  match r with
  | Ok a => k a
  | Raise e => Raise e
  end.

Declare Scope py_scope.
Delimit Scope py_scope with py.

Notation "x <- e ;; k" := (bind e (fun x => k))
  (at level 61, e at next level, right associativity) : py_scope.
Notation "' pat <- e ;; k" :=
  (bind e (fun x => match x with pat => k end))
  (at level 61, pat pattern, e at next level, right associativity) : py_scope.
Notation "e ;; k" := (bind e (fun _ => k))
  (at level 61, right associativity) : py_scope.

Local Open Scope py_scope.

(** [if c: raise e] followed by the rest of the block. *)
Definition raise_if {A : Type} (c : bool) (e : exn) (rest : result A)
  : result A :=
  if c then Raise e else rest.

(** [a or b] and [a and b] on conditions whose evaluation may raise: the
    right operand is not evaluated when the left one decides. *)
Definition py_or (a b : result bool) : result bool :=
  x <- a ;; if x then Ok true else b.

Definition py_and (a b : result bool) : result bool :=
  x <- a ;; if x then b else Ok false.

Definition py_not (a : result bool) : result bool :=
  x <- a ;; Ok (negb x).

(** Truth value of an object. *)
Definition truthy (v : value) : bool :=
  match v with
  | VNone => false
  | VBool b => b
  | VInt n => negb (n =? 0)
  | VStr s => negb (String.eqb s "")
  | VList xs => match xs with [] => false | _ => true end
  | VDict d => match d with [] => false | _ => true end
  end.

(** [sub in s] on strings: [sub] occurs in [s]. *)
Fixpoint occurs (sub s : string) : bool :=
  String.prefix sub s ||
  match s with
  | EmptyString => false
  | String _ s' => occurs sub s'
  end.

(** [v == k] for a string [k]: only a string is equal to a string. *)
Definition eq_str (v : value) (k : string) : bool :=
  match v with
  | VStr s => String.eqb s k
  | _ => false
  end.

(** [k in c] for a string [k]: key membership in a dict, substring test on
    a string, element test on a list; the other objects are not
    containers. *)
Definition py_in (k : string) (c : value) : result bool :=
  match c with
  | VDict d => Ok (has_key k d)
  | VStr s => Ok (occurs k s)
  | VList xs => Ok (existsb (fun x => eq_str x k) xs)
  | VNone | VBool _ | VInt _ => Raise TypeError
  end.

Definition py_not_in (k : string) (c : value) : result bool :=
  py_not (py_in k c).

(** [c[k]] for a string [k]. *)
Definition getitem (c : value) (k : string) : result value :=
  match c with
  | VDict d =>
      match lookup k d with
      | Some v => Ok v
      | None => Raise (KeyError k)
      end
  | _ => Raise TypeError
  end.

(** [v in [s1, ..., sn]] for a list of strings. *)
Definition in_strings (v : value) (ss : list string) : bool :=
  existsb (eq_str v) ss.

(** The integer a number stands for in a comparison ([True] is 1). *)
Definition as_int (v : value) : result Z :=
  match v with
  | VInt n => Ok n
  | VBool b => Ok (if b then 1 else 0)
  | _ => Raise TypeError
  end.

Definition py_lt (v : value) (n : Z) : result bool :=
  x <- as_int v ;; Ok (x <? n).

Definition py_le (v : value) (n : Z) : result bool :=
  x <- as_int v ;; Ok (x <=? n).

Definition py_gt (v : value) (n : Z) : result bool :=
  x <- as_int v ;; Ok (n <? x).

(** [isinstance(v, int)]: [bool] is a subclass of [int]. *)
Definition isinstance_int (v : value) : bool :=
  match v with
  | VInt _ | VBool _ => true
  | _ => false
  end.

Definition py_len (v : value) : result Z :=
  match v with
  | VStr s => Ok (Z.of_nat (String.length s))
  | VList xs => Ok (Z.of_nat (List.length xs))
  | VDict d => Ok (Z.of_nat (List.length d))
  | VNone | VBool _ | VInt _ => Raise TypeError
  end.

Fixpoint chars (s : string) : list value :=
  match s with
  | EmptyString => []
  | String c s' => VStr (String c EmptyString) :: chars s'
  end.

(** The items a [for] loop visits: the elements of a list, the keys of a
    dict, the characters of a string. *)
Definition py_iter (v : value) : result (list value) :=
  match v with
  | VList xs => Ok xs
  | VDict d => Ok (map (fun kv => VStr (fst kv)) d)
  | VStr s => Ok (chars s)
  | VNone | VBool _ | VInt _ => Raise TypeError
  end.

(** A [for] loop whose body may raise and which carries the variables the
    body assigns. *)
Fixpoint for_each {A S : Type} (body : A -> S -> result S) (xs : list A)
                  (s : S) : result S :=
  match xs with
  | [] => Ok s
  | x :: xs' => s' <- body x s ;; for_each body xs' s'
  end.

(** [s.replace(c, new)] for a one-character [c]. *)
Fixpoint replace_char (c : ascii) (new : string) (s : string) : string :=
  match s with
  | EmptyString => EmptyString
  | String a s' =>
      if Ascii.eqb a c then new ++ replace_char c new s'
      else String a (replace_char c new s')
  end.

(** [v.replace(c, new)]: only strings have the method. *)
Definition py_replace (v : value) (c : ascii) (new : string) : result string :=
  match v with
  | VStr s => Ok (replace_char c new s)
  | _ => Raise AttributeError
  end.

(** [s.lstrip(c)] and [s.rstrip(c)] for a one-character [c]. *)
Fixpoint lstrip (c : ascii) (s : string) : string :=
  match s with
  | String a s' => if Ascii.eqb a c then lstrip c s' else s
  | EmptyString => EmptyString
  end.

Fixpoint rstrip (c : ascii) (s : string) : string :=
  match s with
  | EmptyString => EmptyString
  | String a s' =>
      match rstrip c s' with
      | EmptyString => if Ascii.eqb a c then EmptyString
                       else String a EmptyString
      | t => String a t
      end
  end.

(** Calling a [str]-valued [Enum] class on a value: the member with that
    value, or [ValueError]. *)
Definition enum_call (cls : string) (members : list string) (v : value)
  : result value :=
  if in_strings v members then Ok v
  else Raise (ValueError [Repr v; Lit (" is not a valid " ++ cls)]).

(** [try: body  except ValueError: handler]. *)
Definition except_ValueError {A : Type} (body handler : result A)
  : result A :=
  match body with
  | Raise (ValueError _) => handler
  | r => r
  end.

End Py.

(* ===================================================================== *)
(** * [datetime.fromisoformat]                                             *)
(* ===================================================================== *)

(** The validators of both clients hand their timestamps to
    [datetime.fromisoformat] of the Python standard library.  The clients
    below take the parser as a parameter; this module gives the parser of
    the reference implementation [Lib/datetime.py] of CPython 3.7 to 3.10,
    function by function, for ASCII strings. *)
Module datetime.

Import Py.
Local Open Scope py_scope.

Record datetime : Type := mk_datetime {
  year : Z; month : Z; day : Z;
  hour : Z; minute : Z; second : Z; microsecond : Z;
  (** [None], or the UTC offset in microseconds *)
  tzinfo : option Z
}.

(** [s[a:b]], [s[a:]] and [s[i]]. *)
Definition slice (a b : nat) (s : string) : string :=
  String.substring a (b - a) s.

Definition slice_from (a : nat) (s : string) : string :=
  String.substring a (String.length s - a) s.

Definition index (s : string) (i : nat) : result ascii :=
  match String.get i s with
  | Some c => Ok c
  | None => Raise IndexError
  end.

(** [s.find(c) + 1]: the position after the first [c], or 0. *)
Fixpoint find_plus_1 (c : ascii) (s : string) : nat :=
  match s with
  | EmptyString => 0
  | String a s' =>
      if Ascii.eqb a c then 1
      else match find_plus_1 c s' with 0 => 0 | S n => S (S n) end
  end%nat.

(** [int(s)]: blanks around, an optional sign, decimal digits with single
    underscores between them. *)
Definition is_space (c : ascii) : bool :=
  let n := nat_of_ascii c in
  ((9 <=? n) && (n <=? 13) || (n =? 32))%nat.

Definition digit_of (c : ascii) : option Z :=
  let n := Z.of_nat (nat_of_ascii c) in
  if (48 <=? n) && (n <=? 57) then Some (n - 48) else None.

Fixpoint digits (acc : Z) (after_digit : bool) (s : string) : option Z :=
  match s with
  | EmptyString => if after_digit then Some acc else None
  | String c s' =>
      match digit_of c with
      | Some d => digits (10 * acc + d) true s'
      | None =>
          if Ascii.eqb c "_" && after_digit then digits acc false s'
          else None
      end
  end.

Fixpoint lstrip_space (s : string) : string :=
  match s with
  | String a s' => if is_space a then lstrip_space s' else s
  | EmptyString => EmptyString
  end.

Fixpoint rstrip_space (s : string) : string :=
  match s with
  | EmptyString => EmptyString
  | String a s' =>
      match rstrip_space s' with
      | EmptyString => if is_space a then EmptyString
                       else String a EmptyString
      | t => String a t
      end
  end.

Definition int (s : string) : result Z :=
  let t := rstrip_space (lstrip_space s) in
  let parsed :=
    match t with
    | String "+" r => digits 0 false r
    | String "-" r => option_map Z.opp (digits 0 false r)
    | _ => digits 0 false t
    end in
  match parsed with
  | Some n => Ok n
  | None => Raise (ValueError [Lit "invalid literal for int() with base 10: ";
                               Repr (VStr s)])
  end.

Definition _parse_isoformat_date (dtstr : string) : result (Z * Z * Z) :=
  year <- int (slice 0 4 dtstr) ;;
  c4 <- index dtstr 4 ;;
  raise_if (negb (Ascii.eqb c4 "-"))
    (ValueError [Lit "Invalid date separator: ";
                 Str (VStr (String c4 EmptyString))]) (
  month <- int (slice 5 7 dtstr) ;;
  c7 <- index dtstr 7 ;;
  raise_if (negb (Ascii.eqb c7 "-"))
    (ValueError (Text "Invalid date separator")) (
  day <- int (slice 8 10 dtstr) ;;
  Ok (year, month, day))).

(** [time_comps[comp] = v]. *)
Fixpoint set_comp (comp : nat) (v : Z) (time_comps : list Z) : list Z :=
  match time_comps, comp with
  | [], _ => []
  | _ :: t, O => v :: t
  | x :: t, S n => x :: set_comp n v t
  end.

(** The loop [for comp in range(0, 3)] of [_parse_hh_mm_ss_ff]; [todo] is
    the number of rounds left, and the result is [pos] and [time_comps]
    when the loop is left. *)
Fixpoint hh_mm_ss_loop (tstr : string) (todo comp pos : nat)
                       (time_comps : list Z) : result (nat * list Z) :=
  match todo with
  | O => Ok (pos, time_comps)
  | S todo' =>
      raise_if (String.length tstr - pos <? 2)%nat
        (ValueError (Text "Incomplete time component")) (
      v <- int (slice pos (pos + 2) tstr) ;;
      let time_comps := set_comp comp v time_comps in
      let pos := (pos + 2)%nat in
      let next_char := slice pos (pos + 1) tstr in
      if String.eqb next_char "" || (2 <=? comp)%nat then
        Ok (pos, time_comps)
      else
        raise_if (negb (String.eqb next_char ":"))
          (ValueError [Lit "Invalid time separator: "; Str (VStr next_char)])
          (hh_mm_ss_loop tstr todo' (S comp) (pos + 1)%nat time_comps))
  end.

Definition _parse_hh_mm_ss_ff (tstr : string) : result (list Z) :=
  let len_str := String.length tstr in
  '(pos, time_comps) <- hh_mm_ss_loop tstr 3 0 0 [0; 0; 0; 0] ;;
  if (pos <? len_str)%nat then
    c <- index tstr pos ;;
    raise_if (negb (Ascii.eqb c "."))
      (ValueError (Text "Invalid microsecond component")) (
    let pos := (pos + 1)%nat in
    let len_remainder := (len_str - pos)%nat in
    raise_if (negb ((len_remainder =? 3) || (len_remainder =? 6))%nat)
      (ValueError (Text "Invalid microsecond component")) (
    us <- int (slice_from pos tstr) ;;
    Ok (set_comp 3 (if (len_remainder =? 3)%nat then us * 1000 else us)
                 time_comps)))
  else Ok time_comps.

Definition comp (time_comps : list Z) (i : nat) : Z := nth i time_comps 0.

(** [timezone(offset)]: the offset, in microseconds, must lie strictly
    between minus and plus 24 hours. *)
Definition timezone (offset : Z) : result Z :=
  raise_if (negb ((-86400000000 <? offset) && (offset <? 86400000000)))
    (ValueError (Text "offset must be a timedelta strictly between -timedelta(hours=24) and timedelta(hours=24)"))
    (Ok offset).

(** [timedelta(hours=h, minutes=m, seconds=s, microseconds=us)], in
    microseconds. *)
Definition timedelta (h m s us : Z) : Z :=
  ((h * 60 + m) * 60 + s) * 1000000 + us.

Definition _parse_isoformat_time (tstr : string)
  : result (list Z * option Z) :=
  let len_str := String.length tstr in
  raise_if (len_str <? 2)%nat (ValueError (Text "Isoformat time too short")) (
  let tz_pos :=
    match find_plus_1 "-" tstr with
    | O => find_plus_1 "+" tstr
    | n => n
    end in
  let timestr := if (0 <? tz_pos)%nat then slice 0 (tz_pos - 1) tstr
                 else tstr in
  time_comps <- _parse_hh_mm_ss_ff timestr ;;
  if (0 <? tz_pos)%nat then
    let tzstr := slice_from tz_pos tstr in
    let n := String.length tzstr in
    raise_if (negb ((n =? 5) || (n =? 8) || (n =? 15))%nat)
      (ValueError (Text "Malformed time zone string")) (
    tz_comps <- _parse_hh_mm_ss_ff tzstr ;;
    if forallb (fun x => x =? 0) tz_comps then
      Ok (time_comps, Some 0)
    else
      sign <- index tstr (tz_pos - 1) ;;
      let tzsign := if Ascii.eqb sign "-" then -1 else 1 in
      let td := timedelta (comp tz_comps 0) (comp tz_comps 1)
                          (comp tz_comps 2) (comp tz_comps 3) in
      tzi <- timezone (tzsign * td) ;;
      Ok (time_comps, Some tzi))
  else Ok (time_comps, None)).

Definition _is_leap (year : Z) : bool :=
  (year mod 4 =? 0) && (negb (year mod 100 =? 0) || (year mod 400 =? 0)).

Definition _days_in_month (year month : Z) : Z :=
  if (month =? 2) && _is_leap year then 29
  else nth (Z.to_nat month) [0; 31; 28; 31; 30; 31; 30; 31; 31; 30; 31; 30; 31] 0.

Definition between (lo x hi : Z) : bool := (lo <=? x) && (x <=? hi).

(** The constructor [datetime(year, ..., tzinfo)] with the range checks of
    [_check_date_fields] and [_check_time_fields]. *)
Definition new (y mo d h mi s us : Z) (tz : option Z) : result datetime :=
  raise_if (negb (between 1 y 9999))
    (ValueError (Text "year must be in 1..9999")) (
  raise_if (negb (between 1 mo 12))
    (ValueError (Text "month must be in 1..12")) (
  raise_if (negb (between 1 d (_days_in_month y mo)))
    (ValueError (Text "day is out of range for month")) (
  raise_if (negb (between 0 h 23))
    (ValueError (Text "hour must be in 0..23")) (
  raise_if (negb (between 0 mi 59))
    (ValueError (Text "minute must be in 0..59")) (
  raise_if (negb (between 0 s 59))
    (ValueError (Text "second must be in 0..59")) (
  raise_if (negb (between 0 us 999999))
    (ValueError (Text "microsecond must be in 0..999999")) (
  Ok (mk_datetime y mo d h mi s us tz)))))))).

Definition invalid_isoformat (date_string : string) : exn :=
  ValueError [Lit "Invalid isoformat string: "; Repr (VStr date_string)].

Definition fromisoformat (date_string : string) : result datetime :=
  let dstr := slice 0 10 date_string in
  let tstr := slice_from 11 date_string in
  '(y, mo, d) <- except_ValueError (_parse_isoformat_date dstr)
                   (Raise (invalid_isoformat date_string)) ;;
  '(time_comps, tz) <-
     (if negb (String.eqb tstr "") then
        except_ValueError (_parse_isoformat_time tstr)
          (Raise (invalid_isoformat date_string))
      else Ok ([0; 0; 0; 0], None)) ;;
  new y mo d (comp time_comps 0) (comp time_comps 1) (comp time_comps 2)
      (comp time_comps 3) tz.

End datetime.

(* ===================================================================== *)
(** * [requests] and the state of a client                                 *)
(* ===================================================================== *)

(** What the clients use of the [requests] library: a call
    [requests.request(method, url, headers, json, params)] either raises a
    [RequestException] or gives a response, of which the code reads
    [status_code], [reason], [headers], [content], [text] and [json()]. *)
Module requests.

Import Py.

Record Request : Type := mk_Request {
  method : string;
  url : string;
  headers : list (string * string);
  json : option value;
  params : option value
}.

Record Response : Type := mk_Response {
  status_code : Z;
  reason : string;
  resp_headers : list (string * string);
  content : string;
  text : string;
  (** the result of [response.json()]: the parsed body, or the text of the
      decoding error *)
  resp_json : string + value
}.

Definition lower_ascii (c : ascii) : ascii :=
  let n := nat_of_ascii c in
  if ((65 <=? n) && (n <=? 90))%nat then ascii_of_nat (n + 32) else c.

Fixpoint lower (s : string) : string :=
  match s with
  | EmptyString => EmptyString
  | String c s' => String (lower_ascii c) (lower s')
  end.

(** [response.headers.get(name)]: header names compare without case. *)
Fixpoint headers_get (name : string) (hs : list (string * string))
  : option string :=
  match hs with
  | [] => None
  | (k, v) :: hs' =>
      if String.eqb (lower k) (lower name) then Some v
      else headers_get name hs'
  end.

(** The outcome of [requests.request]: [inl msg] is a [RequestException]
    whose [str] is [msg]. *)
Definition Transport : Type := Request -> string + Response.

End requests.

(** The attributes of a client object ([last_etag] exists only once a
    response carried an [ETag]), the requests attempted so far (oldest
    first) and the lines printed. *)
Module client.

Import Py requests.

Record Client : Type := mk_Client {
  api_key : string;
  base_url : string;
  customer_id : option string;
  last_etag : option string
}.

Record State : Type := mk_State {
  self : Client;
  sent : list Request;
  stdout : list string
}.

(** A method: it starts in a state and ends, returning or raising, in a
    state. *)
Definition M (A : Type) : Type := State -> result A * State.

Definition ret {A : Type} (a : A) : M A := fun st => (Ok a, st).

Definition raise {A : Type} (e : exn) : M A := fun st => (Raise e, st).

Definition bind {A B : Type} (m : M A) (k : A -> M B) : M B :=
  fun st =>
    match m st with
    | (Ok a, st') => k a st'
    | (Raise e, st') => (Raise e, st')
    end.

(** A computation without effects, such as a validator. *)
Definition lift {A : Type} (r : result A) : M A := fun st => (r, st).

Definition get_self : M Client := fun st => (Ok (self st), st).

Definition set_last_etag (etag : string) : M unit :=
  fun st =>
    let c := self st in
    (Ok tt,
     mk_State (mk_Client (api_key c) (base_url c) (customer_id c) (Some etag))
              (sent st) (stdout st)).

Definition print (line : string) : M unit :=
  fun st => (Ok tt, mk_State (self st) (sent st) (stdout st ++ [line])%list).

(** [requests.request(...)] through the transport [t]: the attempt is
    recorded. *)
Definition request (t : Transport) (req : Request) : M (string + Response) :=
  fun st => (Ok (t req), mk_State (self st) (sent st ++ [req])%list (stdout st)).

Declare Scope client_scope.
Delimit Scope client_scope with client.

Notation "x <- e ;; k" := (bind e (fun x => k))
  (at level 61, e at next level, right associativity) : client_scope.
Notation "e ;; k" := (bind e (fun _ => k))
  (at level 61, right associativity) : client_scope.

(** The truth value of an optional string: [None] and the empty string are
    false. *)
Definition given (o : option string) : bool :=
  match o with
  | Some s => negb (String.eqb s "")
  | None => false
  end.

(** [DriveMyBoxClient(api_key, base_url, customer_id)]. *)
Definition __init__ (api_key base_url : string) (customer_id : option string)
  : Client :=
  mk_Client api_key (rstrip "/" base_url) customer_id None.

End client.

(* ===================================================================== *)
(** * [src/api/dMB.py]                                                     *)
(* ===================================================================== *)

Module dMB.

Import Py requests client.
Local Open Scope py_scope.

(** The values of the enumerations. *)
Definition TransportCategory : list string :=
  ["IMPORT"; "EXPORT"; "EMPTY_PICKUP"; "EMPTY_RETURN"; "ROUND_TRIP"].

Definition LoadStatus : list string := ["EMPTY"; "FULL"].

Definition LoadingPointType : list string :=
  ["WAREHOUSE"; "WEIGHING_STATION"; "SEAPORT_TERMINAL"; "RAILWAY_TERMINAL";
   "CUSTOMS_OFFICE"; "CONTAINER_DEPOT"; "VETERINARY_OFFICE"].

Definition ContainerServiceType : list string :=
  ["ACTIVE_COOLING"; "CUSTOMS_CLEARANCE"; "EXPORT_CUSTOMS"; "IMPORT_CUSTOMS";
   "VETERINARY_CONTROL"; "VET_STOP"; "EXTRA_STORAGE_DAY_20";
   "EXTRA_STORAGE_DAY_40"; "HANDLING_DEPOT"; "CUSTODIAN_CHANGE";
   "CHANGE_FEE_1"; "CHANGE_FEE_2"; "CHANGE_FEE_3"; "CHANGE_FEE_4";
   "CHANGE_FEE_5"; "CHASSIS_RENTAL"].

Definition SolasMethod : list string := ["WEIGHING"; "CALCULATION"].

Section Client.

(** [datetime.fromisoformat] of the interpreter that runs the client. *)
Variable fromisoformat : string -> result datetime.datetime.

(** The network, as [requests.request] shows it. *)
Variable transport : Transport.

(** Whether the error of [response.json()] is a [RequestException] (it is
    from requests 2.27 on; before, it is a plain [ValueError]). *)
Variable json_error_is_request_exception : bool.

Definition _validate_job_order_ref (job_order_ref : string) : result bool :=
  raise_if (String.eqb job_order_ref "" ||
            (128 <? Z.of_nat (String.length job_order_ref)))
    (ValueError (Text "Job order reference must be between 1 and 128 characters"))
    (Ok true).

Definition _validate_container_number (container_number : string)
  : result bool :=
  raise_if (String.eqb container_number "" ||
            negb (Z.of_nat (String.length container_number) =? 11))
    (ValueError (Text "Container number must be exactly 11 characters"))
    (Ok true).

Definition _validate_iso_code (iso_code : value) : result bool :=
  c <- py_or (Ok (negb (truthy iso_code)))
             (n <- py_len iso_code ;; Ok (4 <? n)) ;;
  raise_if c (ValueError (Text "ISO code must be at most 4 characters"))
    (Ok true).

Definition _validate_weight (weight : value) : result bool :=
  c <- py_lt weight 0 ;;
  raise_if c (ValueError (Text "Weight cannot be negative")) (Ok true).

Definition _validate_net_weight (weight : value) : result bool :=
  c <- py_or (py_lt weight 0) (py_gt weight 35000) ;;
  raise_if c (ValueError (Text "Net weight must be between 0 and 35000 kg"))
    (Ok true).

(** [all(key in c for key in keys)]. *)
Fixpoint all_in (keys : list string) (c : value) : result bool :=
  match keys with
  | [] => Ok true
  | key :: keys' => py_and (py_in key c) (all_in keys' c)
  end.

Definition _validate_address (address : value) : result bool :=
  has_geo <-
    py_and (py_in "geo_coordinates" address)
      (py_and (g <- getitem address "geo_coordinates" ;; py_in "latitude" g)
              (g <- getitem address "geo_coordinates" ;; py_in "longitude" g)) ;;
  has_address_fields <- all_in ["city"; "country"; "postal_code"] address ;;
  raise_if (negb (has_geo || has_address_fields))
    (ValueError (Text "Address must contain either geographic coordinates or city, country, and postal code"))
    (Ok true).

Definition _validate_date_time (dt_str : value) : result bool :=
  except_ValueError
    (s <- py_replace dt_str "Z" "+00:00" ;;
     fromisoformat s ;;
     Ok true)
    (Raise (ValueError (Text "Datetime must be in RFC 3339 format (e.g., 2021-01-31T12:30:25Z)"))).

(** [if c: body]. *)
Definition when (c : result bool) (body : result unit) : result unit :=
  b <- c ;; if b then body else Ok tt.

(** The body of the loop over [container['services']]. *)
Definition service_body (service : value) (_ : unit) : result unit :=
  c <- py_not_in "type" service ;;
  raise_if c (ValueError (Text "Container service must specify a type")) (
  except_ValueError
    (t <- getitem service "type" ;;
     enum_call "ContainerServiceType" ContainerServiceType t ;;
     Ok tt)
    (t <- getitem service "type" ;;
     Raise (ValueError [Lit "Invalid container service type: "; Str t])) ;;
  c <- py_and (py_in "quantity" service)
         (py_or (q <- getitem service "quantity" ;;
                 Ok (negb (isinstance_int q)))
                (q <- getitem service "quantity" ;; py_le q 0)) ;;
  raise_if c
    (ValueError (Text "Container service quantity must be a positive integer"))
    (Ok tt)).

Definition _validate_container_data (container : value) : result bool :=
  for_each
    (fun field _ =>
       c <- py_not_in field container ;;
       raise_if c (ValueError (Text ("Container must specify " ++ field)))
         (Ok tt))
    ["sequence_number"; "type_code"] tt ;;
  c <- py_and (py_in "sequence_number" container)
         (n <- getitem container "sequence_number" ;; py_lt n 0) ;;
  raise_if c
    (ValueError (Text "Container sequence number must be non-negative")) (
  when (py_in "type_code" container)
    (v <- getitem container "type_code" ;; _validate_iso_code v ;; Ok tt) ;;
  when (py_in "provision_at" container)
    (v <- getitem container "provision_at" ;; _validate_date_time v ;; Ok tt) ;;
  when (py_in "assumed_net_weight" container)
    (v <- getitem container "assumed_net_weight" ;;
     _validate_net_weight v ;; Ok tt) ;;
  when (py_in "assumed_tara" container)
    (v <- getitem container "assumed_tara" ;; _validate_weight v ;; Ok tt) ;;
  when (py_and (py_in "services" container)
          (v <- getitem container "services" ;; Ok (truthy v)))
    (services <- getitem container "services" ;;
     items <- py_iter services ;;
     for_each service_body items tt) ;;
  Ok true).

Definition _validate_booking_data (booking_data : value) : result bool :=
  c <- py_not_in "booking" booking_data ;;
  raise_if c (ValueError (Text "Booking data must contain a 'booking' field")) (
  booking <- getitem booking_data "booking" ;;
  c <- py_not_in "transport_category" booking ;;
  (if c then
     Raise (ValueError (Text "Booking must specify a transport category"))
   else
     tc <- getitem booking "transport_category" ;;
     raise_if (negb (in_strings tc TransportCategory))
       (ValueError [Lit "Invalid transport category: "; Str tc]) (Ok tt)) ;;
  c <- py_not_in "load_status" booking ;;
  (if c then Raise (ValueError (Text "Booking must specify a load status"))
   else
     ls <- getitem booking "load_status" ;;
     raise_if (negb (in_strings ls LoadStatus))
       (ValueError [Lit "Invalid load status: "; Str ls]) (Ok tt)) ;;
  c <- py_or (py_not_in "containers" booking_data)
         (v <- getitem booking_data "containers" ;; Ok (negb (truthy v))) ;;
  raise_if c (ValueError (Text "Booking must contain at least one container")) (
  containers <- getitem booking_data "containers" ;;
  items <- py_iter containers ;;
  for_each (fun container _ => _validate_container_data container ;; Ok tt)
    items tt ;;
  Ok true)).

(** The body of the loop over the loading points; the loop carries
    [provision_locations]. *)
Definition loading_point_body (point : value) (provision_locations : Z)
  : result Z :=
  c <- py_not_in "type" point ;;
  raise_if c (ValueError (Text "Loading point must specify a type")) (
  except_ValueError
    (t <- getitem point "type" ;;
     enum_call "LoadingPointType" LoadingPointType t ;;
     Ok tt)
    (t <- getitem point "type" ;;
     Raise (ValueError [Lit "Invalid loading point type: "; Str t])) ;;
  c <- py_not_in "sequence_number" point ;;
  raise_if c (ValueError (Text "Loading point must specify a sequence number")) (
  n <- getitem point "sequence_number" ;;
  c <- py_lt n 0 ;;
  raise_if c
    (ValueError (Text "Loading point sequence number must be non-negative")) (
  c <- py_not_in "address" point ;;
  raise_if c (ValueError (Text "Loading point must specify an address")) (
  a <- getitem point "address" ;;
  _validate_address a ;;
  c <- py_and (py_in "provision_location" point)
         (p <- getitem point "provision_location" ;; Ok (truthy p)) ;;
  Ok (if c then provision_locations + 1 else provision_locations))))).

(** The body of the loop over the containers of a quotation. *)
Definition quotation_container_body (container : value) (_ : unit)
  : result unit :=
  c <- py_not_in "sequence_number" container ;;
  raise_if c (ValueError (Text "Container must specify a sequence number")) (
  n <- getitem container "sequence_number" ;;
  c <- py_lt n 0 ;;
  raise_if c
    (ValueError (Text "Container sequence number must be non-negative")) (
  c <- py_not_in "type_code" container ;;
  raise_if c (ValueError (Text "Container must specify a type code")) (
  v <- getitem container "type_code" ;;
  _validate_iso_code v ;;
  c <- py_not_in "provision_at" container ;;
  raise_if c (ValueError (Text "Container must specify a provision date")) (
  v <- getitem container "provision_at" ;;
  _validate_date_time v ;;
  Ok tt)))).

Definition _validate_quotation_data (quotation_data : value) : result bool :=
  c <- py_not_in "route" quotation_data ;;
  raise_if c (ValueError (Text "Quotation data must contain a 'route' field")) (
  c <- py_or (route <- getitem quotation_data "route" ;;
              py_not_in "route_loading_points" route)
             (route <- getitem quotation_data "route" ;;
              points <- getitem route "route_loading_points" ;;
              Ok (negb (truthy points))) ;;
  raise_if c (ValueError (Text "Route must contain at least one loading point")) (
  route <- getitem quotation_data "route" ;;
  points <- getitem route "route_loading_points" ;;
  items <- py_iter points ;;
  provision_locations <- for_each loading_point_body items 0 ;;
  raise_if (1 <? provision_locations)
    (ValueError (Text "Route can have at most one provision location")) (
  c <- py_or (py_not_in "containers" quotation_data)
         (v <- getitem quotation_data "containers" ;; Ok (negb (truthy v))) ;;
  raise_if c (ValueError (Text "Quotation must contain at least one container")) (
  containers <- getitem quotation_data "containers" ;;
  items <- py_iter containers ;;
  for_each quotation_container_body items tt ;;
  Ok true)))).

Local Open Scope client_scope.

Definition _get_headers (if_match : option string)
  : M (list (string * string)) :=
  self <- get_self ;;
  let headers := [("Content-Type", "application/json");
                  ("x-api-key", api_key self)] in
  let headers :=
    if given (customer_id self) then
      (headers ++ [("x-customer-id", match customer_id self with
                                     | Some c => c
                                     | None => ""
                                     end)])%list
    else headers in
  let headers :=
    if given if_match then
      (headers ++ [("If-Match", match if_match with
                                | Some e => e
                                | None => ""
                                end)])%list
    else headers in
  ret headers.

(** What [_make_request] does with the outcome of [requests.request]. *)
Definition handle_outcome (outcome : string + Response) : M value :=
  match outcome with
  | inl e =>
      raise (DriveMyBoxAPIException 500 ("Request failed: " ++ e) VNone)
  | inr response =>
      let etag := headers_get "ETag" (resp_headers response) in
      (if given etag then
         set_last_etag (match etag with Some e => e | None => "" end)
       else ret tt) ;;
      if 400 <=? status_code response then
        let error_details :=
          match resp_json response with
          | inr body => body
          | inl _ => VDict [("raw", VStr (text response))]
          end in
        raise (DriveMyBoxAPIException (status_code response)
                 ("API request failed: " ++ reason response) error_details)
      else if negb (String.eqb (content response) "") then
        match resp_json response with
        | inr body => ret body
        | inl e =>
            if json_error_is_request_exception then
              raise (DriveMyBoxAPIException 500 ("Request failed: " ++ e)
                       VNone)
            else raise (ValueError (Text e))
        end
      else ret (VDict [])
  end.

Definition _make_request (method endpoint : string) (data params : option value)
                         (if_match : option string) : M value :=
  self <- get_self ;;
  let url := base_url self ++ "/" ++ lstrip "/" endpoint in
  headers <- _get_headers if_match ;;
  outcome <- request transport (mk_Request method url headers data params) ;;
  handle_outcome outcome.

Definition create_booking (booking_data : value) : M value :=
  lift (_validate_booking_data booking_data) ;;
  _make_request "POST" "/bookings" (Some booking_data) None None.

Definition get_booking (job_order_ref : string) : M value :=
  lift (_validate_job_order_ref job_order_ref) ;;
  _make_request "GET" ("/bookings/" ++ job_order_ref) None None None.

Definition update_booking (job_order_ref : string) (booking_data : value)
                          (if_match : option string) : M value :=
  lift (_validate_job_order_ref job_order_ref) ;;
  lift (_validate_booking_data booking_data) ;;
  if negb (given if_match) then
    raise (ValueError (Text "If-Match header is required for booking updates"))
  else
    _make_request "PUT" ("/bookings/" ++ job_order_ref) (Some booking_data)
      None if_match.

(** The truth value of an optional list: [None] and the empty list are
    false. *)
Definition nonempty {A : Type} (o : option (list A)) : bool :=
  match o with
  | Some (_ :: _) => true
  | _ => false
  end.

Definition elements {A : Type} (o : option (list A)) : list A :=
  match o with
  | Some xs => xs
  | None => []
  end.

Definition cancel_containers (job_order_ref : string)
                             (container_numbers : option (list string))
                             (container_sequence_numbers : option (list Z))
                             (if_match : option string) : M value :=
  lift (_validate_job_order_ref job_order_ref) ;;
  lift (if nonempty container_numbers then
          for_each (fun number _ =>
                      (_validate_container_number number ;; Ok tt)%py)
            (elements container_numbers) tt
        else Ok tt) ;;
  lift (if nonempty container_sequence_numbers then
          for_each (fun number _ =>
                      raise_if (number <? 0)
                        (ValueError (Text "Container sequence numbers must be non-negative"))
                        (Ok tt))
            (elements container_sequence_numbers) tt
        else Ok tt) ;;
  let params := [] in
  let params :=
    if nonempty container_numbers then
      (params ++ [("container_numbers",
                   VList (map VStr (elements container_numbers)))])%list
    else params in
  let params :=
    if nonempty container_sequence_numbers then
      (params ++ [("container_sequence_numbers",
                   VList (map VInt (elements container_sequence_numbers)))])%list
    else params in
  if negb (given if_match) then
    raise (ValueError (Text "If-Match header is required for container cancellation"))
  else
    _make_request "DELETE" ("/bookings/" ++ job_order_ref ++ "/containers")
      None (Some (VDict params)) if_match.

Definition get_booking_status (job_order_ref : string) : M value :=
  lift (_validate_job_order_ref job_order_ref) ;;
  _make_request "GET" ("/bookings/" ++ job_order_ref ++ "/status")
    None None None.

Definition create_price_quotation (quotation_data : value) : M value :=
  lift (_validate_quotation_data quotation_data) ;;
  _make_request "POST" "/quotations" (Some quotation_data) None None.

End Client.

End dMB.

(* ===================================================================== *)
(** * [app/api/dMB_client.py]                                              *)
(* ===================================================================== *)

Module dMB_client.

Import Py requests client.
Local Open Scope py_scope.

Definition LoadingPointType : list string :=
  ["WAREHOUSE"; "WEIGHING_STATION"; "SEAPORT_TERMINAL"; "RAILWAY_TERMINAL";
   "CUSTOMS_OFFICE"; "CONTAINER_DEPOT"; "VETERINARY_OFFICE"].

(** The list literal of [_validate_iso_code]. *)
Definition permitted_iso_codes : list string :=
  ["22B0"; "22G1"; "22R1"; "22TD"; "22TG"; "22TN"; "22U1"; "22U6"; "22V0";
   "25G1"; "25R1"; "25U1"; "25U6"; "2CG1"; "42B0"; "42G1"; "42R1"; "42TD";
   "42TG"; "42TN"; "42U1"; "42U6"; "42V0"; "45G1"; "45R1"; "45U1"; "45U6";
   "4CG1"; "4EG1"; "L5G1"; "L5R1"; "LEG1"].

Section Client.

Variable fromisoformat : string -> result datetime.datetime.
Variable transport : Transport.
Variable json_error_is_request_exception : bool.

Definition _validate_iso_code (iso_code : value) : result bool :=
  c <- py_or (Ok (negb (truthy iso_code)))
             (n <- py_len iso_code ;; Ok (4 <? n)) ;;
  raise_if c (ValueError (Text "ISO code must be at most 4 characters")) (
  raise_if (negb (in_strings iso_code permitted_iso_codes))
    (ValueError (Text "ISO type code {iso_code} not supported by ISO 6346 and therefore not supported by the API."))
    (Ok true)).

Fixpoint all_in (keys : list string) (c : value) : result bool :=
  match keys with
  | [] => Ok true
  | key :: keys' => py_and (py_in key c) (all_in keys' c)
  end.

Definition _validate_address (address : value) : result bool :=
  has_geo <-
    py_and (py_in "geo_coordinates" address)
      (py_and (g <- getitem address "geo_coordinates" ;; py_in "latitude" g)
              (g <- getitem address "geo_coordinates" ;; py_in "longitude" g)) ;;
  has_address_fields <- all_in ["city"; "country"; "postal_code"] address ;;
  raise_if (negb (has_geo || has_address_fields))
    (ValueError (Text "Address must contain either geographic coordinates or city, country, and postal code"))
    (Ok true).

Definition _validate_date_time (dt_str : value) : result bool :=
  except_ValueError
    (s <- py_replace dt_str "Z" "+00:00" ;;
     fromisoformat s ;;
     Ok true)
    (Raise (ValueError (Text "Datetime must be in RFC 3339 format (e.g., 2021-01-31T12:30:25Z)"))).

Definition loading_point_body (point : value) (provision_locations : Z)
  : result Z :=
  c <- py_not_in "type" point ;;
  raise_if c (ValueError (Text "Loading point must specify a type")) (
  except_ValueError
    (t <- getitem point "type" ;;
     enum_call "LoadingPointType" LoadingPointType t ;;
     Ok tt)
    (t <- getitem point "type" ;;
     Raise (ValueError [Lit "Invalid loading point type: "; Str t])) ;;
  c <- py_not_in "sequence_number" point ;;
  raise_if c (ValueError (Text "Loading point must specify a sequence number")) (
  n <- getitem point "sequence_number" ;;
  c <- py_lt n 0 ;;
  raise_if c
    (ValueError (Text "Loading point sequence number must be non-negative")) (
  c <- py_not_in "address" point ;;
  raise_if c (ValueError (Text "Loading point must specify an address")) (
  a <- getitem point "address" ;;
  _validate_address a ;;
  c <- py_and (py_in "provision_location" point)
         (p <- getitem point "provision_location" ;; Ok (truthy p)) ;;
  Ok (if c then provision_locations + 1 else provision_locations))))).

Definition quotation_container_body (container : value) (_ : unit)
  : result unit :=
  c <- py_not_in "sequence_number" container ;;
  raise_if c (ValueError (Text "Container must specify a sequence number")) (
  n <- getitem container "sequence_number" ;;
  c <- py_lt n 0 ;;
  raise_if c
    (ValueError (Text "Container sequence number must be non-negative")) (
  c <- py_not_in "type_code" container ;;
  raise_if c (ValueError (Text "Container must specify a type code")) (
  v <- getitem container "type_code" ;;
  _validate_iso_code v ;;
  c <- py_not_in "provision_at" container ;;
  raise_if c (ValueError (Text "Container must specify a provision date")) (
  v <- getitem container "provision_at" ;;
  _validate_date_time v ;;
  Ok tt)))).

Definition _validate_quotation_data (quotation_data : value) : result bool :=
  c <- py_not_in "route" quotation_data ;;
  raise_if c (ValueError (Text "Quotation data must contain a 'route' field")) (
  c <- py_or (route <- getitem quotation_data "route" ;;
              py_not_in "route_loading_points" route)
             (route <- getitem quotation_data "route" ;;
              points <- getitem route "route_loading_points" ;;
              Ok (negb (truthy points))) ;;
  raise_if c (ValueError (Text "Route must contain at least one loading point")) (
  route <- getitem quotation_data "route" ;;
  points <- getitem route "route_loading_points" ;;
  items <- py_iter points ;;
  provision_locations <- for_each loading_point_body items 0 ;;
  raise_if (1 <? provision_locations)
    (ValueError (Text "Route can have at most one provision location")) (
  c <- py_or (py_not_in "containers" quotation_data)
         (v <- getitem quotation_data "containers" ;; Ok (negb (truthy v))) ;;
  raise_if c (ValueError (Text "Quotation must contain at least one container")) (
  containers <- getitem quotation_data "containers" ;;
  items <- py_iter containers ;;
  for_each quotation_container_body items tt ;;
  Ok true)))).

Local Open Scope client_scope.

(** This variant prints the API key before it builds the headers. *)
Definition _get_headers (if_match : option string)
  : M (list (string * string)) :=
  self <- get_self ;;
  print (api_key self) ;;
  let headers := [("x-api-key", api_key self);
                  ("Content-Type", "application/json")] in
  let headers :=
    if given (customer_id self) then
      (headers ++ [("x-customer-id", match customer_id self with
                                     | Some c => c
                                     | None => ""
                                     end)])%list
    else headers in
  let headers :=
    if given if_match then
      (headers ++ [("If-Match", match if_match with
                                | Some e => e
                                | None => ""
                                end)])%list
    else headers in
  ret headers.

Definition handle_outcome (outcome : string + Response) : M value :=
  match outcome with
  | inl e =>
      raise (DriveMyBoxAPIException 500 ("Request failed: " ++ e) VNone)
  | inr response =>
      let etag := headers_get "ETag" (resp_headers response) in
      (if given etag then
         set_last_etag (match etag with Some e => e | None => "" end)
       else ret tt) ;;
      if 400 <=? status_code response then
        let error_details :=
          match resp_json response with
          | inr body => body
          | inl _ => VDict [("raw", VStr (text response))]
          end in
        raise (DriveMyBoxAPIException (status_code response)
                 ("API request failed: " ++ reason response) error_details)
      else if negb (String.eqb (content response) "") then
        match resp_json response with
        | inr body => ret body
        | inl e =>
            if json_error_is_request_exception then
              raise (DriveMyBoxAPIException 500 ("Request failed: " ++ e)
                       VNone)
            else raise (ValueError (Text e))
        end
      else ret (VDict [])
  end.

Definition _make_request (method endpoint : string) (data params : option value)
                         (if_match : option string) : M value :=
  self <- get_self ;;
  let url := base_url self ++ "/" ++ lstrip "/" endpoint in
  headers <- _get_headers if_match ;;
  outcome <- request transport (mk_Request method url headers data params) ;;
  handle_outcome outcome.

Definition create_price_quotation (quotation_data : value) : M value :=
  lift (_validate_quotation_data quotation_data) ;;
  _make_request "POST" "/booking/quotations" (Some quotation_data) None None.

End Client.

End dMB_client.

(* ===================================================================== *)
(** * [app/api/test.py]                                                    *)
(* ===================================================================== *)

Module test.

Import Py.

(** The quotation request that [test_price_quotation] sends. *)
Definition payload : value :=
  VDict [
    ("route", VDict [
       ("route_loading_points", VList [
          VDict [
            ("address", VDict [
               ("discriminator", VStr "ExtendedAddress");
               ("city", VStr "Musterstadt");
               ("country", VStr "Germany");
               ("postal_code", VStr "12345")]);
            ("discriminator", VStr "ExtendedRouteLoadingPointCreation");
            ("sequence_number", VInt 1);
            ("type", VStr "WAREHOUSE");
            ("provision_location", VBool true)]])]);
    ("containers", VList [
       VDict [
         ("sequence_number", VInt 1);
         ("type_code", VStr "22G1");
         ("provision_at", VStr "2025-05-01T12:30:25Z");
         ("assumed_net_weight", VInt 18000);
         ("assumed_tara", VInt 18000)]])].

End test.

(* ===================================================================== *)
(** * Vocabulary of the properties                                         *)
(* ===================================================================== *)

Import Py requests client.
Local Open Scope py_scope.

(** ** Addresses *)

Definition address_error : exn :=
  ValueError (Text "Address must contain either geographic coordinates or city, country, and postal code").

(** [g] is a mapping with the key [k]. *)
Definition holds_key (k : string) (g : value) : Prop :=
  exists d, g = VDict d /\ has_key k d = true.

Definition postal_triple (a : dict) : bool :=
  has_key "city" a && has_key "country" a && has_key "postal_code" a.

(** Validity of an address as the specification words it: a
    [geo_coordinates] entry with both [latitude] and [longitude], or all of
    [city], [country] and [postal_code]. *)
Definition address_valid (a : dict) : Prop :=
  (exists g, lookup "geo_coordinates" a = Some g /\
             holds_key "latitude" g /\ holds_key "longitude" g) \/
  postal_triple a = true.

(** The [geo_coordinates] entry of the address, when there is one, is a
    mapping. *)
Definition geo_is_mapping (a : dict) : Prop :=
  forall g, lookup "geo_coordinates" a = Some g -> exists d, g = VDict d.

(** What an address validator has to do on the address mapping [a]. *)
Definition address_contract (validate : value -> result bool) (a : dict)
  : Prop :=
  (geo_is_mapping a -> (validate (VDict a) = Ok true <-> address_valid a)) /\
  (geo_is_mapping a -> ~ address_valid a ->
   validate (VDict a) = Raise address_error) /\
  (forall g, lookup "geo_coordinates" a = Some (VDict g) ->
             has_key "latitude" g = true -> has_key "longitude" g = true ->
             validate (VDict a) = Ok true) /\
  (lookup "geo_coordinates" a = None -> postal_triple a = false ->
   validate (VDict a) = Raise address_error).

(** An address with the three postal fields whose [geo_coordinates] is
    [None] (JSON [null]). *)
Definition null_geo_address : dict :=
  [("geo_coordinates", VNone); ("city", VStr "Musterstadt");
   ("country", VStr "Germany"); ("postal_code", VStr "12345")].

Definition geo_address : dict :=
  [("geo_coordinates", VDict [("latitude", VInt 53); ("longitude", VInt 10)])].

(** ** Timestamps *)

Definition date_time_error : exn :=
  ValueError (Text "Datetime must be in RFC 3339 format (e.g., 2021-01-31T12:30:25Z)").

(** The [date-time] production of RFC 3339, section 5.6:
    [YYYY-MM-DDThh:mm:ss[.fraction](Z|+hh:mm|-hh:mm)], with the ranges of
    section 5.7 (a second may be 60). *)
Module rfc3339.

Definition digit (c : ascii) : option Z := datetime.digit_of c.

(** [n] digits, as a number, and the rest of the string. *)
Fixpoint digits (n : nat) (acc : Z) (s : string) : option (Z * string) :=
  match n with
  | O => Some (acc, s)
  | S n' =>
      match s with
      | String c s' =>
          match digit c with
          | Some d => digits n' (10 * acc + d) s'
          | None => None
          end
      | EmptyString => None
      end
  end.

Definition expect (cs : list ascii) (s : string) : option string :=
  match s with
  | String c s' => if existsb (Ascii.eqb c) cs then Some s' else None
  | EmptyString => None
  end.

Fixpoint skip_digits (s : string) : string :=
  match s with
  | String c s' => match digit c with Some _ => skip_digits s' | None => s end
  | EmptyString => EmptyString
  end.

Definition secfrac (s : string) : option string :=
  match s with
  | String "." (String c s') =>
      match digit c with Some _ => Some (skip_digits s') | None => None end
  | String "." EmptyString => None
  | _ => Some s
  end.

Definition offset (s : string) : bool :=
  match s with
  | String c EmptyString => Ascii.eqb c "Z" || Ascii.eqb c "z"
  | _ =>
      match expect ["+"; "-"]%char s with
      | None => false
      | Some s =>
          match digits 2 0 s with
          | None => false
          | Some (h, s) =>
              match expect [":"]%char s with
              | None => false
              | Some s =>
                  match digits 2 0 s with
                  | Some (m, EmptyString) => (h <=? 23) && (m <=? 59)
                  | _ => false
                  end
              end
          end
      end
  end.

Definition bound {A : Type} (o : option A) (k : A -> bool) : bool :=
  match o with
  | Some a => k a
  | None => false
  end.

Definition date_time (s : string) : bool :=
  bound (digits 4 0 s) (fun '(y, s) =>
  bound (expect ["-"]%char s) (fun s =>
  bound (digits 2 0 s) (fun '(mo, s) =>
  bound (expect ["-"]%char s) (fun s =>
  bound (digits 2 0 s) (fun '(d, s) =>
  bound (expect ["T"; "t"]%char s) (fun s =>
  bound (digits 2 0 s) (fun '(h, s) =>
  bound (expect [":"]%char s) (fun s =>
  bound (digits 2 0 s) (fun '(mi, s) =>
  bound (expect [":"]%char s) (fun s =>
  bound (digits 2 0 s) (fun '(sec, s) =>
  bound (secfrac s) (fun s =>
  datetime.between 1 mo 12 &&
  datetime.between 1 d (datetime._days_in_month y mo) &&
  (h <=? 23) && (mi <=? 59) && (sec <=? 60) &&
  offset s)))))))))))).

End rfc3339.

(** What the timestamp validator [validate] does on the string [s], given
    the parser [fromisoformat] it calls. *)
Definition date_time_contract
    (fromisoformat : string -> result datetime.datetime)
    (validate : value -> result bool) (s : string) : Prop :=
  (validate (VStr s) = Ok true <->
   exists d, fromisoformat (replace_char "Z" "+00:00" s) = Ok d) /\
  (validate (VStr s) = Raise date_time_error <->
   exists msg, fromisoformat (replace_char "Z" "+00:00" s) =
               Raise (ValueError msg)) /\
  validate (VStr (s ++ "Z")) = validate (VStr (s ++ "+00:00")).

(** ** Quotation documents *)

Definition route_missing_error : exn :=
  ValueError (Text "Quotation data must contain a 'route' field").

Definition route_empty_error : exn :=
  ValueError (Text "Route must contain at least one loading point").

Definition provision_error : exn :=
  ValueError (Text "Route can have at most one provision location").

(** The route of the document is a mapping that lists the loading points
    [points]. *)
Definition route_points (doc : dict) (points : list value) : Prop :=
  exists r, lookup "route" doc = Some (VDict r) /\
            lookup "route_loading_points" r = Some (VList points).

(** The loading point sets [provision_location] to a true value. *)
Definition sets_provision (point : value) : bool :=
  match point with
  | VDict d =>
      match lookup "provision_location" d with
      | Some v => truthy v
      | None => false
      end
  | _ => false
  end.

Definition provision_count (points : list value) : nat :=
  List.length (filter sets_provision points).

(** The fields of a loading point that the route checks compute with have
    the types of the data model: the point is a mapping, its
    [sequence_number], when present, is an integer, and its [address], when
    present, is a mapping whose [geo_coordinates], when present, is a
    mapping. *)
Definition well_typed_point (point : value) : Prop :=
  exists d, point = VDict d /\
    (forall n, lookup "sequence_number" d = Some n -> isinstance_int n = true) /\
    (forall a, lookup "address" d = Some a ->
               exists ad, a = VDict ad /\ geo_is_mapping ad).

(** What quotation validation has to do about the route of [doc]. *)
Definition route_contract (validate : value -> result bool) (doc : dict)
  : Prop :=
  (lookup "route" doc = None ->
   validate (VDict doc) = Raise route_missing_error) /\
  (forall r, lookup "route" doc = Some (VDict r) ->
             lookup "route_loading_points" r = None \/
             lookup "route_loading_points" r = Some (VList []) ->
             validate (VDict doc) = Raise route_empty_error) /\
  (forall points, route_points doc points ->
                  (2 <= provision_count points)%nat ->
                  (exists e, validate (VDict doc) = Raise e) /\
                  (Forall well_typed_point points ->
                   exists msg, validate (VDict doc) = Raise (ValueError msg))) /\
  (forall points, route_points doc points ->
                  (provision_count points <= 1)%nat ->
                  validate (VDict doc) <> Raise provision_error).

(** The part of [_validate_quotation_data] after the route: the loop over
    the containers with its guard. *)
Definition containers_part (body : value -> unit -> result unit)
                           (quotation_data : value) : result bool :=
  c <- py_or (py_not_in "containers" quotation_data)
         (v <- getitem quotation_data "containers" ;; Ok (negb (truthy v))) ;;
  raise_if c (ValueError (Text "Quotation must contain at least one container")) (
  containers <- getitem quotation_data "containers" ;;
  items <- py_iter containers ;;
  for_each body items tt ;;
  Ok true).

(** The computation raises only exceptions with the property [P]. *)
Definition raises_only {A : Type} (P : exn -> Prop) (r : result A) : Prop :=
  forall e, r = Raise e -> P e.

(** A loading point of the test payload with the given sequence number. *)
Definition point_with_sequence_number (n : value) : value :=
  VDict [("address", VDict [("city", VStr "Musterstadt");
                            ("country", VStr "Germany");
                            ("postal_code", VStr "12345")]);
         ("sequence_number", n);
         ("type", VStr "WAREHOUSE");
         ("provision_location", VBool true)].

Definition quotation_with_points (points : list value) : dict :=
  [("route", VDict [("route_loading_points", VList points)]);
   ("containers", VList [
      VDict [("sequence_number", VInt 1);
             ("type_code", VStr "22G1");
             ("provision_at", VStr "2025-05-01T12:30:25Z")]])].

(** The part of [_validate_quotation_data] up to the check of the provision
    locations, followed by [rest]. *)
Definition route_part (rest : result bool) (quotation_data : value)
  : result bool :=
  c <- py_not_in "route" quotation_data ;;
  raise_if c route_missing_error (
  c <- py_or (route <- getitem quotation_data "route" ;;
              py_not_in "route_loading_points" route)
             (route <- getitem quotation_data "route" ;;
              points <- getitem route "route_loading_points" ;;
              Ok (negb (truthy points))) ;;
  raise_if c route_empty_error (
  route <- getitem quotation_data "route" ;;
  points <- getitem route "route_loading_points" ;;
  items <- py_iter points ;;
  provision_locations <- for_each dMB.loading_point_body items 0 ;;
  raise_if (1 <? provision_locations) provision_error rest)).

Definition no_provision_error {A : Type} (r : result A) : Prop :=
  raises_only (fun e => e <> provision_error) r.

(** ** Booking documents *)

Definition containers_missing_error : exn :=
  ValueError (Text "Booking must contain at least one container").

(** The booking names a transport category and a load status of the
    enumerations. *)
Definition valid_booking (b : dict) : Prop :=
  (exists tc, lookup "transport_category" b = Some tc /\
              in_strings tc dMB.TransportCategory = true) /\
  (exists ls, lookup "load_status" b = Some ls /\
              in_strings ls dMB.LoadStatus = true).

(** A booking document whose containers are listed under [booking] only. *)
Definition nested_containers_document : dict :=
  [("booking", VDict [("transport_category", VStr "IMPORT");
                      ("load_status", VStr "FULL");
                      ("containers", VList [
                         VDict [("sequence_number", VInt 1);
                                ("type_code", VStr "22G1")]])])].

(** The computation raises. *)
Definition fails {A : Type} (r : result A) : Prop := exists e, r = Raise e.

(** ** Cancellation and update *)

Definition job_order_ref_error : exn :=
  ValueError (Text "Job order reference must be between 1 and 128 characters").

Definition container_number_error : exn :=
  ValueError (Text "Container number must be exactly 11 characters").

Definition sequence_number_error : exn :=
  ValueError (Text "Container sequence numbers must be non-negative").

Definition if_match_cancel_error : exn :=
  ValueError (Text "If-Match header is required for container cancellation").

Definition if_match_update_error : exn :=
  ValueError (Text "If-Match header is required for booking updates").

Definition job_order_ref_valid (ref : string) : bool :=
  negb (String.eqb ref "") && (Z.of_nat (String.length ref) <=? 128).

Definition numbers_valid (numbers : list string) : bool :=
  forallb (fun n => Nat.eqb (String.length n) 11) numbers.

Definition sequence_numbers_valid (numbers : list Z) : bool :=
  forallb (fun k => 0 <=? k) numbers.

(** A client of the test environment that has not sent anything. *)
Definition fresh_state : State :=
  mk_State (__init__ "KEY" "https://api.test.drivemybox.io/" None) [] [].

(** A network that answers every request with the response [r]. *)
Definition always (r : Response) : Transport := fun _ => inr r.

Definition no_content : Response := mk_Response 204 "No Content" [] "" "" (inl "Expecting value").

(** ** Responses *)

(** What [_make_request] has to make of the outcome of the request, for
    the result [r] of the call. *)
Definition outcome_contract (outcome : string + Response)
                            (r : result value) : Prop :=
  match outcome with
  | inl msg =>
      r = Raise (DriveMyBoxAPIException 500 ("Request failed: " ++ msg) VNone)
  | inr response =>
      (400 <= status_code response ->
       r = Raise (DriveMyBoxAPIException (status_code response)
                    ("API request failed: " ++ reason response)
                    match resp_json response with
                    | inr body => body
                    | inl _ => VDict [("raw", VStr (text response))]
                    end)) /\
      (status_code response < 400 -> content response = "" ->
       r = Ok (VDict [])) /\
      (status_code response < 400 -> content response <> "" ->
       forall body, resp_json response = inr body -> r = Ok body)
  end.

(** What a call of [_make_request] has to do from the state [st]: it sends
    one request, with the given method, body and query parameters, and
    treats the outcome as above. *)
Definition dispatch_contract (transport : Transport)
                             (make_request : M value)
                             (method : string) (data params : option value)
                             (st : State) : Prop :=
  exists req,
    sent (snd (make_request st)) = (sent st ++ [req])%list /\
    requests.method req = method /\
    requests.json req = data /\
    requests.params req = params /\
    outcome_contract (transport req) (fst (make_request st)).

Definition unauthorized : Response :=
  mk_Response 401 "Unauthorized" [("ETag", "v1")]
    "{'message': 'Unauthorized'}" "{'message': 'Unauthorized'}"
    (inr (VDict [("message", VStr "Unauthorized")])).

Definition bad_gateway : Response :=
  mk_Response 502 "Bad Gateway" [] "<html>Bad Gateway</html>"
    "<html>Bad Gateway</html>" (inl "Expecting value").

Definition quotation_answer : Response :=
  mk_Response 200 "OK" [] "{'prices': []}" "{'prices': []}"
    (inr (VDict [("prices", VList [])])).

(** A response with a success status whose body is not JSON. *)
Definition html_page : Response :=
  mk_Response 200 "OK" [] "<html>Maintenance</html>"
    "<html>Maintenance</html>" (inl "Expecting value").

(** A network that cannot be reached. *)
Definition unreachable : Transport := fun _ => inl "Connection refused".


(** ** Requests *)

(** The value of the header [name] in a list of headers (names compared as
    they are written). *)
Fixpoint header (name : string) (hs : list (string * string))
  : option string :=
  match hs with
  | [] => None
  | (k, v) :: hs' => if String.eqb k name then Some v else header name hs'
  end.

(** An optional string, when it counts as given. *)
Definition when_given (o : option string) : option string :=
  if given o then o else None.

(** The headers that [dMB._get_headers] returns in the state [st]. *)
Definition headers_of (st : State) (if_match : option string)
  : list (string * string) :=
  match fst (dMB._get_headers if_match st) with
  | Ok hs => hs
  | Raise _ => []
  end.

(** The headers that [dMB_client._get_headers] returns in the state [st]. *)
Definition client_headers_of (st : State) (if_match : option string)
  : list (string * string) :=
  match fst (dMB_client._get_headers if_match st) with
  | Ok hs => hs
  | Raise _ => []
  end.

(** The address that [_make_request] computes for [endpoint]. *)
Definition url_of (st : State) (endpoint : string) : string :=
  base_url (self st) ++ "/" ++ lstrip "/" endpoint.

(** The state once [req] has been sent. *)
Definition after_sending (req : Request) (st : State) : State :=
  mk_State (self st) (sent st ++ [req])%list (stdout st).

(** The state once [line] has been printed. *)
Definition after_printing (line : string) (st : State) : State :=
  mk_State (self st) (sent st) (stdout st ++ [line])%list.



(** The [ETag] that a call keeps from the outcome of its request. *)
Definition etag_of (outcome : string + Response) : option string :=
  match outcome with
  | inl _ => None
  | inr response => when_given (headers_get "ETag" (resp_headers response))
  end.

(** The state once the [ETag] of an outcome, if any, has been kept. *)
Definition keep_etag (etag : option string) (st : State) : State :=
  match etag with
  | Some e =>
      mk_State (mk_Client (api_key (self st)) (base_url (self st))
                          (customer_id (self st)) (Some e))
               (sent st) (stdout st)
  | None => st
  end.

(** The request that [dMB._make_request] sends from the state [st]. *)
Definition request_of (st : State) (method endpoint : string)
                      (data params : option value) (if_match : option string)
  : Request :=
  mk_Request method (url_of st endpoint) (headers_of st if_match) data params.

(** The request that [dMB_client._make_request] sends from the state
    [st]. *)
Definition client_request_of (st : State) (method endpoint : string)
                             (data params : option value)
                             (if_match : option string) : Request :=
  mk_Request method (url_of st endpoint) (client_headers_of st if_match)
             data params.

(** What the headers [hs] of a request have to be, for a client in the state
    [st] and the token [if_match]. *)
Definition headers_contract (st : State) (if_match : option string)
                            (hs : list (string * string)) : Prop :=
  header "Content-Type" hs = Some "application/json" /\
  header "x-api-key" hs = Some (api_key (self st)) /\
  header "x-customer-id" hs = when_given (customer_id (self st)) /\
  header "If-Match" hs = when_given if_match /\
  forall name, header name hs <> None ->
               In name ["Content-Type"; "x-api-key"; "x-customer-id";
                        "If-Match"].

(** The operation [operation] validates [document] with [validate] and,
    when that accepts, sends it as the body of the POST request [request] to
    [endpoint], from the state [before]. *)
Definition forwards (transport : Transport)
                    (json_error_is_request_exception : bool)
                    (document : value) (st : State)
                    (validate : value -> result bool) (operation : M value)
                    (request : Request) (endpoint : string) (before : State)
  : Prop :=
  (forall e, validate document = Raise e -> operation st = (Raise e, st)) /\
  (validate document = Ok true ->
   operation st =
   dMB.handle_outcome json_error_is_request_exception (transport request)
     (after_sending request before)) /\
  method request = "POST" /\
  url request = base_url (self st) ++ endpoint /\
  json request = Some document /\
  params request = None.

(** ** Accepted documents *)

(** A loading point that passes the checks of the route: a mapping with a
    [type] of the enumeration, a [sequence_number] that is a non-negative
    integer, and an [address] that the address validator accepts. *)
Definition loading_point_ok (point : value) : Prop :=
  exists d t n k a,
    point = VDict d /\
    lookup "type" d = Some t /\ in_strings t dMB.LoadingPointType = true /\
    lookup "sequence_number" d = Some n /\ as_int n = Ok k /\ 0 <= k /\
    lookup "address" d = Some a /\ dMB._validate_address a = Ok true.

(** A container that passes the checks of a quotation: a mapping with a
    [sequence_number] that is a non-negative integer, a [type_code] that the
    ISO code validator accepts and a [provision_at] that the timestamp
    validator accepts. *)
Definition quotation_container_ok
    (validate_iso_code validate_date_time : value -> result bool)
    (container : value) : Prop :=
  exists d n k t v,
    container = VDict d /\
    lookup "sequence_number" d = Some n /\ as_int n = Ok k /\ 0 <= k /\
    lookup "type_code" d = Some t /\ validate_iso_code t = Ok true /\
    lookup "provision_at" d = Some v /\ validate_date_time v = Ok true.

(** A quotation document that passes: its route is a mapping whose
    [route_loading_points] is a non-empty list of loading points that pass,
    at most one of which sets [provision_location], and its [containers] is
    a non-empty list of containers that pass. *)
Definition quotation_ok
    (validate_iso_code validate_date_time : value -> result bool)
    (doc : dict) : Prop :=
  exists p ps c cs,
    route_points doc (p :: ps) /\
    Forall loading_point_ok (p :: ps) /\
    (provision_count (p :: ps) <= 1)%nat /\
    lookup "containers" doc = Some (VList (c :: cs)) /\
    Forall (quotation_container_ok validate_iso_code validate_date_time)
           (c :: cs).

(** The body of the loop over the containers of a quotation, for the ISO
    code validator and the timestamp validator of either client. *)
Definition container_checks
    (validate_iso_code validate_date_time : value -> result bool)
    (container : value) (_ : unit) : result unit :=
  c <- py_not_in "sequence_number" container ;;
  raise_if c (ValueError (Text "Container must specify a sequence number")) (
  n <- getitem container "sequence_number" ;;
  c <- py_lt n 0 ;;
  raise_if c
    (ValueError (Text "Container sequence number must be non-negative")) (
  c <- py_not_in "type_code" container ;;
  raise_if c (ValueError (Text "Container must specify a type code")) (
  v <- getitem container "type_code" ;;
  validate_iso_code v ;;
  c <- py_not_in "provision_at" container ;;
  raise_if c (ValueError (Text "Container must specify a provision date")) (
  v <- getitem container "provision_at" ;;
  validate_date_time v ;;
  Ok tt)))).

(** A container service that passes: a mapping with a [type] of the
    enumeration whose [quantity], when present, is a positive integer. *)
Definition service_ok (service : value) : Prop :=
  exists d t,
    service = VDict d /\
    lookup "type" d = Some t /\
    in_strings t dMB.ContainerServiceType = true /\
    forall q, lookup "quantity" d = Some q ->
              exists k, as_int q = Ok k /\ 0 < k.

(** A container of a booking that passes, as a mapping [d]. *)
Definition booking_container_ok
    (validate_date_time : value -> result bool) (d : dict) : Prop :=
  (exists n k, lookup "sequence_number" d = Some n /\
               as_int n = Ok k /\ 0 <= k) /\
  (exists t, lookup "type_code" d = Some t /\
             dMB._validate_iso_code t = Ok true) /\
  (forall v, lookup "provision_at" d = Some v ->
             validate_date_time v = Ok true) /\
  (forall v, lookup "assumed_net_weight" d = Some v ->
             exists k, as_int v = Ok k /\ 0 <= k <= 35000) /\
  (forall v, lookup "assumed_tara" d = Some v ->
             exists k, as_int v = Ok k /\ 0 <= k) /\
  (forall sv, lookup "services" d = Some sv -> truthy sv = true ->
              exists s ss, sv = VList (s :: ss) /\
                           Forall service_ok (s :: ss)).

(** A booking document that passes, as a value. *)
Definition booking_document_ok
    (validate_container : value -> result bool) (booking_data : value)
  : Prop :=
  exists doc b c cs,
    booking_data = VDict doc /\
    lookup "booking" doc = Some (VDict b) /\
    valid_booking b /\
    lookup "containers" doc = Some (VList (c :: cs)) /\
    Forall (fun x => validate_container x = Ok true) (c :: cs).

(* ===================================================================== *)
(** * Properties                                                           *)
(* ===================================================================== *)

(** ** Weights *)

(** C6: [_validate_weight] accepts every weight that is at least 0 and
    rejects every negative one with a [ValueError]; [_validate_net_weight]
    accepts exactly the net weights from 0 to 35000, both included, and
    rejects the others with a [ValueError], among them -1 and 35001. *)
Theorem weight_validation (w : Z) :
  (0 <= w -> dMB._validate_weight (VInt w) = Ok true) /\
  (w < 0 -> exists msg, dMB._validate_weight (VInt w) = Raise (ValueError msg)) /\
  (0 <= w <= 35000 -> dMB._validate_net_weight (VInt w) = Ok true) /\
  (w < 0 \/ 35000 < w ->
   exists msg, dMB._validate_net_weight (VInt w) = Raise (ValueError msg)) /\
  (exists msg, dMB._validate_net_weight (VInt (-1)) = Raise (ValueError msg)) /\
  (exists msg, dMB._validate_net_weight (VInt 35001) = Raise (ValueError msg)).
Proof.
  unfold dMB._validate_weight, dMB._validate_net_weight, py_or, py_lt, py_gt.
  cbn [as_int Py.bind].
  repeat split.
  - intros H. destruct (Z.ltb_spec w 0); [lia | reflexivity].
  - intros H. destruct (Z.ltb_spec w 0); [eexists; reflexivity | lia].
  - intros H. destruct (Z.ltb_spec w 0); [lia |]. cbn [Py.bind].
    destruct (Z.ltb_spec 35000 w); [lia | reflexivity].
  - intros H. destruct (Z.ltb_spec w 0); [eexists; reflexivity |].
    cbn [Py.bind].
    destruct (Z.ltb_spec 35000 w); [eexists; reflexivity | lia].
  - eexists; reflexivity.
  - eexists; reflexivity.
Qed.

Lemma weight_validation_witness :
  dMB._validate_weight (VInt 18000) = Ok true /\
  (exists msg, dMB._validate_weight (VInt (-5)) = Raise (ValueError msg)) /\
  dMB._validate_net_weight (VInt 35000) = Ok true /\
  (exists msg, dMB._validate_net_weight (VInt 35001) = Raise (ValueError msg)).
Proof.
  split; [apply (proj1 (weight_validation 18000)); lia |].
  split; [apply (proj1 (proj2 (weight_validation (-5)))); lia |].
  split; [apply (proj1 (proj2 (proj2 (weight_validation 35000)))); lia |].
  apply (proj1 (proj2 (proj2 (proj2 (weight_validation 35001))))); lia.
Defined.

(** ** ISO type codes *)

Lemma in_strings_In (s : string) (codes : list string) :
  in_strings (VStr s) codes = true <-> In s codes.
Proof.
  unfold in_strings. rewrite existsb_exists. cbn [eq_str]. split.
  - intros [k [Hin Heq]]. apply String.eqb_eq in Heq. now subst.
  - intros Hin. exists s. split; [assumption | apply String.eqb_refl].
Qed.

(** The two tests of the strict validator on a string, spelled out. *)
Lemma strict_iso_code_str (s : string) :
  dMB_client._validate_iso_code (VStr s) =
  if String.eqb s "" || (4 <? Z.of_nat (String.length s)) then
    Raise (ValueError (Text "ISO code must be at most 4 characters"))
  else if in_strings (VStr s) dMB_client.permitted_iso_codes then Ok true
  else Raise (ValueError (Text "ISO type code {iso_code} not supported by ISO 6346 and therefore not supported by the API.")).
Proof.
  unfold dMB_client._validate_iso_code, py_or. cbn [truthy py_len Py.bind].
  rewrite negb_involutive.
  destruct (String.eqb s ""); cbn [Py.bind orb raise_if]; [reflexivity |].
  destruct (4 <? Z.of_nat (String.length s)); cbn [raise_if]; [reflexivity |].
  destruct (in_strings (VStr s) dMB_client.permitted_iso_codes); reflexivity.
Qed.

Lemma loose_iso_code_str (s : string) :
  dMB._validate_iso_code (VStr s) =
  if String.eqb s "" || (4 <? Z.of_nat (String.length s)) then
    Raise (ValueError (Text "ISO code must be at most 4 characters"))
  else Ok true.
Proof.
  unfold dMB._validate_iso_code, py_or. cbn [truthy py_len Py.bind].
  rewrite negb_involutive.
  destruct (String.eqb s ""); cbn [Py.bind orb raise_if]; [reflexivity |].
  destruct (4 <? Z.of_nat (String.length s)); reflexivity.
Qed.

Lemma permitted_iso_codes_length_4 :
  Forall (fun code => String.length code = 4%nat) dMB_client.permitted_iso_codes.
Proof. repeat constructor. Qed.

Lemma permitted_iso_codes_NoDup : NoDup dMB_client.permitted_iso_codes.
Proof.
  unfold dMB_client.permitted_iso_codes.
  repeat (constructor; [cbn [In]; intuition discriminate |]).
  constructor.
Qed.

Lemma strict_iso_code_accepts (s : string) :
  dMB_client._validate_iso_code (VStr s) = Ok true <->
  In s dMB_client.permitted_iso_codes.
Proof.
  rewrite strict_iso_code_str. split.
  - destruct (String.eqb s "" || (4 <? Z.of_nat (String.length s)));
      [discriminate |].
    destruct (in_strings (VStr s) dMB_client.permitted_iso_codes) eqn:E;
      [| discriminate].
    intros _. now apply in_strings_In.
  - intros Hin.
    pose proof (proj1 (Forall_forall _ _) permitted_iso_codes_length_4 s Hin)
      as Hlen.
    cbv beta in Hlen.
    assert (String.eqb s "" = false) as ->.
    { apply String.eqb_neq. intros ->. discriminate Hlen. }
    assert ((4 <? Z.of_nat (String.length s)) = false) as ->.
    { apply Z.ltb_ge. lia. }
    apply in_strings_In in Hin. cbn [orb]. now rewrite Hin.
Qed.

(** C3, as amended: in the strict variant [_validate_iso_code] succeeds
    for a string exactly when the string is non-empty, has at most 4
    characters and is in the allow-list of the code, which holds 32
    distinct type codes; every code of the list is accepted, and every code
    longer than 4 characters or outside the list is rejected with a
    [ValueError]. *)
Theorem strict_iso_code_allow_list (s : string) :
  (dMB_client._validate_iso_code (VStr s) = Ok true <->
   s <> "" /\ (String.length s <= 4)%nat /\
   In s dMB_client.permitted_iso_codes) /\
  (In s dMB_client.permitted_iso_codes ->
   dMB_client._validate_iso_code (VStr s) = Ok true) /\
  ((4 < String.length s)%nat \/ ~ In s dMB_client.permitted_iso_codes ->
   exists msg, dMB_client._validate_iso_code (VStr s) = Raise (ValueError msg)) /\
  List.length dMB_client.permitted_iso_codes = 32%nat /\
  NoDup dMB_client.permitted_iso_codes.
Proof.
  split; [| split; [| split; [| split]]].
  - rewrite strict_iso_code_accepts. split; [| tauto].
    intros Hin.
    pose proof (proj1 (Forall_forall _ _) permitted_iso_codes_length_4 s Hin)
      as Hlen.
    cbv beta in Hlen.
    repeat split; [| lia | assumption].
    intros ->. discriminate Hlen.
  - apply strict_iso_code_accepts.
  - intros H. rewrite strict_iso_code_str.
    destruct (String.eqb s "" || (4 <? Z.of_nat (String.length s))) eqn:E1;
      [eexists; reflexivity |].
    destruct (in_strings (VStr s) dMB_client.permitted_iso_codes) eqn:E2;
      [| eexists; reflexivity].
    apply orb_false_iff in E1. destruct E1 as [_ E1]. apply Z.ltb_ge in E1.
    apply in_strings_In in E2. destruct H as [H | H]; [lia | contradiction].
  - reflexivity.
  - apply permitted_iso_codes_NoDup.
Qed.

Lemma strict_iso_code_allow_list_witness :
  dMB_client._validate_iso_code (VStr "22G1") = Ok true /\
  (exists msg, dMB_client._validate_iso_code (VStr "ZZZZ") = Raise (ValueError msg)) /\
  (exists msg, dMB_client._validate_iso_code (VStr "22G1X") = Raise (ValueError msg)).
Proof.
  split; [| split].
  - apply (proj1 (proj2 (strict_iso_code_allow_list "22G1"))).
    cbn [In dMB_client.permitted_iso_codes]. tauto.
  - apply (proj1 (proj2 (proj2 (strict_iso_code_allow_list "ZZZZ")))).
    right. cbn [In dMB_client.permitted_iso_codes]. intuition discriminate.
  - apply (proj1 (proj2 (proj2 (strict_iso_code_allow_list "22G1X")))).
    left. cbn [String.length]. lia.
Defined.

(** C3 fails as stated: the allow-list of the code has 32 codes, and no 33
    distinct codes are all accepted by the strict validator. *)
Lemma strict_iso_code_not_33_codes :
  List.length dMB_client.permitted_iso_codes = 32%nat /\
  ~ exists codes : list string,
      NoDup codes /\ List.length codes = 33%nat /\
      forall s, In s codes -> dMB_client._validate_iso_code (VStr s) = Ok true.
Proof.
  split; [reflexivity |].
  intros [codes [Hnd [Hlen Hacc]]].
  assert (incl codes dMB_client.permitted_iso_codes) as Hincl.
  { intros s Hs. apply strict_iso_code_accepts. now apply Hacc. }
  pose proof (NoDup_incl_length Hnd Hincl) as Hle.
  rewrite Hlen in Hle. cbn in Hle. lia.
Qed.

(** C8: every string that the strict validator (of [dMB_client]) accepts is
    accepted by the loose one (of [dMB]), and both reject the empty string
    and every string longer than 4 characters, with a [ValueError]. *)
Theorem strict_iso_code_refines_loose (s : string) :
  (dMB_client._validate_iso_code (VStr s) = Ok true ->
   dMB._validate_iso_code (VStr s) = Ok true) /\
  (s = "" \/ (4 < String.length s)%nat ->
   (exists msg, dMB_client._validate_iso_code (VStr s) = Raise (ValueError msg)) /\
   (exists msg, dMB._validate_iso_code (VStr s) = Raise (ValueError msg))).
Proof.
  rewrite strict_iso_code_str, loose_iso_code_str. split.
  - destruct (String.eqb s "" || (4 <? Z.of_nat (String.length s)));
      [discriminate | reflexivity].
  - intros H.
    assert (String.eqb s "" || (4 <? Z.of_nat (String.length s)) = true) as ->.
    { apply orb_true_iff. destruct H as [-> | H]; [now left |].
      right. apply Z.ltb_lt. lia. }
    split; eexists; reflexivity.
Qed.

Lemma strict_iso_code_refines_loose_witness :
  dMB._validate_iso_code (VStr "22G1") = Ok true /\
  (exists msg, dMB_client._validate_iso_code (VStr "") = Raise (ValueError msg)) /\
  (exists msg, dMB._validate_iso_code (VStr "22G1X") = Raise (ValueError msg)).
Proof.
  split; [| split].
  - apply (proj1 (strict_iso_code_refines_loose "22G1")). reflexivity.
  - apply (proj2 (strict_iso_code_refines_loose "")). now left.
  - apply (proj2 (strict_iso_code_refines_loose "22G1X")). right.
    cbn [String.length]. lia.
Defined.

(** ** Addresses *)

Lemma validate_address_variants :
  dMB_client._validate_address = dMB._validate_address.
Proof. reflexivity. Qed.

Lemma all_in_postal_triple (a : dict) :
  dMB.all_in ["city"; "country"; "postal_code"] (VDict a) = Ok (postal_triple a).
Proof.
  unfold postal_triple. cbn [dMB.all_in py_and py_in Py.bind].
  destruct (has_key "city" a); [| reflexivity].
  destruct (has_key "country" a); [| reflexivity].
  destruct (has_key "postal_code" a); reflexivity.
Qed.

(** Address validation on a dict, by the [geo_coordinates] entry. *)
Lemma validate_address_dict (a : dict) :
  dMB._validate_address (VDict a) =
  match lookup "geo_coordinates" a with
  | None => if postal_triple a then Ok true else Raise address_error
  | Some g =>
      has_geo <- py_and (py_in "latitude" g) (py_in "longitude" g) ;;
      if has_geo || postal_triple a then Ok true else Raise address_error
  end.
Proof.
  unfold dMB._validate_address. rewrite all_in_postal_triple.
  cbn [py_in getitem]. unfold has_key at 1, py_and, raise_if.
  destruct (lookup "geo_coordinates" a) as [g |]; cbn [Py.bind].
  - destruct (py_in "latitude" g) as [[|] | e]; cbn [Py.bind];
      [| destruct (postal_triple a); reflexivity | reflexivity].
    destruct (py_in "longitude" g) as [b | e]; cbn [Py.bind]; [| reflexivity].
    destruct (b || postal_triple a); reflexivity.
  - destruct (postal_triple a); reflexivity.
Qed.

(** With a mapping under [geo_coordinates], or none, the validator returns
    or raises its own error, as the two tests decide. *)
Lemma validate_address_mapping (a : dict) :
  geo_is_mapping a ->
  dMB._validate_address (VDict a) =
  if match lookup "geo_coordinates" a with
     | Some (VDict g) => has_key "latitude" g && has_key "longitude" g
     | _ => false
     end || postal_triple a
  then Ok true else Raise address_error.
Proof.
  intros Hgeo. rewrite validate_address_dict.
  destruct (lookup "geo_coordinates" a) as [g |] eqn:E; [| reflexivity].
  destruct (Hgeo g E) as [d ->].
  cbn [py_in py_and Py.bind].
  destruct (has_key "latitude" d); reflexivity.
Qed.

Lemma address_valid_decided (a : dict) :
  address_valid a <->
  match lookup "geo_coordinates" a with
  | Some (VDict g) => has_key "latitude" g && has_key "longitude" g
  | _ => false
  end || postal_triple a = true.
Proof.
  unfold address_valid, holds_key. rewrite orb_true_iff. split.
  - intros [[g [Hg [[d1 [-> H1]] [d2 [Heq H2]]]]] | H]; [left | now right].
    injection Heq as <-. rewrite Hg, H1, H2. reflexivity.
  - intros [H | H]; [left | now right].
    destruct (lookup "geo_coordinates" a) as [[| | | | | g] |];
      try discriminate H.
    apply andb_true_iff in H. destruct H as [H1 H2].
    exists (VDict g). repeat split; exists g; auto.
Qed.

Lemma address_contract_dMB (a : dict) :
  address_contract dMB._validate_address a.
Proof.
  unfold address_contract. split; [| split; [| split]].
  - intros Hgeo. rewrite (validate_address_mapping a) by assumption.
    rewrite address_valid_decided.
    destruct (_ || postal_triple a); split; congruence.
  - intros Hgeo Hnot. rewrite (validate_address_mapping a) by assumption.
    rewrite address_valid_decided in Hnot.
    destruct (_ || postal_triple a); [now contradiction Hnot | reflexivity].
  - intros g Hg Hlat Hlon. rewrite validate_address_dict, Hg.
    cbn [py_in py_and Py.bind]. rewrite Hlat, Hlon. reflexivity.
  - intros Hnone Hpost. rewrite validate_address_dict, Hnone, Hpost.
    reflexivity.
Qed.

(** Address validation on well-typed addresses: for every address mapping
    whose [geo_coordinates] entry, when present, is itself a mapping,
    [_validate_address] (of both clients) succeeds if and only if
    [geo_coordinates] is present with both [latitude] and [longitude], or
    [city], [country] and [postal_code] are all present, and raises its
    [ValueError] otherwise; it succeeds whenever both coordinates are
    present, whatever the other fields, and fails with that error whenever
    [geo_coordinates] is absent and one of the three postal fields is
    missing. *)
Theorem address_validation (a : dict) :
  address_contract dMB._validate_address a /\
  address_contract dMB_client._validate_address a.
Proof.
  rewrite validate_address_variants. split; apply address_contract_dMB.
Qed.

Lemma address_validation_witness :
  dMB._validate_address (VDict geo_address) = Ok true /\
  dMB_client._validate_address (VDict [("city", VStr "Musterstadt")]) =
  Raise address_error.
Proof.
  split.
  - apply (proj1 (proj2 (proj2 (proj1 (address_validation geo_address))))
             [("latitude", VInt 53); ("longitude", VInt 10)]);
      reflexivity.
  - apply (proj2 (proj2 (proj2 (proj2
             (address_validation [("city", VStr "Musterstadt")])))));
      reflexivity.
Defined.

(** C2: an address is to be accepted if and only if it has
    [geo_coordinates] with [latitude] and [longitude] or all of [city],
    [country] and [postal_code].  The address [null_geo_address] has the
    three postal fields, so it is valid, but its [geo_coordinates] is
    [None], and both validators stop on it with a [TypeError] instead of
    returning [True]; without the [geo_coordinates] entry the same address
    is accepted. *)
Lemma address_validation_null_geo :
  address_valid null_geo_address /\
  dMB._validate_address (VDict null_geo_address) = Raise TypeError /\
  dMB_client._validate_address (VDict null_geo_address) = Raise TypeError /\
  dMB._validate_address (VDict (tl null_geo_address)) = Ok true.
Proof.
  split; [right; reflexivity | repeat split].
Qed.

(** ** Timestamps *)

Lemma validate_date_time_variants :
  dMB_client._validate_date_time = dMB._validate_date_time.
Proof. reflexivity. Qed.

Lemma string_app_assoc (s t u : string) : (s ++ t) ++ u = s ++ (t ++ u).
Proof.
  induction s as [| a s IH]; cbn [String.append]; [reflexivity |].
  now rewrite IH.
Qed.

Lemma replace_char_app (c : ascii) (new s t : string) :
  replace_char c new (s ++ t) = replace_char c new s ++ replace_char c new t.
Proof.
  induction s as [| a s IH]; cbn [replace_char String.append]; [reflexivity |].
  rewrite IH. destruct (Ascii.eqb a c); [| reflexivity].
  now rewrite string_app_assoc.
Qed.

Lemma date_time_contract_dMB
    (fromisoformat : string -> result datetime.datetime) (s : string) :
  date_time_contract fromisoformat (dMB._validate_date_time fromisoformat) s.
Proof.
  unfold date_time_contract, dMB._validate_date_time, date_time_error.
  split; [| split].
  - cbn [py_replace Py.bind].
    destruct (fromisoformat (replace_char "Z" "+00:00" s)) as [d | e];
      cbn [Py.bind except_ValueError].
    + split; [intros _; now exists d | reflexivity].
    + split; [| intros [d Hd]; discriminate Hd].
      destruct e; discriminate.
  - cbn [py_replace Py.bind].
    destruct (fromisoformat (replace_char "Z" "+00:00" s)) as [d | e];
      cbn [Py.bind except_ValueError].
    + split; [discriminate | intros [msg Hm]; discriminate Hm].
    + destruct e; (split; [intros H | intros [m Hm]]);
        try discriminate; try reflexivity.
      now eexists.
  - cbn [py_replace]. rewrite !replace_char_app. reflexivity.
Qed.

(** What the timestamp validators decide: whatever
    [datetime.fromisoformat] the interpreter provides,
    [_validate_date_time] (of both clients) succeeds for a string if and
    only if that parser accepts the string in which every [Z] is replaced by
    [+00:00], and fails with the format-hint message if and only if the
    parser rejects it with a [ValueError]; a trailing [Z] is thus validated
    as the offset [+00:00]. *)
Theorem date_time_validation
    (fromisoformat : string -> result datetime.datetime) (s : string) :
  date_time_contract fromisoformat (dMB._validate_date_time fromisoformat) s /\
  date_time_contract fromisoformat
    (dMB_client._validate_date_time fromisoformat) s.
Proof.
  rewrite validate_date_time_variants. split; apply date_time_contract_dMB.
Qed.

Lemma date_time_validation_witness :
  dMB._validate_date_time datetime.fromisoformat
    (VStr "2021-01-31T12:30:25Z") = Ok true /\
  dMB_client._validate_date_time datetime.fromisoformat
    (VStr "2021-01-31 12h30") = Raise date_time_error.
Proof.
  split.
  - apply (proj1 (proj1 (date_time_validation datetime.fromisoformat
                           "2021-01-31T12:30:25Z"))).
    eexists. vm_compute. reflexivity.
  - apply (proj1 (proj2 (proj2 (date_time_validation datetime.fromisoformat
                                  "2021-01-31 12h30")))).
    eexists. vm_compute. reflexivity.
Defined.

(** C7: a string is to be accepted if and only if it is an RFC 3339
    timestamp.  With the parser of CPython 3.7 to 3.10, a date alone, which
    is no RFC 3339 timestamp, is accepted by both validators, and the
    RFC 3339 timestamp of a leap second is rejected with the format hint. *)
Lemma date_time_validation_not_rfc3339 :
  rfc3339.date_time "2021-01-31" = false /\
  dMB._validate_date_time datetime.fromisoformat (VStr "2021-01-31") = Ok true /\
  dMB_client._validate_date_time datetime.fromisoformat (VStr "2021-01-31")
  = Ok true /\
  rfc3339.date_time "2016-12-31T23:59:60Z" = true /\
  dMB._validate_date_time datetime.fromisoformat (VStr "2016-12-31T23:59:60Z")
  = Raise date_time_error.
Proof. repeat split; vm_compute; reflexivity. Qed.

(** ** The route of a quotation *)

Lemma loading_point_body_variants :
  dMB_client.loading_point_body = dMB.loading_point_body.
Proof. reflexivity. Qed.

(** The loop body on a mapping, check by check. *)
Lemma loading_point_body_dict (d : dict) (count : Z) :
  dMB.loading_point_body (VDict d) count =
  match lookup "type" d with
  | None => Raise (ValueError (Text "Loading point must specify a type"))
  | Some t =>
      if in_strings t dMB.LoadingPointType then
        match lookup "sequence_number" d with
        | None =>
            Raise (ValueError (Text "Loading point must specify a sequence number"))
        | Some n =>
            negative <- py_lt n 0 ;;
            if negative then
              Raise (ValueError (Text "Loading point sequence number must be non-negative"))
            else
              match lookup "address" d with
              | None =>
                  Raise (ValueError (Text "Loading point must specify an address"))
              | Some a =>
                  dMB._validate_address a ;;
                  Ok (count + if sets_provision (VDict d) then 1 else 0)
              end
        end
      else Raise (ValueError [Lit "Invalid loading point type: "; Str t])
  end.
Proof.
  unfold dMB.loading_point_body, py_not_in, py_not, py_and, raise_if,
    enum_call, sets_provision.
  cbn [py_in getitem Py.bind]. unfold has_key.
  destruct (lookup "type" d) as [t |]; cbn [Py.bind negb]; [| reflexivity].
  destruct (in_strings t dMB.LoadingPointType);
    cbn [Py.bind except_ValueError]; [| reflexivity].
  destruct (lookup "sequence_number" d) as [n |]; cbn [Py.bind negb];
    [| reflexivity].
  destruct (py_lt n 0) as [[|] | e]; cbn [Py.bind]; try reflexivity.
  destruct (lookup "address" d) as [a |]; cbn [Py.bind negb]; [| reflexivity].
  destruct (dMB._validate_address a) as [ok | e]; cbn [Py.bind];
    [| reflexivity].
  destruct (lookup "provision_location" d) as [v |]; cbn [Py.bind];
    [| now rewrite Z.add_0_r].
  destruct (truthy v); [reflexivity | now rewrite Z.add_0_r].
Qed.

(** On anything but a mapping the loop body raises. *)
Lemma loading_point_body_not_dict (p : value) (count : Z) :
  (forall d, p <> VDict d) ->
  exists e, dMB.loading_point_body p count = Raise e.
Proof.
  intros Hp. unfold dMB.loading_point_body, py_not_in, py_not, raise_if.
  destruct p as [| b | n | s | xs | d]; cbn [py_in Py.bind];
    try (eexists; reflexivity).
  - destruct (occurs "type" s); cbn [negb getitem Py.bind except_ValueError];
      eexists; reflexivity.
  - destruct (existsb _ xs); cbn [negb getitem Py.bind except_ValueError];
      eexists; reflexivity.
  - now contradiction (Hp d).
Qed.

Lemma loading_point_body_count (p : value) (count count' : Z) :
  dMB.loading_point_body p count = Ok count' ->
  count' = count + if sets_provision p then 1 else 0.
Proof.
  destruct p as [| b | n | s | xs | d];
    try (intros H;
         edestruct (loading_point_body_not_dict) as [e He];
         [| rewrite He in H; discriminate H]; intros d; discriminate).
  rewrite loading_point_body_dict.
  destruct (lookup "type" d) as [t |]; [| discriminate].
  destruct (in_strings t dMB.LoadingPointType); [| discriminate].
  destruct (lookup "sequence_number" d) as [n |]; [| discriminate].
  destruct (py_lt n 0) as [[|] | e]; cbn [Py.bind]; try discriminate.
  destruct (lookup "address" d) as [a |]; [| discriminate].
  destruct (dMB._validate_address a) as [ok | e]; cbn [Py.bind];
    [| discriminate].
  intros H. injection H as <-. reflexivity.
Qed.

Lemma provision_count_cons (p : value) (points : list value) :
  Z.of_nat (provision_count (p :: points)) =
  (if sets_provision p then 1 else 0) + Z.of_nat (provision_count points).
Proof.
  unfold provision_count. cbn [filter].
  destruct (sets_provision p); cbn [List.length]; lia.
Qed.

(** When the loop over the loading points ends, its counter has grown by
    the number of points that set [provision_location]. *)
Lemma loading_points_loop_count (points : list value) (count count' : Z) :
  for_each dMB.loading_point_body points count = Ok count' ->
  count' = count + Z.of_nat (provision_count points).
Proof.
  revert count. induction points as [| p points IH]; intros count.
  - cbn. intros H. injection H as <-. lia.
  - cbn [for_each].
    destruct (dMB.loading_point_body p count) as [c |] eqn:E; cbn [Py.bind];
      [| discriminate].
    intros H. apply IH in H. apply loading_point_body_count in E.
    rewrite provision_count_cons. lia.
Qed.

Lemma loading_point_body_typed (p : value) (count : Z) :
  well_typed_point p ->
  (exists msg, dMB.loading_point_body p count = Raise (ValueError msg)) \/
  dMB.loading_point_body p count =
  Ok (count + if sets_provision p then 1 else 0).
Proof.
  intros [d [-> [Hseq Haddr]]]. rewrite loading_point_body_dict.
  destruct (lookup "type" d) as [t |]; [| left; eexists; reflexivity].
  destruct (in_strings t dMB.LoadingPointType);
    [| left; eexists; reflexivity].
  destruct (lookup "sequence_number" d) as [n |];
    [| left; eexists; reflexivity].
  specialize (Hseq n eq_refl).
  assert (exists b, py_lt n 0 = Ok b) as [b ->].
  { destruct n; try discriminate Hseq; eexists; reflexivity. }
  cbn [Py.bind]. destruct b; [left; eexists; reflexivity |].
  destruct (lookup "address" d) as [a |]; [| left; eexists; reflexivity].
  destruct (Haddr a eq_refl) as [ad [-> Hgeo]].
  rewrite (validate_address_mapping ad Hgeo).
  destruct (_ || postal_triple ad); cbn [Py.bind];
    [right; reflexivity | left; eexists; reflexivity].
Qed.

Lemma loading_points_loop_typed (points : list value) (count : Z) :
  Forall well_typed_point points ->
  (exists msg,
     for_each dMB.loading_point_body points count = Raise (ValueError msg)) \/
  for_each dMB.loading_point_body points count =
  Ok (count + Z.of_nat (provision_count points)).
Proof.
  intros Hall. revert count.
  induction Hall as [| p points Hp Hall IH]; intros count.
  - right. cbn. f_equal. lia.
  - cbn [for_each].
    destruct (loading_point_body_typed p count Hp) as [[msg ->] | ->];
      cbn [Py.bind]; [left; now eexists |].
    destruct (IH (count + if sets_provision p then 1 else 0))
      as [[msg ->] | ->]; [left; now eexists |].
    right. f_equal. rewrite provision_count_cons. lia.
Qed.

(** Both validators are the route part followed by the containers part. *)
Lemma validate_quotation_data_dMB
    (fromisoformat : string -> result datetime.datetime) (q : value) :
  dMB._validate_quotation_data fromisoformat q =
  route_part (containers_part (dMB.quotation_container_body fromisoformat) q) q.
Proof. reflexivity. Qed.

Lemma validate_quotation_data_dMB_client
    (fromisoformat : string -> result datetime.datetime) (q : value) :
  dMB_client._validate_quotation_data fromisoformat q =
  route_part
    (containers_part (dMB_client.quotation_container_body fromisoformat) q) q.
Proof. reflexivity. Qed.

(** The route part on a document whose route lists [points]. *)
Lemma route_part_points (rest : result bool) (doc : dict)
                        (points : list value) :
  route_points doc points ->
  route_part rest (VDict doc) =
  match points with
  | [] => Raise route_empty_error
  | _ :: _ =>
      n <- for_each dMB.loading_point_body points 0 ;;
      raise_if (1 <? n) provision_error rest
  end.
Proof.
  intros [r [Hroute Hpoints]].
  unfold route_part, py_not_in, py_not, py_or.
  cbn [py_in getitem Py.bind]. unfold has_key. rewrite Hroute.
  cbn [Py.bind negb raise_if py_in getitem]. unfold has_key.
  rewrite Hpoints. cbn [Py.bind negb raise_if truthy py_iter].
  destruct points; reflexivity.
Qed.

(** *** Exceptions other than the provision error *)

Section NoProvisionError.

Context {A B : Type}.

Lemma np_Ok (a : A) : no_provision_error (Ok a).
Proof. intros e H. discriminate H. Qed.

Lemma np_Raise (e : exn) : e <> provision_error -> @no_provision_error A (Raise e).
Proof. intros He e' H. injection H as <-. exact He. Qed.

Lemma np_bind (r : result A) (k : A -> result B) :
  no_provision_error r -> (forall a, no_provision_error (k a)) ->
  no_provision_error (Py.bind r k).
Proof.
  intros Hr Hk e. destruct r as [a | e0]; cbn [Py.bind].
  - apply Hk.
  - intros H. injection H as <-. now apply Hr.
Qed.

Lemma np_raise_if (c : bool) (e : exn) (rest : result A) :
  e <> provision_error -> no_provision_error rest ->
  no_provision_error (raise_if c e rest).
Proof. intros He Hrest. destruct c; [now apply np_Raise | exact Hrest]. Qed.

Lemma np_if (c : bool) (r1 r2 : result A) :
  no_provision_error r1 -> no_provision_error r2 ->
  no_provision_error (if c then r1 else r2).
Proof. now destruct c. Qed.

Lemma np_except_ValueError (body handler : result A) :
  no_provision_error handler ->
  no_provision_error (except_ValueError body handler).
Proof.
  intros Hh e. destruct body as [a | e0]; cbn [except_ValueError];
    [discriminate |].
  destruct e0; try (intros H; injection H as <-; discriminate).
  apply Hh.
Qed.

End NoProvisionError.

Lemma np_for_each {A S : Type} (body : A -> S -> result S) (xs : list A)
                  (s : S) :
  (forall x s', no_provision_error (body x s')) ->
  no_provision_error (for_each body xs s).
Proof.
  intros Hbody. revert s.
  induction xs as [| x xs IH]; intros s; cbn [for_each];
    [apply np_Ok | apply np_bind; auto].
Qed.

Lemma np_py_in (k : string) (c : value) : no_provision_error (py_in k c).
Proof. intros e. destruct c; cbn; intros H; inversion H; discriminate. Qed.

Lemma np_getitem (c : value) (k : string) : no_provision_error (getitem c k).
Proof.
  intros e. destruct c; cbn; try (intros H; inversion H; discriminate).
  destruct (lookup k items); intros H; inversion H; discriminate.
Qed.

Lemma np_as_int (v : value) : no_provision_error (as_int v).
Proof. intros e. destruct v; cbn; intros H; inversion H; discriminate. Qed.

Lemma np_py_len (v : value) : no_provision_error (py_len v).
Proof. intros e. destruct v; cbn; intros H; inversion H; discriminate. Qed.

Lemma np_py_iter (v : value) : no_provision_error (py_iter v).
Proof. intros e. destruct v; cbn; intros H; inversion H; discriminate. Qed.

Lemma np_py_replace (v : value) (c : ascii) (new : string) :
  no_provision_error (py_replace v c new).
Proof. intros e. destruct v; cbn; intros H; inversion H; discriminate. Qed.

(** Discharges [no_provision_error] goals on code built from the
    operators above. *)
Ltac no_provision :=
  repeat first
    [ apply np_Ok
    | apply np_py_in | apply np_getitem | apply np_as_int
    | apply np_py_len | apply np_py_iter | apply np_py_replace
    | apply np_Raise; discriminate
    | apply np_raise_if; [discriminate |]
    | apply np_except_ValueError
    | apply np_for_each; intros ? ?
    | apply np_if
    | apply np_bind; [| intros ?]
    | progress unfold py_not_in, py_not, py_or, py_and, py_lt, py_gt, py_le ].

Lemma np_containers_part (body : value -> unit -> result unit) (q : value) :
  (forall x u, no_provision_error (body x u)) ->
  no_provision_error (containers_part body q).
Proof. intros Hbody. unfold containers_part. no_provision. apply Hbody. Qed.

Lemma np_validate_date_time
    (fromisoformat : string -> result datetime.datetime) (v : value) :
  no_provision_error (dMB._validate_date_time fromisoformat v).
Proof. unfold dMB._validate_date_time. no_provision. Qed.

Lemma np_quotation_container_body_dMB
    (fromisoformat : string -> result datetime.datetime) (x : value) (u : unit) :
  no_provision_error (dMB.quotation_container_body fromisoformat x u).
Proof.
  unfold dMB.quotation_container_body, dMB._validate_iso_code.
  no_provision.
Qed.

Lemma np_quotation_container_body_dMB_client
    (fromisoformat : string -> result datetime.datetime) (x : value) (u : unit) :
  no_provision_error (dMB_client.quotation_container_body fromisoformat x u).
Proof.
  unfold dMB_client.quotation_container_body, dMB_client._validate_iso_code.
  no_provision.
Qed.

Lemma np_validate_address (a : value) :
  no_provision_error (dMB._validate_address a).
Proof.
  unfold dMB._validate_address. cbn [dMB.all_in]. no_provision.
Qed.

Lemma np_loading_point_body (p : value) (count : Z) :
  no_provision_error (dMB.loading_point_body p count).
Proof.
  unfold dMB.loading_point_body, enum_call. no_provision.
Qed.

Lemma provision_count_nil : provision_count [] = 0%nat.
Proof. reflexivity. Qed.

(** The route contract of the route part, whatever follows it, as long as
    what follows does not raise the provision error. *)
Lemma route_part_contract (rest_of : value -> result bool) (doc : dict) :
  (forall q, no_provision_error (rest_of q)) ->
  route_contract (fun q => route_part (rest_of q) q) doc.
Proof.
  intros Hrest. unfold route_contract. split; [| split; [| split]].
  - intros Hnone. unfold route_part, py_not_in, py_not.
    cbn [py_in Py.bind]. unfold has_key. rewrite Hnone. reflexivity.
  - intros r Hroute [Hnone | Hempty].
    + unfold route_part, py_not_in, py_not, py_or.
      cbn [py_in getitem Py.bind]. unfold has_key. rewrite Hroute.
      cbn [Py.bind negb raise_if py_in]. unfold has_key. rewrite Hnone.
      reflexivity.
    + rewrite (route_part_points _ doc []); [reflexivity |].
      now exists r.
  - intros points Hpoints Hcount.
    rewrite (route_part_points _ doc points Hpoints).
    destruct points as [| p points];
      [rewrite provision_count_nil in Hcount; lia |].
    remember (p :: points) as ps eqn:Eps. clear Eps. split.
    + destruct (for_each dMB.loading_point_body ps 0) as [n | e] eqn:E;
        cbn [Py.bind]; [| now exists e].
      apply loading_points_loop_count in E.
      assert ((1 <? n) = true) as -> by (apply Z.ltb_lt; lia).
      now exists provision_error.
    + intros Htyped.
      destruct (loading_points_loop_typed ps 0 Htyped) as [[msg ->] | ->];
        cbn [Py.bind]; [now exists msg |].
      assert ((1 <? 0 + Z.of_nat (provision_count ps)) = true) as ->
        by (apply Z.ltb_lt; lia).
      eexists. reflexivity.
  - intros points Hpoints Hcount.
    rewrite (route_part_points _ doc points Hpoints).
    destruct points as [| p points]; [discriminate |].
    remember (p :: points) as ps eqn:Eps. clear Eps.
    destruct (for_each dMB.loading_point_body ps 0) as [n | e] eqn:E;
      cbn [Py.bind].
    + apply loading_points_loop_count in E.
      assert ((1 <? n) = false) as -> by (apply Z.ltb_ge; lia).
      cbn [raise_if]. intros H. now apply (Hrest (VDict doc) provision_error).
    + intros H. injection H as ->.
      apply (np_for_each dMB.loading_point_body ps 0 np_loading_point_body
               provision_error E).
      reflexivity.
Qed.

(** Quotation validation and the route: [_validate_quotation_data] (of
    both clients) raises a [ValueError] for every document without a route
    and for every document whose route has no loading points; for every
    document whose route lists two or more loading points that set
    [provision_location] to a true value it raises, and what it raises is a
    [ValueError] whenever the loading points are well typed (each one a
    mapping, with an integer [sequence_number] and a mapping for [address]
    and for its [geo_coordinates], where these are present); and it does not
    raise the provision-location error when at most one loading point sets
    [provision_location]. *)
Theorem quotation_route_validation
    (fromisoformat : string -> result datetime.datetime) (doc : dict) :
  route_contract (dMB._validate_quotation_data fromisoformat) doc /\
  route_contract (dMB_client._validate_quotation_data fromisoformat) doc.
Proof.
  split.
  - apply (route_part_contract
             (containers_part (dMB.quotation_container_body fromisoformat))).
    intros q. apply np_containers_part.
    apply np_quotation_container_body_dMB.
  - apply (route_part_contract
             (containers_part
                (dMB_client.quotation_container_body fromisoformat))).
    intros q. apply np_containers_part.
    apply np_quotation_container_body_dMB_client.
Qed.

Lemma quotation_route_validation_witness :
  dMB._validate_quotation_data datetime.fromisoformat (VDict []) =
  Raise route_missing_error /\
  dMB_client._validate_quotation_data datetime.fromisoformat
    (VDict (quotation_with_points [])) = Raise route_empty_error /\
  (exists msg,
     dMB_client._validate_quotation_data datetime.fromisoformat
       (VDict (quotation_with_points
                 [point_with_sequence_number (VInt 1);
                  point_with_sequence_number (VInt 2)])) =
     Raise (ValueError msg)) /\
  dMB._validate_quotation_data datetime.fromisoformat
    (VDict (quotation_with_points [point_with_sequence_number (VInt 1)])) <>
  Raise provision_error.
Proof.
  split; [| split; [| split]].
  - apply (proj1 (proj1 (quotation_route_validation datetime.fromisoformat []))).
    reflexivity.
  - apply (proj1 (proj2 (proj2 (quotation_route_validation
                                  datetime.fromisoformat
                                  (quotation_with_points []))))
             [("route_loading_points", VList [])]);
      [reflexivity | right; reflexivity].
  - apply (proj1 (proj2 (proj2 (proj2 (quotation_route_validation
                                         datetime.fromisoformat
                                         (quotation_with_points
                                            [point_with_sequence_number (VInt 1);
                                             point_with_sequence_number (VInt 2)])))))
             [point_with_sequence_number (VInt 1);
              point_with_sequence_number (VInt 2)]).
    + eexists. split; reflexivity.
    + cbn. lia.
    + repeat constructor; eexists; (split; [reflexivity |]); split.
      * intros n H. injection H as <-. reflexivity.
      * intros a H. injection H as <-. eexists. split; [reflexivity |].
        intros g Hg. discriminate Hg.
      * intros n H. injection H as <-. reflexivity.
      * intros a H. injection H as <-. eexists. split; [reflexivity |].
        intros g Hg. discriminate Hg.
  - apply (proj2 (proj2 (proj2 (proj1 (quotation_route_validation
                                         datetime.fromisoformat
                                         (quotation_with_points
                                            [point_with_sequence_number (VInt 1)])))))
             [point_with_sequence_number (VInt 1)]).
    + eexists. split; reflexivity.
    + cbn. lia.
Defined.

(** C1: quotation validation is to fail with a [ValueError] on every
    document in which two or more loading points set [provision_location].
    On a document with two such loading points that give their sequence
    numbers as strings, both validators stop with a [TypeError] instead;
    with the sequence numbers as integers, the same document is rejected
    with the provision-location [ValueError]. *)
Lemma quotation_route_validation_type_error :
  provision_count [point_with_sequence_number (VStr "1");
                   point_with_sequence_number (VStr "2")] = 2%nat /\
  dMB._validate_quotation_data datetime.fromisoformat
    (VDict (quotation_with_points [point_with_sequence_number (VStr "1");
                                   point_with_sequence_number (VStr "2")]))
  = Raise TypeError /\
  dMB_client._validate_quotation_data datetime.fromisoformat
    (VDict (quotation_with_points [point_with_sequence_number (VStr "1");
                                   point_with_sequence_number (VStr "2")]))
  = Raise TypeError /\
  dMB._validate_quotation_data datetime.fromisoformat
    (VDict (quotation_with_points [point_with_sequence_number (VInt 1);
                                   point_with_sequence_number (VInt 2)]))
  = Raise provision_error.
Proof. repeat split. Qed.

(** ** Booking documents *)

Lemma fails_Raise {A : Type} (e : exn) : @fails A (Raise e).
Proof. now exists e. Qed.

Lemma fails_bind {A B : Type} (r : result A) (k : A -> result B) :
  (forall a, fails (k a)) -> fails (Py.bind r k).
Proof.
  intros Hk. destruct r as [a | e]; cbn [Py.bind];
    [apply Hk | apply fails_Raise].
Qed.

Lemma fails_raise_if {A : Type} (c : bool) (e : exn) (rest : result A) :
  fails rest -> fails (raise_if c e rest).
Proof. intros H. destruct c; [apply fails_Raise | exact H]. Qed.

Lemma fails_not_Ok {A : Type} (r : result A) :
  fails r -> forall a, r <> Ok a.
Proof. intros [e ->] a. discriminate. Qed.

(** C9: [_validate_booking_data] takes the containers from the top level
    of the document: a document with a booking of valid transport category
    and load status and without a top-level [containers] entry is rejected
    with the missing-containers [ValueError], whatever the booking holds
    besides, in particular a non-empty [containers] list; no document
    without a top-level [containers] entry passes; and a [containers] entry
    put under [booking] does not change the result. *)
Theorem booking_containers_top_level
    (fromisoformat : string -> result datetime.datetime) (doc : dict) :
  (forall b, lookup "booking" doc = Some (VDict b) -> valid_booking b ->
             lookup "containers" doc = None ->
             dMB._validate_booking_data fromisoformat (VDict doc) =
             Raise containers_missing_error) /\
  (lookup "containers" doc = None ->
   forall ok, dMB._validate_booking_data fromisoformat (VDict doc) <> Ok ok) /\
  (forall (b : dict) (nested : value),
     dMB._validate_booking_data fromisoformat
       (VDict (("booking", VDict (("containers", nested) :: b)) :: doc)) =
     dMB._validate_booking_data fromisoformat
       (VDict (("booking", VDict b) :: doc))).
Proof.
  split; [| split].
  - intros b Hb [[tc [Htc Htc_ok]] [ls [Hls Hls_ok]]] Hnone.
    unfold dMB._validate_booking_data, py_not_in, py_not, py_or.
    cbn [py_in getitem Py.bind]. unfold has_key at 1. rewrite Hb.
    cbn [Py.bind negb raise_if py_in getitem]. unfold has_key at 1 2.
    rewrite Htc, Hls. cbn [Py.bind negb]. rewrite Htc_ok, Hls_ok.
    cbn [Py.bind negb raise_if]. unfold has_key. rewrite Hnone.
    reflexivity.
  - intros Hnone. apply fails_not_Ok.
    unfold dMB._validate_booking_data.
    apply fails_bind. intros c. apply fails_raise_if.
    do 5 (apply fails_bind; intros ?).
    unfold py_or, py_not_in, py_not. cbn [py_in Py.bind]. unfold has_key.
    rewrite Hnone. apply fails_Raise.
  - intros b nested. reflexivity.
Qed.

Lemma booking_containers_top_level_witness :
  dMB._validate_booking_data datetime.fromisoformat
    (VDict nested_containers_document) = Raise containers_missing_error.
Proof.
  apply (proj1 (booking_containers_top_level datetime.fromisoformat
                  nested_containers_document)
           [("transport_category", VStr "IMPORT");
            ("load_status", VStr "FULL");
            ("containers", VList [
               VDict [("sequence_number", VInt 1);
                      ("type_code", VStr "22G1")]])]).
  - reflexivity.
  - split; eexists; split; reflexivity.
  - reflexivity.
Defined.

(** ** Cancellation and update *)

Lemma validate_job_order_ref_decided (ref : string) :
  dMB._validate_job_order_ref ref =
  if job_order_ref_valid ref then Ok true else Raise job_order_ref_error.
Proof.
  unfold dMB._validate_job_order_ref, job_order_ref_valid, raise_if.
  destruct (String.eqb ref ""); cbn [orb negb andb]; [reflexivity |].
  rewrite Z.leb_antisym. now destruct (128 <? Z.of_nat (String.length ref)).
Qed.

Lemma validate_container_number_decided (number : string) :
  dMB._validate_container_number number =
  if Nat.eqb (String.length number) 11 then Ok true
  else Raise container_number_error.
Proof.
  unfold dMB._validate_container_number, raise_if.
  destruct (String.eqb_spec number "") as [-> | Hne]; cbn [orb];
    [reflexivity |].
  destruct (Nat.eqb_spec (String.length number) 11) as [-> | Hlen];
    [reflexivity |].
  assert ((Z.of_nat (String.length number) =? 11) = false) as ->
    by (apply Z.eqb_neq; lia).
  reflexivity.
Qed.

(** The loop over the container numbers stops at the first number that
    does not have 11 characters. *)
Lemma container_numbers_loop (numbers : list string) :
  for_each (fun number (_ : unit) =>
              dMB._validate_container_number number ;; Ok tt) numbers tt =
  if numbers_valid numbers then Ok tt else Raise container_number_error.
Proof.
  induction numbers as [| n numbers IH]; cbn [for_each numbers_valid forallb];
    [reflexivity |].
  rewrite validate_container_number_decided.
  destruct (Nat.eqb (String.length n) 11); cbn [Py.bind andb];
    [exact IH | reflexivity].
Qed.

Lemma sequence_numbers_loop (numbers : list Z) :
  for_each (fun number (_ : unit) =>
              raise_if (number <? 0) sequence_number_error (Ok tt))
    numbers tt =
  if sequence_numbers_valid numbers then Ok tt
  else Raise sequence_number_error.
Proof.
  induction numbers as [| k numbers IH];
    cbn [for_each sequence_numbers_valid forallb]; [reflexivity |].
  rewrite Z.leb_antisym.
  destruct (k <? 0); cbn [raise_if Py.bind andb negb];
    [reflexivity | exact IH].
Qed.

(** [cancel_containers], check by check: nothing is sent and the state is
    left as it is unless all four checks pass. *)
Lemma cancel_containers_checks
    (transport : Transport) (json_error_is_request_exception : bool)
    (ref : string) (numbers : option (list string))
    (sequence_numbers : option (list Z)) (if_match : option string)
    (st : State) :
  (exists e,
     dMB.cancel_containers transport json_error_is_request_exception
       ref numbers sequence_numbers if_match st = (Raise e, st) /\
     In e [job_order_ref_error; container_number_error;
           sequence_number_error; if_match_cancel_error]) \/
  (job_order_ref_valid ref = true /\
   numbers_valid (dMB.elements numbers) = true /\
   sequence_numbers_valid (dMB.elements sequence_numbers) = true /\
   given if_match = true).
Proof.
  unfold dMB.cancel_containers, client.bind, lift.
  rewrite validate_job_order_ref_decided.
  destruct (job_order_ref_valid ref);
    [| left; eexists; split; [reflexivity | cbn; tauto]].
  assert ((if dMB.nonempty numbers
           then for_each (fun number (_ : unit) =>
                            dMB._validate_container_number number ;; Ok tt)
                  (dMB.elements numbers) tt
           else Ok tt) =
          if numbers_valid (dMB.elements numbers) then Ok tt
          else Raise container_number_error) as ->.
  { rewrite container_numbers_loop. now destruct numbers as [[| n ns] |]. }
  destruct (numbers_valid (dMB.elements numbers));
    [| left; eexists; split; [reflexivity | cbn; tauto]].
  assert ((if dMB.nonempty sequence_numbers
           then for_each (fun number (_ : unit) =>
                            raise_if (number <? 0)
                              (ValueError (Text "Container sequence numbers must be non-negative"))
                              (Ok tt))
                  (dMB.elements sequence_numbers) tt
           else Ok tt) =
          if sequence_numbers_valid (dMB.elements sequence_numbers) then Ok tt
          else Raise sequence_number_error) as ->.
  { rewrite <- sequence_numbers_loop.
    now destruct sequence_numbers as [[| n ns] |]. }
  destruct (sequence_numbers_valid (dMB.elements sequence_numbers));
    [| left; eexists; split; [reflexivity | cbn; tauto]].
  destruct (given if_match); cbn [negb];
    [right; tauto | left; eexists; split; [reflexivity | cbn; tauto]].
Qed.

Lemma checks_are_ValueErrors (e : exn) :
  In e [job_order_ref_error; container_number_error;
        sequence_number_error; if_match_cancel_error] ->
  exists msg, e = ValueError msg.
Proof.
  cbn [In]. intros [<- | [<- | [<- | [<- | []]]]]; eexists; reflexivity.
Qed.

(** C10: [cancel_containers] checks its query parameters before it sends
    anything: when a supplied container number does not have exactly 11
    characters, or a supplied container sequence number is negative, the
    call raises a [ValueError] and leaves the state, and with it the list of
    requests sent, as it was; so a call that sends a request was given
    container numbers of 11 characters and non-negative sequence numbers
    only. *)
Theorem cancel_containers_validates_parameters
    (transport : Transport) (json_error_is_request_exception : bool)
    (ref : string) (numbers : option (list string))
    (sequence_numbers : option (list Z)) (if_match : option string)
    (st : State) :
  ((exists n, In n (dMB.elements numbers) /\ String.length n <> 11%nat) \/
   (exists k, In k (dMB.elements sequence_numbers) /\ k < 0) ->
   exists msg,
     dMB.cancel_containers transport json_error_is_request_exception
       ref numbers sequence_numbers if_match st =
     (Raise (ValueError msg), st)) /\
  (sent (snd (dMB.cancel_containers transport json_error_is_request_exception
                ref numbers sequence_numbers if_match st)) <> sent st ->
   Forall (fun n => String.length n = 11%nat) (dMB.elements numbers) /\
   Forall (fun k => 0 <= k) (dMB.elements sequence_numbers)).
Proof.
  destruct (cancel_containers_checks transport json_error_is_request_exception
              ref numbers sequence_numbers if_match st)
    as [[e [Hrun He]] | [_ [Hnum [Hseq _]]]].
  - split.
    + intros _. destruct (checks_are_ValueErrors e He) as [msg ->].
      now exists msg.
    + rewrite Hrun. cbn [snd]. intros H. now contradiction H.
  - unfold numbers_valid in Hnum. rewrite forallb_forall in Hnum.
    unfold sequence_numbers_valid in Hseq. rewrite forallb_forall in Hseq.
    split.
    + intros [[n [Hin Hlen]] | [k [Hin Hneg]]]; exfalso.
      * apply Hnum in Hin. apply Nat.eqb_eq in Hin. contradiction.
      * apply Hseq in Hin. apply Z.leb_le in Hin. lia.
    + intros _. split; apply Forall_forall; intros x Hin.
      * apply Hnum in Hin. now apply Nat.eqb_eq in Hin.
      * apply Hseq in Hin. now apply Z.leb_le in Hin.
Qed.

Lemma cancel_containers_validates_parameters_witness :
  (exists msg,
     dMB.cancel_containers (always no_content) true "JOB-1"
       (Some ["MSKU1234567"; "SHORT"]) None (Some "etag") fresh_state =
     (Raise (ValueError msg), fresh_state)) /\
  Forall (fun n => String.length n = 11%nat)
    (dMB.elements (Some ["MSKU1234567"])) /\
  Forall (fun k => 0 <= k) (dMB.elements (Some [0; 3])).
Proof.
  split.
  - apply (proj1 (cancel_containers_validates_parameters
                    (always no_content) true "JOB-1"
                    (Some ["MSKU1234567"; "SHORT"]) None (Some "etag")
                    fresh_state)).
    left. exists "SHORT". split; [cbn; tauto | cbn; lia].
  - apply (proj2 (cancel_containers_validates_parameters
                    (always no_content) true "JOB-1"
                    (Some ["MSKU1234567"]) (Some [0; 3]) (Some "etag")
                    fresh_state)).
    vm_compute. discriminate.
Defined.

(** [update_booking], check by check. *)
Lemma update_booking_checks
    (fromisoformat : string -> result datetime.datetime)
    (transport : Transport) (json_error_is_request_exception : bool)
    (ref : string) (data : value) (if_match : option string) (st : State) :
  given if_match = false ->
  dMB.update_booking fromisoformat transport json_error_is_request_exception
    ref data if_match st =
  (Raise (if job_order_ref_valid ref then
            match dMB._validate_booking_data fromisoformat data with
            | Ok _ => if_match_update_error
            | Raise e => e
            end
          else job_order_ref_error), st).
Proof.
  intros Him. unfold dMB.update_booking, client.bind, lift.
  rewrite validate_job_order_ref_decided, Him.
  destruct (job_order_ref_valid ref); [| reflexivity].
  destruct (dMB._validate_booking_data fromisoformat data); reflexivity.
Qed.

(** Calls without a token: when [if_match] is absent ([None] or empty),
    [update_booking] and [cancel_containers] raise and leave the state, and
    with it the list of requests sent, as it was.  [cancel_containers]
    raises a [ValueError]; [update_booking] raises a [ValueError] or the
    exception on which its document validator stopped, and with a valid job
    order reference and a valid document it raises the [ValueError] that
    [If-Match] is required. *)
Theorem if_match_required
    (fromisoformat : string -> result datetime.datetime)
    (transport : Transport) (json_error_is_request_exception : bool)
    (ref : string) (data : value) (numbers : option (list string))
    (sequence_numbers : option (list Z)) (if_match : option string)
    (st : State) :
  given if_match = false ->
  (exists e,
     dMB.update_booking fromisoformat transport
       json_error_is_request_exception ref data if_match st = (Raise e, st) /\
     ((exists msg, e = ValueError msg) \/
      dMB._validate_booking_data fromisoformat data = Raise e) /\
     (dMB._validate_job_order_ref ref = Ok true ->
      dMB._validate_booking_data fromisoformat data = Ok true ->
      e = if_match_update_error)) /\
  (exists msg,
     dMB.cancel_containers transport json_error_is_request_exception
       ref numbers sequence_numbers if_match st =
     (Raise (ValueError msg), st)).
Proof.
  intros Him. split.
  - eexists. split; [now apply update_booking_checks |].
    rewrite validate_job_order_ref_decided.
    destruct (job_order_ref_valid ref).
    + destruct (dMB._validate_booking_data fromisoformat data) as [ok | e].
      * split; [left; eexists; reflexivity | reflexivity].
      * split; [now right | discriminate].
    + split; [left; eexists; reflexivity | discriminate].
  - destruct (cancel_containers_checks transport
                json_error_is_request_exception ref numbers sequence_numbers
                if_match st) as [[e [Hrun He]] | [_ [_ [_ Hgiven]]]].
    + destruct (checks_are_ValueErrors e He) as [msg ->]. now exists msg.
    + rewrite Him in Hgiven. discriminate Hgiven.
Qed.

Lemma if_match_required_witness :
  dMB.update_booking datetime.fromisoformat (always no_content) true
    "JOB-1" (VDict (("containers", VList [
                       VDict [("sequence_number", VInt 1);
                              ("type_code", VStr "22G1")]])
                    :: nested_containers_document)) None fresh_state =
  (Raise if_match_update_error, fresh_state) /\
  (exists msg,
     dMB.cancel_containers (always no_content) true "JOB-1"
       (Some ["MSKU1234567"]) None (Some "") fresh_state =
     (Raise (ValueError msg), fresh_state)).
Proof.
  split.
  - destruct (proj1 (if_match_required datetime.fromisoformat
                       (always no_content) true "JOB-1"
                       (VDict (("containers", VList [
                                  VDict [("sequence_number", VInt 1);
                                         ("type_code", VStr "22G1")]])
                               :: nested_containers_document))
                       None None None fresh_state eq_refl))
      as [e [Hrun [_ Hvalid]]].
    rewrite Hrun. rewrite (Hvalid eq_refl eq_refl). reflexivity.
  - apply (proj2 (if_match_required datetime.fromisoformat (always no_content)
                    true "JOB-1" VNone (Some ["MSKU1234567"]) None (Some "")
                    fresh_state eq_refl)).
Defined.

(** C4: a call of [update_booking] without a token is to raise a
    [ValueError] before anything is sent.  On a document whose [booking] is
    [None] the call, without a token, stops with a [TypeError] instead;
    nothing is sent.  The document validator itself stops with that
    [TypeError]. *)
Lemma if_match_required_type_error :
  given None = false /\
  dMB.update_booking datetime.fromisoformat (always no_content) true
    "JOB-1" (VDict [("booking", VNone)]) None fresh_state =
  (Raise TypeError, fresh_state) /\
  dMB._validate_booking_data datetime.fromisoformat
    (VDict [("booking", VNone)]) = Raise TypeError.
Proof. repeat split. Qed.

(** ** Responses *)

Lemma handle_outcome_variants :
  dMB_client.handle_outcome = dMB.handle_outcome.
Proof. reflexivity. Qed.

Lemma handle_outcome_contract (json_error_is_request_exception : bool)
                              (outcome : string + Response) (st : State) :
  outcome_contract outcome
    (fst (dMB.handle_outcome json_error_is_request_exception outcome st)).
Proof.
  destruct outcome as [msg | response]; cbn [outcome_contract];
    [reflexivity |].
  unfold dMB.handle_outcome, client.bind.
  destruct (given (headers_get "ETag" (resp_headers response)));
    cbn [set_last_etag client.ret].
  all: destruct (Z.leb_spec 400 (status_code response)) as [Hge | Hlt].
  all: repeat split; intros; try lia; try reflexivity.
  all: destruct (String.eqb_spec (content response) "") as [He | Hne];
    cbn [negb]; try contradiction; try reflexivity.
  all: match goal with
       | H : resp_json _ = _ |- _ => rewrite H
       end.
  all: reflexivity.
Qed.

(** Handling the outcome sends nothing. *)
Lemma handle_outcome_sent (json_error_is_request_exception : bool)
                          (outcome : string + Response) (st : State) :
  sent (snd (dMB.handle_outcome json_error_is_request_exception outcome st)) =
  sent st.
Proof.
  destruct outcome as [msg | response]; [reflexivity |].
  unfold dMB.handle_outcome, client.bind.
  destruct (given (headers_get "ETag" (resp_headers response)));
    cbn [set_last_etag client.ret].
  all: destruct (400 <=? status_code response); [reflexivity |].
  all: destruct (negb (String.eqb (content response) "")); [| reflexivity].
  all: destruct (resp_json response); [| reflexivity].
  all: destruct json_error_is_request_exception; reflexivity.
Qed.

Lemma make_request_dispatch_dMB
    (transport : Transport) (json_error_is_request_exception : bool)
    (method endpoint : string) (data params : option value)
    (if_match : option string) (st : State) :
  dispatch_contract transport
    (dMB._make_request transport json_error_is_request_exception
       method endpoint data params if_match)
    method data params st.
Proof.
  unfold dispatch_contract, dMB._make_request, dMB._get_headers,
    client.bind, get_self, client.ret, request.
  eexists. rewrite handle_outcome_sent. cbn [sent].
  split; [reflexivity |]. cbn [requests.method requests.json requests.params].
  repeat (split; [reflexivity |]).
  apply handle_outcome_contract.
Qed.

Lemma make_request_dispatch_dMB_client
    (transport : Transport) (json_error_is_request_exception : bool)
    (method endpoint : string) (data params : option value)
    (if_match : option string) (st : State) :
  dispatch_contract transport
    (dMB_client._make_request transport json_error_is_request_exception
       method endpoint data params if_match)
    method data params st.
Proof.
  unfold dispatch_contract, dMB_client._make_request, dMB_client._get_headers,
    client.bind, get_self, client.ret, request, print.
  rewrite handle_outcome_variants.
  eexists. rewrite handle_outcome_sent. cbn [sent].
  split; [reflexivity |]. cbn [requests.method requests.json requests.params].
  repeat (split; [reflexivity |]).
  apply handle_outcome_contract.
Qed.

(** C5, as amended: [_make_request] (of both clients) sends one request
    and, when the transport fails without a response, raises the API error
    with the status code 500 and no details; when the response has a status
    of at least 400, raises the API error with that status code, the reason
    of the response in its message and, as details, the parsed JSON body or,
    when the body does not parse, the raw text under the key [raw];
    otherwise returns an empty mapping when the body is absent, and the
    parsed JSON body when the body is present and parses as JSON. *)
Theorem make_request_dispatch
    (transport : Transport) (json_error_is_request_exception : bool)
    (method endpoint : string) (data params : option value)
    (if_match : option string) (st : State) :
  dispatch_contract transport
    (dMB._make_request transport json_error_is_request_exception
       method endpoint data params if_match)
    method data params st /\
  dispatch_contract transport
    (dMB_client._make_request transport json_error_is_request_exception
       method endpoint data params if_match)
    method data params st.
Proof.
  split; [apply make_request_dispatch_dMB | apply make_request_dispatch_dMB_client].
Qed.

Lemma make_request_dispatch_witness :
  fst (dMB_client._make_request (always unauthorized) true
         "POST" "/booking/quotations" (Some test.payload) None None
         fresh_state) =
  Raise (DriveMyBoxAPIException 401 "API request failed: Unauthorized"
           (VDict [("message", VStr "Unauthorized")])) /\
  fst (dMB._make_request (always bad_gateway) true
         "GET" "/bookings/JOB-1" None None None fresh_state) =
  Raise (DriveMyBoxAPIException 502 "API request failed: Bad Gateway"
           (VDict [("raw", VStr "<html>Bad Gateway</html>")])) /\
  fst (dMB._make_request unreachable true
         "GET" "/bookings/JOB-1" None None None fresh_state) =
  Raise (DriveMyBoxAPIException 500 "Request failed: Connection refused"
           VNone) /\
  fst (dMB._make_request (always quotation_answer) true
         "POST" "/quotations" (Some test.payload) None None fresh_state) =
  Ok (VDict [("prices", VList [])]) /\
  fst (dMB._make_request (always no_content) true
         "DELETE" "/bookings/JOB-1/containers" None None (Some "v1")
         fresh_state) =
  Ok (VDict []).
Proof.
  split; [| split; [| split; [| split]]].
  - destruct (proj2 (make_request_dispatch (always unauthorized) true
                       "POST" "/booking/quotations" (Some test.payload)
                       None None fresh_state)) as [req [_ [_ [_ [_ H]]]]].
    apply (proj1 H). cbn. lia.
  - destruct (proj1 (make_request_dispatch (always bad_gateway) true
                       "GET" "/bookings/JOB-1" None None None fresh_state))
      as [req [_ [_ [_ [_ H]]]]].
    apply (proj1 H). cbn. lia.
  - destruct (proj1 (make_request_dispatch unreachable true
                       "GET" "/bookings/JOB-1" None None None fresh_state))
      as [req [_ [_ [_ [_ H]]]]].
    exact H.
  - destruct (proj1 (make_request_dispatch (always quotation_answer) true
                       "POST" "/quotations" (Some test.payload) None None
                       fresh_state)) as [req [_ [_ [_ [_ H]]]]].
    apply (proj2 (proj2 H)); [cbn; lia | discriminate | reflexivity].
  - destruct (proj1 (make_request_dispatch (always no_content) true
                       "DELETE" "/bookings/JOB-1/containers" None None
                       (Some "v1") fresh_state)) as [req [_ [_ [_ [_ H]]]]].
    apply (proj1 (proj2 H)); [cbn; lia | reflexivity].
Defined.

(** C5 fails as stated: on a response with the status 200 whose body is
    present and is not JSON, nothing is returned; the call raises, the API
    error with the status code 500 when the decoding error is a
    [RequestException] and a [ValueError] otherwise. *)
Lemma make_request_unparsable_success :
  status_code html_page = 200 /\ content html_page <> "" /\
  fst (dMB._make_request (always html_page) true
         "GET" "/bookings/JOB-1" None None None fresh_state) =
  Raise (DriveMyBoxAPIException 500 "Request failed: Expecting value" VNone) /\
  fst (dMB._make_request (always html_page) false
         "GET" "/bookings/JOB-1" None None None fresh_state) =
  Raise (ValueError (Text "Expecting value")) /\
  fst (dMB_client._make_request (always html_page) true
         "POST" "/booking/quotations" (Some test.payload) None None
         fresh_state) =
  Raise (DriveMyBoxAPIException 500 "Request failed: Expecting value" VNone) /\
  fst (dMB_client._make_request (always html_page) false
         "POST" "/booking/quotations" (Some test.payload) None None
         fresh_state) =
  Raise (ValueError (Text "Expecting value")).
Proof. repeat split. discriminate. Qed.

(* ===================================================================== *)
(** * Further properties of the clients                                    *)
(* ===================================================================== *)

(** ** Addresses of requests *)






(** ** Headers *)

Lemma get_headers_run (if_match : option string) (st : State) :
  dMB._get_headers if_match st = (Ok (headers_of st if_match), st).
Proof. reflexivity. Qed.

Lemma client_get_headers_run (if_match : option string) (st : State) :
  dMB_client._get_headers if_match st =
  (Ok (client_headers_of st if_match), after_printing (api_key (self st)) st).
Proof. reflexivity. Qed.

Lemma headers_contract_holds (st : State) (if_match : option string) :
  headers_contract st if_match (headers_of st if_match) /\
  headers_contract st if_match (client_headers_of st if_match).
Proof.
  unfold headers_contract, headers_of, client_headers_of, dMB._get_headers,
    dMB_client._get_headers, when_given.
  cbn [client.bind get_self print client.ret fst self].
  destruct (customer_id (self st)) as [c |]; cbn [given];
    [destruct (String.eqb c ""); cbn [negb] |];
    (destruct if_match as [m |]; cbn [given];
     [destruct (String.eqb m ""); cbn [negb] |]);
    cbn [app].
  all: repeat split; try reflexivity.
  all: intros name; cbn [header In].
  all: repeat match goal with
         | |- context [String.eqb ?k ?n] =>
             destruct (String.eqb_spec k n); [tauto |]
         end.
  all: intros H; now contradiction H.
Qed.

(** X2: the headers of a request, in both clients: [Content-Type] is
    [application/json], [x-api-key] is the key of the client,
    [x-customer-id] is present exactly when the client has a non-empty
    customer id and [If-Match] exactly when a non-empty token is passed, and
    there is no other header. *)
Theorem request_headers (st : State) (if_match : option string) :
  headers_contract st if_match (headers_of st if_match) /\
  headers_contract st if_match (client_headers_of st if_match).
Proof. apply headers_contract_holds. Qed.

(** ** The effect of a request *)

Lemma handle_outcome_state (json_error_is_request_exception : bool)
                           (outcome : string + Response) (st : State) :
  snd (dMB.handle_outcome json_error_is_request_exception outcome st) =
  keep_etag (etag_of outcome) st.
Proof.
  destruct outcome as [msg | response]; [reflexivity |].
  unfold dMB.handle_outcome, client.bind, etag_of, when_given.
  destruct (headers_get "ETag" (resp_headers response)) as [e |];
    cbn [given]; [destruct (String.eqb e ""); cbn [negb] |];
    cbn [set_last_etag client.ret keep_etag].
  all: destruct (400 <=? status_code response); [reflexivity |].
  all: destruct (negb (String.eqb (content response) "")); [| reflexivity].
  all: destruct (resp_json response); [| reflexivity].
  all: destruct json_error_is_request_exception; reflexivity.
Qed.

Lemma make_request_run
    (transport : Transport) (json_error_is_request_exception : bool)
    (method endpoint : string) (data params : option value)
    (if_match : option string) (st : State) :
  dMB._make_request transport json_error_is_request_exception
    method endpoint data params if_match st =
  dMB.handle_outcome json_error_is_request_exception
    (transport (request_of st method endpoint data params if_match))
    (after_sending (request_of st method endpoint data params if_match) st).
Proof. reflexivity. Qed.

Lemma client_make_request_run
    (transport : Transport) (json_error_is_request_exception : bool)
    (method endpoint : string) (data params : option value)
    (if_match : option string) (st : State) :
  dMB_client._make_request transport json_error_is_request_exception
    method endpoint data params if_match st =
  dMB.handle_outcome json_error_is_request_exception
    (transport (client_request_of st method endpoint data params if_match))
    (after_sending
       (client_request_of st method endpoint data params if_match)
       (after_printing (api_key (self st)) st)).
Proof. reflexivity. Qed.

(** X3: what a call of [_make_request] leaves behind, whether it returns
    or raises: the one request it sent, added to the requests sent, and the
    [ETag] of the response as [last_etag] when the response has a non-empty
    [ETag] header (under any capitalisation of the name), also when the
    status of the response is an error; without such a header, and when the
    transport fails, [last_etag] stays as it was.  Nothing else of the
    client changes.  The variant [dMB_client] has, besides, printed the API
    key. *)
Theorem make_request_effect
    (transport : Transport) (json_error_is_request_exception : bool)
    (method endpoint : string) (data params : option value)
    (if_match : option string) (st : State) :
  snd (dMB._make_request transport json_error_is_request_exception
         method endpoint data params if_match st) =
  keep_etag
    (etag_of (transport (request_of st method endpoint data params if_match)))
    (after_sending (request_of st method endpoint data params if_match) st) /\
  snd (dMB_client._make_request transport json_error_is_request_exception
         method endpoint data params if_match st) =
  keep_etag
    (etag_of (transport
                (client_request_of st method endpoint data params if_match)))
    (after_sending
       (client_request_of st method endpoint data params if_match)
       (after_printing (api_key (self st)) st)).
Proof.
  rewrite make_request_run, client_make_request_run.
  now rewrite !handle_outcome_state.
Qed.

Lemma keep_etag_stdout (etag : option string) (st : State) :
  stdout (keep_etag etag st) = stdout st.
Proof. now destruct etag. Qed.

Lemma keep_etag_sent (etag : option string) (st : State) :
  sent (keep_etag etag st) = sent st.
Proof. now destruct etag. Qed.

(** X4: every request of the variant [dMB_client] prints the API key of
    the client, once, also when the request fails; the variant [dMB] prints
    nothing. *)
Theorem make_request_prints_api_key
    (transport : Transport) (json_error_is_request_exception : bool)
    (method endpoint : string) (data params : option value)
    (if_match : option string) (st : State) :
  stdout (snd (dMB_client._make_request transport
                 json_error_is_request_exception
                 method endpoint data params if_match st)) =
  (stdout st ++ [api_key (self st)])%list /\
  stdout (snd (dMB._make_request transport json_error_is_request_exception
                 method endpoint data params if_match st)) = stdout st.
Proof.
  rewrite make_request_run, client_make_request_run.
  now rewrite !handle_outcome_state, !keep_etag_stdout.
Qed.

(** ** The operations *)

Lemma job_order_ref_valid_iff (ref : string) :
  job_order_ref_valid ref = true <-> (1 <= String.length ref <= 128)%nat.
Proof.
  unfold job_order_ref_valid. rewrite andb_true_iff, negb_true_iff, Z.leb_le.
  split.
  - intros [Hne Hlen]. apply String.eqb_neq in Hne.
    destruct ref; [now contradiction Hne | cbn [String.length] in *; lia].
  - intros [Hlo Hhi]. split; [| lia].
    apply String.eqb_neq. intros ->. cbn in Hlo. lia.
Qed.

Lemma bookings_url (st : State) (rest : string) :
  url_of st ("/bookings" ++ rest) = base_url (self st) ++ "/bookings" ++ rest.
Proof. reflexivity. Qed.

Lemma quotations_url (st : State) :
  url_of st "/quotations" = base_url (self st) ++ "/quotations" /\
  url_of st "/booking/quotations" = base_url (self st) ++ "/booking/quotations".
Proof. split; reflexivity. Qed.

Lemma headers_of_no_token (st : State) :
  header "If-Match" (headers_of st None) = None.
Proof.
  now destruct (headers_contract_holds st None) as [[_ [_ [_ [H _]]]] _].
Qed.

(** X5: every operation that takes a job order reference checks it first:
    with an empty reference, or one of more than 128 characters,
    [get_booking], [get_booking_status], [update_booking] and
    [cancel_containers] raise the same [ValueError] and leave the state,
    hence the requests sent, as it was, whatever their other arguments. *)
Theorem job_order_reference_guard
    (fromisoformat : string -> result datetime.datetime)
    (transport : Transport) (json_error_is_request_exception : bool)
    (ref : string) (data : value) (numbers : option (list string))
    (sequence_numbers : option (list Z)) (if_match : option string)
    (st : State) :
  ref = "" \/ (128 < String.length ref)%nat ->
  dMB.get_booking transport json_error_is_request_exception ref st =
  (Raise job_order_ref_error, st) /\
  dMB.get_booking_status transport json_error_is_request_exception ref st =
  (Raise job_order_ref_error, st) /\
  dMB.update_booking fromisoformat transport json_error_is_request_exception
    ref data if_match st = (Raise job_order_ref_error, st) /\
  dMB.cancel_containers transport json_error_is_request_exception
    ref numbers sequence_numbers if_match st =
  (Raise job_order_ref_error, st).
Proof.
  intros Href.
  assert (job_order_ref_valid ref = false) as Hinv.
  { destruct (job_order_ref_valid ref) eqn:E; [| reflexivity].
    apply job_order_ref_valid_iff in E.
    destruct Href as [-> | Hlen]; [cbn in E |]; lia. }
  unfold dMB.get_booking, dMB.get_booking_status, dMB.update_booking,
    dMB.cancel_containers, client.bind, lift.
  rewrite validate_job_order_ref_decided, Hinv. repeat split.
Qed.

Lemma job_order_reference_guard_witness :
  dMB.get_booking (always no_content) true "" fresh_state =
  (Raise job_order_ref_error, fresh_state) /\
  dMB.cancel_containers (always no_content) true ""
    (Some ["MSKU1234567"]) None (Some "v1") fresh_state =
  (Raise job_order_ref_error, fresh_state).
Proof.
  destruct (job_order_reference_guard datetime.fromisoformat
              (always no_content) true "" VNone (Some ["MSKU1234567"]) None
              (Some "v1") fresh_state (or_introl eq_refl))
    as [H1 [_ [_ H4]]].
  split; [exact H1 | exact H4].
Defined.

(** X6: with a reference of 1 to 128 characters, [get_booking] and
    [get_booking_status] send one GET request, without body, query
    parameters or [If-Match] header, to the base address followed by
    [/bookings/], the reference as it is written and, for the status,
    [/status]; the result of the operation is what [_make_request] makes of
    the outcome. *)
Theorem get_operations
    (transport : Transport) (json_error_is_request_exception : bool)
    (ref : string) (st : State) :
  (1 <= String.length ref <= 128)%nat ->
  (exists req,
     dMB.get_booking transport json_error_is_request_exception ref st =
     dMB.handle_outcome json_error_is_request_exception (transport req)
       (after_sending req st) /\
     method req = "GET" /\
     url req = base_url (self st) ++ "/bookings/" ++ ref /\
     json req = None /\ params req = None /\
     header "If-Match" (headers req) = None) /\
  (exists req,
     dMB.get_booking_status transport json_error_is_request_exception ref st =
     dMB.handle_outcome json_error_is_request_exception (transport req)
       (after_sending req st) /\
     method req = "GET" /\
     url req = base_url (self st) ++ "/bookings/" ++ ref ++ "/status" /\
     json req = None /\ params req = None /\
     header "If-Match" (headers req) = None).
Proof.
  intros Href. apply job_order_ref_valid_iff in Href.
  unfold dMB.get_booking, dMB.get_booking_status, client.bind, lift.
  rewrite validate_job_order_ref_decided, Href. split.
  - exists (request_of st "GET" ("/bookings/" ++ ref) None None None).
    rewrite make_request_run. repeat split. apply headers_of_no_token.
  - exists (request_of st "GET" ("/bookings/" ++ ref ++ "/status")
              None None None).
    rewrite make_request_run. repeat split. apply headers_of_no_token.
Qed.

Lemma get_operations_witness :
  exists req,
    dMB.get_booking unreachable true "JOB/1?x" fresh_state =
    dMB.handle_outcome true (unreachable req) (after_sending req fresh_state) /\
    url req = "https://api.test.drivemybox.io/bookings/JOB/1?x".
Proof.
  destruct (proj1 (get_operations unreachable true "JOB/1?x" fresh_state
                     ltac:(cbn; lia)))
    as [req [Hrun [_ [Hurl _]]]].
  exists req. split; [exact Hrun | exact Hurl].
Defined.

(** X7: the operations that send a document validate it first and send it
    as it is: when the validator raises, [create_booking] and
    [create_price_quotation] (of both clients) raise the same exception and
    send nothing; when it accepts, they send one POST request whose body is
    the document, to [/bookings], to [/quotations] and, in the variant
    [dMB_client], to [/booking/quotations]. *)
Theorem documents_are_forwarded
    (fromisoformat : string -> result datetime.datetime)
    (transport : Transport) (json_error_is_request_exception : bool)
    (document : value) (st : State) :
  forwards transport json_error_is_request_exception document st
    (dMB._validate_booking_data fromisoformat)
    (dMB.create_booking fromisoformat transport
       json_error_is_request_exception document)
    (request_of st "POST" "/bookings" (Some document) None None)
    "/bookings" st /\
  forwards transport json_error_is_request_exception document st
    (dMB._validate_quotation_data fromisoformat)
    (dMB.create_price_quotation fromisoformat transport
       json_error_is_request_exception document)
    (request_of st "POST" "/quotations" (Some document) None None)
    "/quotations" st /\
  forwards transport json_error_is_request_exception document st
    (dMB_client._validate_quotation_data fromisoformat)
    (dMB_client.create_price_quotation fromisoformat transport
       json_error_is_request_exception document)
    (client_request_of st "POST" "/booking/quotations" (Some document)
       None None)
    "/booking/quotations" (after_printing (api_key (self st)) st).
Proof.
  unfold forwards, dMB.create_booking, dMB.create_price_quotation,
    dMB_client.create_price_quotation, client.bind, lift.
  repeat split; try (intros e ->; reflexivity); intros ->; reflexivity.
Qed.

Lemma documents_are_forwarded_witness :
  dMB_client.create_price_quotation datetime.fromisoformat
    (always quotation_answer) true test.payload fresh_state =
  dMB.handle_outcome true
    (always quotation_answer
       (client_request_of fresh_state "POST" "/booking/quotations"
          (Some test.payload) None None))
    (after_sending
       (client_request_of fresh_state "POST" "/booking/quotations"
          (Some test.payload) None None)
       (after_printing "KEY" fresh_state)) /\
  dMB.create_booking datetime.fromisoformat (always quotation_answer) true
    (VDict nested_containers_document) fresh_state =
  (Raise containers_missing_error, fresh_state).
Proof.
  destruct (documents_are_forwarded datetime.fromisoformat
              (always quotation_answer) true test.payload fresh_state)
    as [_ [_ [_ [Hq _]]]].
  destruct (documents_are_forwarded datetime.fromisoformat
              (always quotation_answer) true
              (VDict nested_containers_document) fresh_state)
    as [[Hb _] _].
  split; [apply Hq; reflexivity | apply Hb; reflexivity].
Defined.

(** X8: with a valid reference, an accepted document and a non-empty
    token, [update_booking] sends one PUT request to [/bookings/] followed
    by the reference, with the document as its body and the token as its
    [If-Match] header. *)
Theorem update_booking_sends_token
    (fromisoformat : string -> result datetime.datetime)
    (transport : Transport) (json_error_is_request_exception : bool)
    (ref : string) (data : value) (token : string) (st : State) :
  (1 <= String.length ref <= 128)%nat ->
  dMB._validate_booking_data fromisoformat data = Ok true ->
  token <> "" ->
  exists req,
    dMB.update_booking fromisoformat transport json_error_is_request_exception
      ref data (Some token) st =
    dMB.handle_outcome json_error_is_request_exception (transport req)
      (after_sending req st) /\
    method req = "PUT" /\
    url req = base_url (self st) ++ "/bookings/" ++ ref /\
    json req = Some data /\ params req = None /\
    header "If-Match" (headers req) = Some token.
Proof.
  intros Href Hdata Htoken. apply job_order_ref_valid_iff in Href.
  apply String.eqb_neq in Htoken.
  unfold dMB.update_booking, client.bind, lift.
  rewrite validate_job_order_ref_decided, Href, Hdata.
  cbn [given]. rewrite Htoken. cbn [negb].
  exists (request_of st "PUT" ("/bookings/" ++ ref) (Some data) None
            (Some token)).
  rewrite make_request_run. repeat split.
  destruct (headers_contract_holds st (Some token)) as [[_ [_ [_ [H _]]]] _].
  cbn [request_of headers]. rewrite H. unfold when_given. cbn [given].
  now rewrite Htoken.
Qed.

Lemma update_booking_sends_token_witness :
  exists req,
    dMB.update_booking datetime.fromisoformat (always no_content) true
      "JOB-1" (VDict (("containers", VList [
                         VDict [("sequence_number", VInt 1);
                                ("type_code", VStr "22G1")]])
                      :: nested_containers_document)) (Some "v1")
      fresh_state =
    dMB.handle_outcome true (always no_content req)
      (after_sending req fresh_state) /\
    header "If-Match" (headers req) = Some "v1".
Proof.
  destruct (update_booking_sends_token datetime.fromisoformat
              (always no_content) true "JOB-1"
              (VDict (("containers", VList [
                         VDict [("sequence_number", VInt 1);
                                ("type_code", VStr "22G1")]])
                      :: nested_containers_document)) "v1" fresh_state
              ltac:(cbn; lia) eq_refl ltac:(discriminate))
    as [req [Hrun [_ [_ [_ [_ Htoken]]]]]].
  exists req. split; [exact Hrun | exact Htoken].
Defined.

(** X9: with a valid reference, container numbers of 11 characters,
    non-negative sequence numbers and a non-empty token, [cancel_containers]
    sends one DELETE request without body, with the token as [If-Match]
    header; its query parameters hold [container_numbers] exactly when the
    list of numbers is given and not empty, and
    [container_sequence_numbers] likewise.  So a call that names no
    container at all still sends the request, with empty query
    parameters. *)
Theorem cancel_containers_request
    (transport : Transport) (json_error_is_request_exception : bool)
    (ref : string) (numbers : option (list string))
    (sequence_numbers : option (list Z)) (token : string) (st : State) :
  (1 <= String.length ref <= 128)%nat ->
  Forall (fun n => String.length n = 11%nat) (dMB.elements numbers) ->
  Forall (fun k => 0 <= k) (dMB.elements sequence_numbers) ->
  token <> "" ->
  exists req query,
    dMB.cancel_containers transport json_error_is_request_exception
      ref numbers sequence_numbers (Some token) st =
    dMB.handle_outcome json_error_is_request_exception (transport req)
      (after_sending req st) /\
    method req = "DELETE" /\
    url req = base_url (self st) ++ "/bookings/" ++ ref ++ "/containers" /\
    json req = None /\
    header "If-Match" (headers req) = Some token /\
    params req = Some (VDict query) /\
    lookup "container_numbers" query =
    (if dMB.nonempty numbers
     then Some (VList (map VStr (dMB.elements numbers))) else None) /\
    lookup "container_sequence_numbers" query =
    (if dMB.nonempty sequence_numbers
     then Some (VList (map VInt (dMB.elements sequence_numbers))) else None) /\
    (dMB.nonempty numbers = false -> dMB.nonempty sequence_numbers = false ->
     query = []).
Proof.
  intros Href Hnum Hseq Htoken. apply job_order_ref_valid_iff in Href.
  apply String.eqb_neq in Htoken.
  assert (numbers_valid (dMB.elements numbers) = true) as Hnum'.
  { apply forallb_forall. intros n Hin. apply Nat.eqb_eq.
    exact (proj1 (Forall_forall _ _) Hnum n Hin). }
  assert (sequence_numbers_valid (dMB.elements sequence_numbers) = true)
    as Hseq'.
  { apply forallb_forall. intros k Hin. apply Z.leb_le.
    exact (proj1 (Forall_forall _ _) Hseq k Hin). }
  unfold dMB.cancel_containers, client.bind, lift.
  rewrite validate_job_order_ref_decided, Href.
  assert ((if dMB.nonempty numbers
           then for_each (fun number (_ : unit) =>
                            dMB._validate_container_number number ;; Ok tt)
                  (dMB.elements numbers) tt
           else Ok tt) = Ok tt) as ->.
  { rewrite container_numbers_loop, Hnum'. now destruct (dMB.nonempty numbers). }
  assert ((if dMB.nonempty sequence_numbers
           then for_each (fun number (_ : unit) =>
                            raise_if (number <? 0)
                              (ValueError (Text "Container sequence numbers must be non-negative"))
                              (Ok tt))
                  (dMB.elements sequence_numbers) tt
           else Ok tt) = Ok tt) as ->.
  { change (ValueError (Text "Container sequence numbers must be non-negative"))
      with sequence_number_error.
    rewrite sequence_numbers_loop, Hseq'.
    now destruct (dMB.nonempty sequence_numbers). }
  cbn [given]. rewrite Htoken. cbn [negb].
  eexists. eexists. rewrite make_request_run.
  split; [reflexivity |]. cbn [request_of method url json params headers].
  split; [reflexivity |]. split; [reflexivity |]. split; [reflexivity |].
  split.
  { destruct (headers_contract_holds st (Some token)) as [[_ [_ [_ [H _]]]] _].
    rewrite H. unfold when_given. cbn [given]. now rewrite Htoken. }
  split; [reflexivity |].
  destruct (dMB.nonempty numbers), (dMB.nonempty sequence_numbers);
    repeat split; try discriminate.
Qed.

Lemma cancel_containers_request_witness :
  exists req,
    dMB.cancel_containers (always no_content) true "JOB-1" None (Some [])
      (Some "v1") fresh_state =
    dMB.handle_outcome true (always no_content req)
      (after_sending req fresh_state) /\
    params req = Some (VDict []).
Proof.
  destruct (cancel_containers_request (always no_content) true "JOB-1"
              None (Some []) "v1" fresh_state
              ltac:(cbn; lia) (Forall_nil _) (Forall_nil _)
              ltac:(discriminate))
    as [req [query [Hrun [_ [_ [_ [_ [Hparams [_ [_ Hempty]]]]]]]]]].
  exists req. split; [exact Hrun |].
  rewrite Hparams, (Hempty eq_refl eq_refl). reflexivity.
Defined.

(** ** Validators on arbitrary values *)

Lemma bind_Ok {A B : Type} (r : result A) (k : A -> result B) (b : B) :
  Py.bind r k = Ok b <-> exists a, r = Ok a /\ k a = Ok b.
Proof.
  destruct r as [a | e]; cbn [Py.bind].
  - split; [intros H; now exists a | intros [a' [Ha H]]; congruence].
  - split; [discriminate | intros [a [Ha _]]; discriminate].
Qed.

Lemma raise_if_Ok {A : Type} (c : bool) (e : exn) (rest : result A) (a : A) :
  raise_if c e rest = Ok a <-> c = false /\ rest = Ok a.
Proof. destruct c; cbn [raise_if]; split; intuition discriminate. Qed.

(** The strict validator is the loose one followed by the allow-list. *)
Lemma strict_iso_code_is_loose_then_list (v : value) :
  dMB_client._validate_iso_code v = Ok true <->
  dMB._validate_iso_code v = Ok true /\
  in_strings v dMB_client.permitted_iso_codes = true.
Proof.
  unfold dMB_client._validate_iso_code, dMB._validate_iso_code.
  destruct (py_or (Ok (negb (truthy v))) (n <- py_len v ;; Ok (4 <? n)))
    as [[|] | e]; cbn [Py.bind raise_if].
  - split; [discriminate | intros [H _]; discriminate H].
  - destruct (in_strings v dMB_client.permitted_iso_codes); cbn [negb raise_if];
      split; intuition discriminate.
  - split; [discriminate | intros [H _]; discriminate H].
Qed.

Lemma loose_iso_code_accepts (v : value) :
  dMB._validate_iso_code v = Ok true <->
  truthy v = true /\ exists n, py_len v = Ok n /\ n <= 4.
Proof.
  unfold dMB._validate_iso_code, py_or. cbn [Py.bind].
  destruct (truthy v); cbn [negb].
  - destruct (py_len v) as [n | e]; cbn [Py.bind].
    + destruct (Z.ltb_spec 4 n); cbn [raise_if].
      * split; [discriminate |]. intros [_ [m [Hm Hle]]].
        injection Hm as <-. lia.
      * split; [intros _; split; [reflexivity | exists n; split; [reflexivity | lia]] | reflexivity].
    + split; [discriminate | intros [_ [m [Hm _]]]; discriminate Hm].
  - cbn [raise_if]. split; [discriminate | intros [H _]; discriminate H].
Qed.

(** X10: the ISO code validators on any value.  The strict one (of
    [dMB_client]) accepts a value exactly when it is a string of the
    allow-list.  The loose one (of [dMB]) accepts every string of 1 to 4
    characters and, besides, every list and every mapping with 1 to 4
    entries, and nothing else; so it accepts whatever the strict one
    accepts. *)
Theorem iso_code_validators_on_values (v : value) :
  (dMB_client._validate_iso_code v = Ok true <->
   exists s, v = VStr s /\ In s dMB_client.permitted_iso_codes) /\
  (dMB._validate_iso_code v = Ok true <->
   (exists s, v = VStr s /\ (1 <= String.length s <= 4)%nat) \/
   (exists xs, v = VList xs /\ (1 <= List.length xs <= 4)%nat) \/
   (exists d, v = VDict d /\ (1 <= List.length d <= 4)%nat)) /\
  (dMB_client._validate_iso_code v = Ok true ->
   dMB._validate_iso_code v = Ok true).
Proof.
  split; [| split].
  - split.
    + intros H. apply strict_iso_code_is_loose_then_list in H.
      destruct H as [_ H]. destruct v as [| b | n | s | xs | d];
        try (unfold in_strings in H; rewrite existsb_exists in H;
             destruct H as [k [_ Hk]]; discriminate Hk).
      exists s. split; [reflexivity | now apply in_strings_In].
    + intros [s [-> Hin]]. now apply strict_iso_code_accepts.
  - rewrite loose_iso_code_accepts. split.
    + intros [Ht [n [Hlen Hle]]].
      destruct v as [| b | k | s | xs | d]; try discriminate Hlen;
        cbn [py_len] in Hlen; injection Hlen as <-.
      * left. exists s. split; [reflexivity |].
        destruct s; [discriminate Ht | cbn [String.length] in *; lia].
      * right; left. exists xs. split; [reflexivity |].
        destruct xs; [discriminate Ht | cbn [List.length] in *; lia].
      * right; right. exists d. split; [reflexivity |].
        destruct d; [discriminate Ht | cbn [List.length] in *; lia].
    + intros [[s [-> H]] | [[xs [-> H]] | [d [-> H]]]].
      * destruct s; [cbn in H; lia |].
        split; [reflexivity | eexists; split; [reflexivity | lia]].
      * destruct xs; [cbn in H; lia |].
        split; [reflexivity | eexists; split; [reflexivity | lia]].
      * destruct d; [cbn in H; lia |].
        split; [reflexivity | eexists; split; [reflexivity | lia]].
  - intros H. now apply strict_iso_code_is_loose_then_list in H.
Qed.

Lemma iso_code_validators_on_values_witness :
  dMB._validate_iso_code (VList [VInt 2; VInt 2]) = Ok true /\
  dMB._validate_iso_code (VStr "22G1") = Ok true.
Proof.
  split.
  - apply (proj1 (proj2 (iso_code_validators_on_values
                           (VList [VInt 2; VInt 2])))).
    right; left. eexists. split; [reflexivity | cbn; lia].
  - apply (proj2 (proj2 (iso_code_validators_on_values (VStr "22G1")))).
    reflexivity.
Defined.

(** ** Accepted quotation documents *)

Lemma validate_address_Ok (a : value) (b : bool) :
  dMB._validate_address a = Ok b -> b = true.
Proof.
  unfold dMB._validate_address. intros H.
  apply bind_Ok in H. destruct H as [g [_ H]].
  apply bind_Ok in H. destruct H as [t [_ H]].
  apply raise_if_Ok in H. destruct H as [_ H]. congruence.
Qed.

Lemma validate_date_time_Ok
    (fromisoformat : string -> result datetime.datetime) (v : value)
    (b : bool) :
  dMB._validate_date_time fromisoformat v = Ok b -> b = true.
Proof.
  unfold dMB._validate_date_time.
  destruct (py_replace v "Z" "+00:00") as [s | e]; cbn [Py.bind].
  - destruct (fromisoformat s) as [d | e]; cbn [Py.bind except_ValueError];
      [congruence | destruct e; discriminate].
  - destruct e; discriminate.
Qed.

Lemma loose_iso_code_Ok (v : value) (b : bool) :
  dMB._validate_iso_code v = Ok b -> b = true.
Proof.
  unfold dMB._validate_iso_code. intros H.
  apply bind_Ok in H. destruct H as [c [_ H]].
  apply raise_if_Ok in H. destruct H as [_ H]. congruence.
Qed.

Lemma strict_iso_code_Ok (v : value) (b : bool) :
  dMB_client._validate_iso_code v = Ok b -> b = true.
Proof.
  unfold dMB_client._validate_iso_code. intros H.
  apply bind_Ok in H. destruct H as [c [_ H]].
  apply raise_if_Ok in H. destruct H as [_ H].
  apply raise_if_Ok in H. destruct H as [_ H]. congruence.
Qed.

Lemma py_lt_0_false (n : value) :
  py_lt n 0 = Ok false <-> exists k, as_int n = Ok k /\ 0 <= k.
Proof.
  unfold py_lt. destruct (as_int n) as [k | e]; cbn [Py.bind].
  - destruct (Z.ltb_spec k 0); split.
    + discriminate.
    + intros [k' [Hk Hle]]. injection Hk as <-. lia.
    + intros _. exists k. split; [reflexivity | lia].
    + reflexivity.
  - split; [discriminate | intros [k [Hk _]]; discriminate Hk].
Qed.

(** When the loop body accepts a loading point. *)
Lemma loading_point_body_accepts (p : value) (count count' : Z) :
  dMB.loading_point_body p count = Ok count' <->
  loading_point_ok p /\ count' = count + if sets_provision p then 1 else 0.
Proof.
  split.
  - intros H. split; [| now apply loading_point_body_count].
    destruct p as [| b | n | s | xs | d];
      try (edestruct (loading_point_body_not_dict) as [e He];
           [| rewrite He in H; discriminate H]; intros d; discriminate).
    rewrite loading_point_body_dict in H.
    destruct (lookup "type" d) as [t |] eqn:Et; [| discriminate].
    destruct (in_strings t dMB.LoadingPointType) eqn:Ein; [| discriminate].
    destruct (lookup "sequence_number" d) as [n |] eqn:En; [| discriminate].
    destruct (py_lt n 0) as [[|] | e] eqn:Elt; cbn [Py.bind] in H;
      try discriminate.
    destruct (lookup "address" d) as [a |] eqn:Ea; [| discriminate].
    destruct (dMB._validate_address a) as [ok | e] eqn:Eaddr;
      cbn [Py.bind] in H; [| discriminate].
    apply py_lt_0_false in Elt. destruct Elt as [k [Hk Hle]].
    rewrite (validate_address_Ok a ok Eaddr) in Eaddr.
    exists d, t, n, k, a. repeat split; assumption.
  - intros [[d [t [n [k [a [-> [Et [Ein [En [Hk [Hle [Ea Eaddr]]]]]]]]]]]] ->].
    rewrite loading_point_body_dict, Et, Ein, En.
    rewrite (proj2 (py_lt_0_false n)) by (now exists k).
    cbn [Py.bind]. rewrite Ea, Eaddr. reflexivity.
Qed.

(** When the loop over the loading points ends. *)
Lemma loading_points_loop_accepts (points : list value) (count count' : Z) :
  for_each dMB.loading_point_body points count = Ok count' <->
  Forall loading_point_ok points /\
  count' = count + Z.of_nat (provision_count points).
Proof.
  revert count. induction points as [| p points IH]; intros count.
  - cbn [for_each]. rewrite provision_count_nil. split.
    + intros H. injection H as <-. split; [constructor | cbn; lia].
    + intros [_ ->]. f_equal. cbn. lia.
  - cbn [for_each]. rewrite bind_Ok, provision_count_cons. split.
    + intros [c [Hp Hrest]]. apply loading_point_body_accepts in Hp.
      destruct Hp as [Hok ->]. apply IH in Hrest. destruct Hrest as [Hall ->].
      split; [now constructor | lia].
    + intros [Hall ->]. inversion Hall as [| ? ? Hp Hps]; subst.
      exists (count + if sets_provision p then 1 else 0). split.
      * apply loading_point_body_accepts. now split.
      * apply IH. split; [assumption | lia].
Qed.

(** A loop stops at an item on which its body raises. *)
Lemma for_each_first_raises {A S : Type} (body : A -> S -> result S)
                            (x : A) (xs : list A) (s : S) :
  (forall s', body x s <> Ok s') -> forall s', for_each body (x :: xs) s <> Ok s'.
Proof.
  intros Hx s'. cbn [for_each]. destruct (body x s) as [s1 | e] eqn:E;
    [now contradiction (Hx s1) | discriminate].
Qed.

(** What is iterated is a non-empty list when the loop over it ends and the
    body raises on strings. *)
Lemma iterated_is_list {S : Type} (body : value -> S -> result S)
                       (v : value) (s s' : S) :
  (forall k s0 s1, body (VStr k) s0 <> Ok s1) ->
  truthy v = true ->
  (items <- py_iter v ;; for_each body items s) = Ok s' ->
  exists x xs, v = VList (x :: xs) /\ for_each body (x :: xs) s = Ok s'.
Proof.
  intros Hstr Ht H.
  destruct v as [| b | n | k | xs | d]; try discriminate H.
  - destruct k as [| c k]; [discriminate Ht |].
    cbn [py_iter chars Py.bind] in H.
    now apply for_each_first_raises in H.
  - destruct xs as [| x xs]; [discriminate Ht |]. now exists x, xs.
  - destruct d as [| [k v] d]; [discriminate Ht |].
    cbn [py_iter map Py.bind fst] in H.
    now apply for_each_first_raises in H.
Qed.

Lemma loading_point_body_str (k : string) (count count' : Z) :
  dMB.loading_point_body (VStr k) count <> Ok count'.
Proof.
  destruct (loading_point_body_not_dict (VStr k) count) as [e ->];
    [intros d; discriminate | discriminate].
Qed.

(** When the route part lets a document through. *)
Lemma route_part_accepts (rest : result bool) (doc : dict) (b : bool) :
  route_part rest (VDict doc) = Ok b <->
  (exists p ps, route_points doc (p :: ps) /\
                Forall loading_point_ok (p :: ps) /\
                (provision_count (p :: ps) <= 1)%nat) /\
  rest = Ok b.
Proof.
  split.
  - unfold route_part, py_not_in, py_not, py_or.
    cbn [py_in getitem Py.bind]. unfold has_key.
    destruct (lookup "route" doc) as [route |] eqn:Eroute;
      cbn [Py.bind negb raise_if]; [| discriminate].
    destruct route as [| b0 | n | s | xs | r]; cbn [py_in getitem Py.bind];
      try discriminate.
    + destruct (occurs "route_loading_points" s); discriminate.
    + destruct (existsb _ xs); discriminate.
    + unfold has_key.
      destruct (lookup "route_loading_points" r) as [points |] eqn:Epoints;
        cbn [Py.bind negb raise_if]; [| discriminate].
      destruct (truthy points) eqn:Et; cbn [negb raise_if]; [| discriminate].
      intros H.
      destruct (items <- py_iter points ;;
                for_each dMB.loading_point_body items 0) as [n | e] eqn:Eloop.
      2: { apply bind_Ok in H. destruct H as [items [Hi H]].
           apply bind_Ok in H. destruct H as [n [Hn _]].
           rewrite Hi in Eloop. cbn [Py.bind] in Eloop. congruence. }
      apply (iterated_is_list dMB.loading_point_body points 0 n
               loading_point_body_str Et) in Eloop.
      destruct Eloop as [p [ps [-> Hloop]]].
      cbn [py_iter Py.bind] in H. rewrite Hloop in H. cbn [Py.bind] in H.
      apply raise_if_Ok in H. destruct H as [Hle Hrest].
      apply loading_points_loop_accepts in Hloop. destruct Hloop as [Hall ->].
      apply Z.ltb_ge in Hle.
      split; [| exact Hrest]. exists p, ps.
      split; [now exists r | split; [assumption | lia]].
  - intros [[p [ps [Hpoints [Hall Hcount]]]] ->].
    rewrite (route_part_points _ doc (p :: ps) Hpoints).
    rewrite (proj2 (loading_points_loop_accepts (p :: ps) 0 _)
               (conj Hall eq_refl)).
    cbn [Py.bind].
    assert ((1 <? 0 + Z.of_nat (provision_count (p :: ps))) = false) as ->
      by (apply Z.ltb_ge; lia).
    reflexivity.
Qed.

Lemma unit_loop_accepts {A : Type} (body : A -> unit -> result unit)
                        (xs : list A) (u : unit) :
  for_each body xs tt = Ok u <-> Forall (fun x => body x tt = Ok tt) xs.
Proof.
  destruct u. induction xs as [| x xs IH]; cbn [for_each].
  - split; [constructor | reflexivity].
  - rewrite bind_Ok. split.
    + intros [[] [Hx Hxs]]. constructor; [exact Hx | now apply IH].
    + intros H. inversion H as [| ? ? Hx Hxs]; subst.
      exists tt. split; [exact Hx | now apply IH].
Qed.

(** When the containers part lets a document through. *)
Lemma containers_part_accepts (body : value -> unit -> result unit)
                              (doc : dict) (b : bool) :
  (forall k u u', body (VStr k) u <> Ok u') ->
  containers_part body (VDict doc) = Ok b <->
  b = true /\
  exists c cs, lookup "containers" doc = Some (VList (c :: cs)) /\
               Forall (fun x => body x tt = Ok tt) (c :: cs).
Proof.
  intros Hstr. unfold containers_part, py_or, py_not_in, py_not.
  cbn [py_in getitem Py.bind]. unfold has_key.
  destruct (lookup "containers" doc) as [cv |]; cbn [Py.bind negb raise_if].
  2: { split; [discriminate | intros [_ [c [cs [H _]]]]; discriminate H]. }
  destruct (truthy cv) eqn:Et; cbn [negb raise_if].
  2: { split; [discriminate |]. intros [_ [c [cs [H _]]]].
       injection H as ->. discriminate Et. }
  split.
  - intros H.
    destruct (items <- py_iter cv ;; for_each body items tt) as [u | e]
      eqn:Eloop.
    2: { apply bind_Ok in H. destruct H as [items [Hi H]].
         apply bind_Ok in H. destruct H as [u [Hu _]].
         rewrite Hi in Eloop. cbn [Py.bind] in Eloop. congruence. }
    apply (iterated_is_list body cv tt u Hstr Et) in Eloop.
    destruct Eloop as [c [cs [-> Hloop]]].
    cbn [py_iter Py.bind] in H. rewrite Hloop in H. cbn [Py.bind] in H.
    split; [congruence |]. exists c, cs.
    split; [reflexivity | now apply unit_loop_accepts in Hloop].
  - intros [-> [c [cs [Hcv Hall]]]]. injection Hcv as ->.
    cbn [py_iter Py.bind].
    apply (unit_loop_accepts body (c :: cs) tt) in Hall. now rewrite Hall.
Qed.

Lemma quotation_container_body_checks
    (fromisoformat : string -> result datetime.datetime) :
  dMB.quotation_container_body fromisoformat =
  container_checks dMB._validate_iso_code
    (dMB._validate_date_time fromisoformat) /\
  dMB_client.quotation_container_body fromisoformat =
  container_checks dMB_client._validate_iso_code
    (dMB_client._validate_date_time fromisoformat).
Proof. split; reflexivity. Qed.

Lemma container_checks_str
    (validate_iso_code validate_date_time : value -> result bool)
    (k : string) (u u' : unit) :
  container_checks validate_iso_code validate_date_time (VStr k) u <> Ok u'.
Proof.
  unfold container_checks, py_not_in, py_not. cbn [py_in Py.bind].
  destruct (occurs "sequence_number" k);
    cbn [negb raise_if getitem Py.bind]; discriminate.
Qed.

(** When the loop body of a quotation accepts a container. *)
Lemma container_checks_accepts
    (validate_iso_code validate_date_time : value -> result bool)
    (x : value) :
  (forall v b, validate_iso_code v = Ok b -> b = true) ->
  (forall v b, validate_date_time v = Ok b -> b = true) ->
  container_checks validate_iso_code validate_date_time x tt = Ok tt <->
  quotation_container_ok validate_iso_code validate_date_time x.
Proof.
  intros Hiso Hdt. unfold quotation_container_ok. split.
  - intros H.
    destruct x as [| b | z | s | xs | d]; try discriminate H.
    + now apply container_checks_str in H.
    + unfold container_checks, py_not_in, py_not in H.
      cbn [py_in Py.bind] in H.
      destruct (existsb _ xs); cbn [negb raise_if getitem Py.bind] in H;
        discriminate H.
    + unfold container_checks, py_not_in, py_not in H.
      cbn [py_in getitem Py.bind] in H. unfold has_key in H.
      destruct (lookup "sequence_number" d) as [n |] eqn:En;
        cbn [Py.bind negb raise_if] in H; [| discriminate H].
      destruct (py_lt n 0) as [[|] | e] eqn:Elt;
        cbn [Py.bind raise_if] in H; try discriminate H.
      destruct (lookup "type_code" d) as [t |] eqn:Et;
        cbn [Py.bind negb raise_if] in H; [| discriminate H].
      destruct (validate_iso_code t) as [ok1 | e] eqn:Eiso;
        cbn [Py.bind] in H; [| discriminate H].
      destruct (lookup "provision_at" d) as [v |] eqn:Ev;
        cbn [Py.bind negb raise_if] in H; [| discriminate H].
      destruct (validate_date_time v) as [ok2 | e] eqn:Edt;
        cbn [Py.bind] in H; [| discriminate H].
      apply py_lt_0_false in Elt. destruct Elt as [k [Hk Hle]].
      rewrite (Hiso _ _ Eiso) in Eiso. rewrite (Hdt _ _ Edt) in Edt.
      exists d, n, k, t, v. repeat split; assumption.
  - intros [d [n [k [t [v [-> [En [Hk [Hle [Et [Eiso [Ev Edt]]]]]]]]]]]].
    unfold container_checks, py_not_in, py_not.
    cbn [py_in getitem Py.bind]. unfold has_key. rewrite En.
    cbn [Py.bind negb raise_if].
    rewrite (proj2 (py_lt_0_false n)) by (now exists k).
    cbn [Py.bind raise_if]. rewrite Et. cbn [Py.bind negb raise_if].
    rewrite Eiso. cbn [Py.bind]. rewrite Ev. cbn [Py.bind negb raise_if].
    rewrite Edt. reflexivity.
Qed.

(** When quotation validation with the given validators accepts. *)
Lemma quotation_checks_accept
    (validate_iso_code validate_date_time : value -> result bool)
    (doc : dict) :
  (forall v b, validate_iso_code v = Ok b -> b = true) ->
  (forall v b, validate_date_time v = Ok b -> b = true) ->
  route_part
    (containers_part
       (container_checks validate_iso_code validate_date_time) (VDict doc))
    (VDict doc) = Ok true <->
  quotation_ok validate_iso_code validate_date_time doc.
Proof.
  intros Hiso Hdt. rewrite route_part_accepts.
  rewrite containers_part_accepts by (apply container_checks_str).
  unfold quotation_ok. split.
  - intros [[p [ps [Hpoints [Hall Hcount]]]] [_ [c [cs [Hcs Hok]]]]].
    exists p, ps, c, cs. repeat split; try assumption.
    eapply Forall_impl; [| exact Hok]. intros x Hx.
    now apply container_checks_accepts.
  - intros [p [ps [c [cs [Hpoints [Hall [Hcount [Hcs Hok]]]]]]]].
    split; [exists p, ps; repeat split; assumption |].
    split; [reflexivity |]. exists c, cs. split; [assumption |].
    eapply Forall_impl; [| exact Hok]. intros x Hx.
    now apply container_checks_accepts.
Qed.

(** X11: the documents that quotation validation accepts, in both
    clients: [_validate_quotation_data] returns [True] on a document exactly
    when the route is a mapping whose [route_loading_points] is a non-empty
    list of mappings, each with a [type] of the enumeration, a non-negative
    integer [sequence_number] and an [address] that the address validator
    accepts, at most one of them setting [provision_location] to a true
    value, and [containers] is a non-empty list of mappings, each with a
    non-negative integer [sequence_number], a [type_code] that the ISO code
    validator of the client accepts and a [provision_at] that the timestamp
    validator accepts.  Numbers are the integers and booleans of the
    model, which has no fractional numbers. *)
Theorem accepted_quotations
    (fromisoformat : string -> result datetime.datetime) (doc : dict) :
  (dMB._validate_quotation_data fromisoformat (VDict doc) = Ok true <->
   quotation_ok dMB._validate_iso_code
     (dMB._validate_date_time fromisoformat) doc) /\
  (dMB_client._validate_quotation_data fromisoformat (VDict doc) = Ok true <->
   quotation_ok dMB_client._validate_iso_code
     (dMB_client._validate_date_time fromisoformat) doc).
Proof.
  split.
  - apply (quotation_checks_accept dMB._validate_iso_code
             (dMB._validate_date_time fromisoformat));
      [apply loose_iso_code_Ok | apply validate_date_time_Ok].
  - apply (quotation_checks_accept dMB_client._validate_iso_code
             (dMB_client._validate_date_time fromisoformat));
      [apply strict_iso_code_Ok | apply validate_date_time_Ok].
Qed.

Lemma accepted_quotations_witness :
  match test.payload with
  | VDict doc =>
      quotation_ok dMB_client._validate_iso_code
        (dMB_client._validate_date_time datetime.fromisoformat) doc
  | _ => False
  end.
Proof.
  cbv delta [test.payload] iota.
  apply (accepted_quotations datetime.fromisoformat). reflexivity.
Defined.

Lemma route_part_dict (rest : result bool) (q : value) (b : bool) :
  route_part rest q = Ok b -> exists doc, q = VDict doc.
Proof.
  unfold route_part, py_not_in, py_not, py_or. intros H.
  destruct q as [| b0 | n | s | xs | doc]; try discriminate H.
  - cbn [py_in Py.bind] in H.
    destruct (occurs "route" s); cbn [negb raise_if getitem Py.bind] in H;
      discriminate H.
  - cbn [py_in Py.bind] in H.
    destruct (existsb _ xs); cbn [negb raise_if getitem Py.bind] in H;
      discriminate H.
  - now exists doc.
Qed.

Lemma quotation_ok_weakens
    (iso iso' date_time : value -> result bool) (doc : dict) :
  (forall v, iso v = Ok true -> iso' v = Ok true) ->
  quotation_ok iso date_time doc -> quotation_ok iso' date_time doc.
Proof.
  intros Hiso [p [ps [c [cs [Hpoints [Hall [Hcount [Hcs Hok]]]]]]]].
  exists p, ps, c, cs. repeat split; try assumption.
  eapply Forall_impl; [| exact Hok].
  intros x [d [n [k [t [v [-> [En [Hk [Hle [Et [Eiso [Ev Edt]]]]]]]]]]]].
  exists d, n, k, t, v. repeat split; try assumption. now apply Hiso.
Qed.

(** X12: quotation validation of the variant [dMB_client] refines that of
    the variant [dMB] on whole documents: whatever value the strict
    validator accepts, the loose one accepts. *)
Theorem strict_quotation_refines_loose
    (fromisoformat : string -> result datetime.datetime) (q : value) :
  dMB_client._validate_quotation_data fromisoformat q = Ok true ->
  dMB._validate_quotation_data fromisoformat q = Ok true.
Proof.
  intros H.
  destruct (route_part_dict _ q true H) as [doc ->].
  apply (quotation_checks_accept dMB._validate_iso_code
           (dMB._validate_date_time fromisoformat));
    [apply loose_iso_code_Ok | apply validate_date_time_Ok |].
  apply (quotation_checks_accept dMB_client._validate_iso_code
           (dMB_client._validate_date_time fromisoformat)) in H;
    [| apply strict_iso_code_Ok | apply validate_date_time_Ok].
  revert H. apply quotation_ok_weakens.
  intros v Hv. now apply strict_iso_code_is_loose_then_list in Hv.
Qed.

Lemma strict_quotation_refines_loose_witness :
  dMB._validate_quotation_data datetime.fromisoformat test.payload = Ok true.
Proof.
  apply (strict_quotation_refines_loose datetime.fromisoformat test.payload).
  reflexivity.
Defined.

(** ** Accepted booking documents *)

(** The check of a service on a mapping. *)
Lemma service_body_dict (d : dict) (u : unit) :
  dMB.service_body (VDict d) u =
  match lookup "type" d with
  | None => Raise (ValueError (Text "Container service must specify a type"))
  | Some t =>
      if in_strings t dMB.ContainerServiceType then
        match lookup "quantity" d with
        | None => Ok tt
        | Some q =>
            if isinstance_int q then
              match as_int q with
              | Ok k =>
                  if k <=? 0 then
                    Raise (ValueError (Text "Container service quantity must be a positive integer"))
                  else Ok tt
              | Raise e => Raise e
              end
            else
              Raise (ValueError (Text "Container service quantity must be a positive integer"))
        end
      else Raise (ValueError [Lit "Invalid container service type: "; Str t])
  end.
Proof.
  unfold dMB.service_body, py_not_in, py_not, py_and, py_or, py_le,
    enum_call, raise_if.
  cbn [py_in getitem Py.bind]. unfold has_key.
  destruct (lookup "type" d) as [t |]; cbn [Py.bind negb]; [| reflexivity].
  destruct (in_strings t dMB.ContainerServiceType);
    cbn [Py.bind except_ValueError]; [| reflexivity].
  destruct (lookup "quantity" d) as [q |]; cbn [Py.bind]; [| reflexivity].
  destruct (isinstance_int q); cbn [negb Py.bind]; [| reflexivity].
  destruct (as_int q) as [k | e]; cbn [Py.bind]; [| reflexivity].
  destruct (k <=? 0); reflexivity.
Qed.

Lemma service_body_not_dict (s : value) (u u' : unit) :
  (forall d, s <> VDict d) -> dMB.service_body s u <> Ok u'.
Proof.
  intros Hs. unfold dMB.service_body, py_not_in, py_not, raise_if.
  destruct s as [| b | n | k | xs | d]; cbn [py_in Py.bind];
    try discriminate.
  - destruct (occurs "type" k); cbn [negb getitem Py.bind except_ValueError];
      discriminate.
  - destruct (existsb _ xs); cbn [negb getitem Py.bind except_ValueError];
      discriminate.
  - now contradiction (Hs d).
Qed.

Lemma isinstance_int_as_int (q : value) :
  isinstance_int q = true <-> exists k, as_int q = Ok k.
Proof.
  destruct q; cbn; split; try discriminate; try (intros [k H]; discriminate H);
    try reflexivity; intros _; eexists; reflexivity.
Qed.

Lemma service_body_accepts (s : value) :
  dMB.service_body s tt = Ok tt <-> service_ok s.
Proof.
  split.
  - intros H. destruct s as [| b | n | k | xs | d];
      try (now apply service_body_not_dict in H; [| intros d; discriminate]).
    rewrite service_body_dict in H.
    destruct (lookup "type" d) as [t |] eqn:Et; [| discriminate].
    destruct (in_strings t dMB.ContainerServiceType) eqn:Ein; [| discriminate].
    exists d, t. repeat split; try assumption.
    intros q Hq. rewrite Hq in H.
    destruct (isinstance_int q); [| discriminate].
    destruct (as_int q) as [k |]; [| discriminate].
    destruct (Z.leb_spec k 0); [discriminate |].
    exists k. split; [reflexivity | assumption].
  - intros [d [t [-> [Et [Ein Hq]]]]]. rewrite service_body_dict, Et, Ein.
    destruct (lookup "quantity" d) as [q |]; [| reflexivity].
    destruct (Hq q eq_refl) as [k [Hk Hpos]].
    rewrite (proj2 (isinstance_int_as_int q)) by (now exists k).
    rewrite Hk. destruct (Z.leb_spec k 0); [lia | reflexivity].
Qed.

(** X13: the check of a container service.  A service is accepted exactly
    when it is a mapping with a [type] of the enumeration and, if it has a
    [quantity], an integer quantity above 0.  On a mapping the check never
    stops with anything but a [ValueError]: a quantity that is no integer is
    reported, not compared. *)
Theorem container_service_check (s : value) (d : dict) :
  (dMB.service_body s tt = Ok tt <-> service_ok s) /\
  (dMB.service_body (VDict d) tt = Ok tt \/
   exists msg, dMB.service_body (VDict d) tt = Raise (ValueError msg)).
Proof.
  split; [apply service_body_accepts |].
  rewrite service_body_dict.
  destruct (lookup "type" d) as [t |]; [| right; eexists; reflexivity].
  destruct (in_strings t dMB.ContainerServiceType);
    [| right; eexists; reflexivity].
  destruct (lookup "quantity" d) as [q |]; [| now left].
  destruct (isinstance_int q) eqn:Ei; [| right; eexists; reflexivity].
  apply isinstance_int_as_int in Ei. destruct Ei as [k ->].
  destruct (k <=? 0); [right; eexists; reflexivity | now left].
Qed.

Lemma container_service_check_witness :
  service_ok (VDict [("type", VStr "VET_STOP"); ("quantity", VBool true)]).
Proof.
  apply (container_service_check
           (VDict [("type", VStr "VET_STOP"); ("quantity", VBool true)]) []).
  reflexivity.
Defined.

Lemma validate_weight_accepts (v : value) (b : bool) :
  dMB._validate_weight v = Ok b <->
  b = true /\ exists k, as_int v = Ok k /\ 0 <= k.
Proof.
  unfold dMB._validate_weight, py_lt.
  destruct (as_int v) as [k | e]; cbn [Py.bind].
  - destruct (Z.ltb_spec k 0); cbn [raise_if]; split.
    + discriminate.
    + intros [_ [k' [Hk Hle]]]. injection Hk as <-. lia.
    + intros H'. split; [congruence |]. exists k. split; [reflexivity | lia].
    + now intros [-> _].
  - split; [discriminate | intros [_ [k [Hk _]]]; discriminate Hk].
Qed.

Lemma validate_net_weight_accepts (v : value) (b : bool) :
  dMB._validate_net_weight v = Ok b <->
  b = true /\ exists k, as_int v = Ok k /\ 0 <= k <= 35000.
Proof.
  unfold dMB._validate_net_weight, py_or, py_lt, py_gt.
  destruct (as_int v) as [k | e]; cbn [Py.bind].
  - destruct (Z.ltb_spec k 0); cbn [Py.bind raise_if].
    + split; [discriminate |].
      intros [_ [k' [Hk Hle]]]. injection Hk as <-. lia.
    + destruct (Z.ltb_spec 35000 k); cbn [raise_if]; split.
      * discriminate.
      * intros [_ [k' [Hk Hle]]]. injection Hk as <-. lia.
      * intros H'. split; [congruence |]. exists k. split; [reflexivity | lia].
      * now intros [-> _].
  - split; [discriminate | intros [_ [k [Hk _]]]; discriminate Hk].
Qed.

(** An optional field: [if key in container: check(container[key])]. *)
Lemma optional_field_accepts (key : string) (d : dict)
                             (check : value -> result bool) (u : unit) :
  dMB.when (py_in key (VDict d))
    (v <- getitem (VDict d) key ;; check v ;; Ok tt) = Ok u <->
  forall v, lookup key d = Some v -> exists b, check v = Ok b.
Proof.
  destruct u. unfold dMB.when. cbn [py_in getitem Py.bind]. unfold has_key.
  destruct (lookup key d) as [v |]; cbn [Py.bind].
  - destruct (check v) as [b | e] eqn:E; cbn [Py.bind]; split.
    + intros _ v' Hv. injection Hv as <-. now exists b.
    + reflexivity.
    + discriminate.
    + intros H. destruct (H v eq_refl) as [b Hb]. congruence.
  - split; [intros _ v Hv; discriminate Hv | reflexivity].
Qed.

(** The services of a container: skipped when absent or empty. *)
Lemma services_accept (d : dict) (u : unit) :
  dMB.when (py_and (py_in "services" (VDict d))
              (v <- getitem (VDict d) "services" ;; Ok (truthy v)))
    (services <- getitem (VDict d) "services" ;;
     items <- py_iter services ;;
     for_each dMB.service_body items tt) = Ok u <->
  forall sv, lookup "services" d = Some sv -> truthy sv = true ->
             exists s ss, sv = VList (s :: ss) /\ Forall service_ok (s :: ss).
Proof.
  destruct u. unfold dMB.when, py_and. cbn [py_in getitem Py.bind].
  unfold has_key.
  destruct (lookup "services" d) as [sv |]; cbn [Py.bind].
  2: { split; [intros _ sv H; discriminate H | reflexivity]. }
  destruct (truthy sv) eqn:Et.
  2: { split; [| reflexivity]. intros _ sv' H. injection H as <-.
       rewrite Et. discriminate. }
  split.
  - intros H sv' Hsv _. injection Hsv as <-.
    apply iterated_is_list in H; [| | exact Et].
    2: { intros k s0 s1. apply service_body_not_dict. intros d'. discriminate. }
    destruct H as [s [ss [-> Hloop]]]. exists s, ss. split; [reflexivity |].
    apply unit_loop_accepts in Hloop.
    eapply Forall_impl; [| exact Hloop].
    intros x Hx. now apply service_body_accepts.
  - intros H. destruct (H sv eq_refl Et) as [s [ss [-> Hall]]].
    cbn [py_iter Py.bind]. apply unit_loop_accepts.
    eapply Forall_impl; [| exact Hall].
    intros x Hx. now apply service_body_accepts.
Qed.

(** The check of a container of a booking that is a mapping. *)
Lemma validate_container_data_dict
    (fromisoformat : string -> result datetime.datetime) (d : dict)
    (b : bool) :
  dMB._validate_container_data fromisoformat (VDict d) = Ok b <->
  b = true /\ booking_container_ok (dMB._validate_date_time fromisoformat) d.
Proof.
  unfold dMB._validate_container_data, booking_container_ok.
  cbn [for_each]. unfold py_not_in, py_not, py_and.
  cbn [py_in getitem Py.bind]. unfold has_key.
  destruct (lookup "sequence_number" d) as [n |] eqn:En;
    cbn [Py.bind negb raise_if].
  2: { split; [discriminate |].
       intros [_ [[n [k [Hn _]]] _]]. discriminate Hn. }
  destruct (lookup "type_code" d) as [t |] eqn:Et;
    cbn [Py.bind negb raise_if].
  2: { split; [discriminate |].
       intros [_ [_ [[t [Ht _]] _]]]. discriminate Ht. }
  pose proof (optional_field_accepts "type_code" d dMB._validate_iso_code)
    as Htc.
  pose proof (optional_field_accepts "provision_at" d
                (dMB._validate_date_time fromisoformat)) as Hpa.
  pose proof (optional_field_accepts "assumed_net_weight" d
                dMB._validate_net_weight) as Hnw.
  pose proof (optional_field_accepts "assumed_tara" d dMB._validate_weight)
    as Hta.
  pose proof (services_accept d) as Hsv.
  unfold py_and in Hsv.
  cbn [py_in getitem Py.bind] in Htc, Hpa, Hnw, Hta, Hsv. unfold has_key in *.
  rewrite Et in Htc. cbn [Py.bind] in Htc.
  split.
  - intros H.
    apply bind_Ok in H. destruct H as [neg [Hneg H]].
    apply raise_if_Ok in H. destruct H as [-> H].
    apply bind_Ok in H. destruct H as [u1 [H1 H]].
    apply bind_Ok in H. destruct H as [u2 [H2 H]].
    apply bind_Ok in H. destruct H as [u3 [H3 H]].
    apply bind_Ok in H. destruct H as [u4 [H4 H]].
    apply bind_Ok in H. destruct H as [u5 [H5 H]].
    split; [congruence |].
    apply py_lt_0_false in Hneg. destruct Hneg as [k [Hk Hle]].
    split; [now exists n, k |].
    split.
    { exists t. split; [reflexivity |].
      destruct (proj1 (Htc u1) H1 t eq_refl) as [b' Hb'].
      now rewrite Hb', (loose_iso_code_Ok _ _ Hb'). }
    split.
    { intros v Hv. destruct (proj1 (Hpa u2) H2 v Hv) as [b' Hb'].
      now rewrite Hb', (validate_date_time_Ok _ _ _ Hb'). }
    split.
    { intros v Hv. destruct (proj1 (Hnw u3) H3 v Hv) as [b' Hb'].
      now apply validate_net_weight_accepts in Hb'. }
    split.
    { intros v Hv. destruct (proj1 (Hta u4) H4 v Hv) as [b' Hb'].
      now apply validate_weight_accepts in Hb'. }
    exact (proj1 (Hsv u5) H5).
  - intros [-> [[n' [k [Hn [Hk Hle]]]] [[t' [Ht Hiso]] [Hp [Hw [Hr Hs]]]]]].
    injection Hn as <-. injection Ht as <-.
    rewrite (proj2 (py_lt_0_false n)) by (now exists k).
    cbn [Py.bind raise_if].
    rewrite (proj2 (Htc tt)).
    2: { intros v Hv. injection Hv as <-. now exists true. }
    rewrite (proj2 (Hpa tt)).
    2: { intros v Hv. exists true. now apply Hp. }
    rewrite (proj2 (Hnw tt)).
    2: { intros v Hv. exists true. apply validate_net_weight_accepts.
         split; [reflexivity | now apply Hw]. }
    rewrite (proj2 (Hta tt)).
    2: { intros v Hv. exists true. apply validate_weight_accepts.
         split; [reflexivity | now apply Hr]. }
    rewrite (proj2 (Hsv tt) Hs). reflexivity.
Qed.

(** A container that is no mapping does not pass. *)
Lemma validate_container_data_not_dict
    (fromisoformat : string -> result datetime.datetime) (c : value)
    (b : bool) :
  (forall d, c <> VDict d) ->
  dMB._validate_container_data fromisoformat c <> Ok b.
Proof.
  intros Hc. unfold dMB._validate_container_data.
  cbn [for_each]. unfold py_not_in, py_not, py_and.
  destruct c as [| v | n | k | xs | d]; cbn [py_in Py.bind];
    try discriminate.
  - destruct (occurs "sequence_number" k); cbn [negb raise_if Py.bind];
      [| discriminate].
    destruct (occurs "type_code" k); cbn [negb raise_if Py.bind getitem];
      discriminate.
  - destruct (existsb _ xs); cbn [negb raise_if Py.bind]; [| discriminate].
    destruct (existsb _ xs); cbn [negb raise_if Py.bind getitem];
      discriminate.
  - now contradiction (Hc d).
Qed.

(** X14: the containers of a booking that pass.  A container is accepted
    exactly when it is a mapping with a [sequence_number] that is an integer
    of at least 0 and a [type_code] the ISO code check accepts, whose
    [provision_at], when present, passes the date-time check, whose
    [assumed_net_weight], when present, is an integer from 0 to 35000, whose
    [assumed_tara], when present, is an integer of at least 0, and whose
    [services], when present and not empty, are a list of services that
    pass; [provision_at] is not required and empty services are skipped.
    Numbers are the integers and booleans of the model, which has no
    fractional numbers. *)
Theorem accepted_booking_containers
    (fromisoformat : string -> result datetime.datetime) (c : value) :
  dMB._validate_container_data fromisoformat c = Ok true <->
  exists d, c = VDict d /\
            booking_container_ok (dMB._validate_date_time fromisoformat) d.
Proof.
  split.
  - intros H. destruct c as [| v | n | k | xs | d];
      try (now apply validate_container_data_not_dict in H;
           [| intros d; discriminate]).
    exists d. split; [reflexivity |].
    now apply validate_container_data_dict in H.
  - intros [d [-> H]]. now apply validate_container_data_dict.
Qed.

Lemma accepted_booking_containers_witness :
  exists d,
    VDict [("sequence_number", VInt 1); ("type_code", VStr "22G1");
           ("assumed_net_weight", VInt 18000); ("services", VList [])]
    = VDict d /\
    booking_container_ok (dMB._validate_date_time datetime.fromisoformat) d.
Proof.
  apply (accepted_booking_containers datetime.fromisoformat). reflexivity.
Defined.

(** The checks on the [booking] entry. *)
Lemma booking_header_accepts (booking : value) (field : string)
    (allowed : list string) (missing : exn) (invalid : value -> exn)
    (u : unit) :
  (c <- py_not_in field booking ;;
   (if c then Raise missing
    else v <- getitem booking field ;;
         raise_if (negb (in_strings v allowed)) (invalid v) (Ok tt)) ;;
   Ok tt) = Ok u ->
  exists b v, booking = VDict b /\ lookup field b = Some v /\
              in_strings v allowed = true.
Proof.
  unfold py_not_in, py_not.
  destruct booking as [| x | n | k | xs | b]; cbn [py_in Py.bind];
    try discriminate.
  - destruct (occurs field k); cbn [negb getitem Py.bind]; discriminate.
  - destruct (existsb _ xs); cbn [negb getitem Py.bind]; discriminate.
  - unfold has_key. cbn [getitem].
    destruct (lookup field b) as [v |] eqn:Ev; cbn [negb Py.bind];
      [| discriminate].
    destruct (in_strings v allowed) eqn:E; cbn [negb raise_if];
      [| discriminate].
    intros _. now exists b, v.
Qed.

(** The loop over the containers of a booking. *)
Lemma booking_containers_loop
    (fromisoformat : string -> result datetime.datetime) (xs : list value)
    (u : unit) :
  for_each (fun container _ =>
              dMB._validate_container_data fromisoformat container ;; Ok tt)
           xs tt = Ok u <->
  Forall (fun x => dMB._validate_container_data fromisoformat x = Ok true) xs.
Proof.
  rewrite unit_loop_accepts. split; intros H; (eapply Forall_impl; [| exact H]);
    cbv beta; intros x Hx.
  - apply bind_Ok in Hx. destruct Hx as [b [Hb _]].
    destruct x as [| v | n | k | ys | d];
      try (now apply validate_container_data_not_dict in Hb;
           [| intros d; discriminate]).
    rewrite Hb. f_equal. now apply validate_container_data_dict in Hb.
  - now rewrite Hx.
Qed.

Lemma validate_booking_data_dict
    (fromisoformat : string -> result datetime.datetime) (doc : dict)
    (r : bool) :
  dMB._validate_booking_data fromisoformat (VDict doc) = Ok r <->
  r = true /\
  exists b c cs,
    lookup "booking" doc = Some (VDict b) /\
    valid_booking b /\
    lookup "containers" doc = Some (VList (c :: cs)) /\
    Forall (fun x => dMB._validate_container_data fromisoformat x = Ok true)
           (c :: cs).
Proof.
  unfold dMB._validate_booking_data.
  unfold py_not_in at 1. unfold py_not at 1. cbn [py_in getitem Py.bind].
  unfold has_key at 1.
  destruct (lookup "booking" doc) as [booking |] eqn:Eb;
    cbn [Py.bind negb raise_if].
  2: { split; [discriminate | intros [_ [b [c [cs [H _]]]]]; discriminate H]. }
  split.
  - intros H.
    apply bind_Ok in H. destruct H as [c1 [Hc1 H]].
    apply bind_Ok in H. destruct H as [u1 [H1 H]].
    apply bind_Ok in H. destruct H as [c2 [Hc2 H]].
    apply bind_Ok in H. destruct H as [u2 [H2 H]].
    apply bind_Ok in H. destruct H as [c0 [Hc H]].
    apply raise_if_Ok in H. destruct H as [-> H].
    assert (G1 : exists b v, booking = VDict b /\
                   lookup "transport_category" b = Some v /\
                   in_strings v dMB.TransportCategory = true).
    { apply (booking_header_accepts booking "transport_category"
               dMB.TransportCategory
               (ValueError (Text "Booking must specify a transport category"))
               (fun tc => ValueError [Lit "Invalid transport category: ";
                                      Str tc]) tt).
      rewrite Hc1. cbn [Py.bind]. cbv beta. rewrite H1. reflexivity. }
    destruct G1 as [b [tc [-> [Htc Hin]]]].
    assert (G2 : exists b' v, VDict b = VDict b' /\
                   lookup "load_status" b' = Some v /\
                   in_strings v dMB.LoadStatus = true).
    { apply (booking_header_accepts (VDict b) "load_status" dMB.LoadStatus
               (ValueError (Text "Booking must specify a load status"))
               (fun ls => ValueError [Lit "Invalid load status: "; Str ls])
               tt).
      rewrite Hc2. cbn [Py.bind]. cbv beta. rewrite H2. reflexivity. }
    destruct G2 as [b' [ls [Hb' [Hls Hin']]]]. injection Hb' as <-.
    unfold py_or, py_not_in, py_not in Hc.
    cbn [py_in getitem Py.bind] in Hc, H. unfold has_key in Hc.
    destruct (lookup "containers" doc) as [cv |] eqn:Ec;
      cbn [negb Py.bind] in Hc, H; [| discriminate Hc].
    destruct (truthy cv) eqn:Et; [| discriminate Hc].
    assert (Hloop : exists u,
               (items <- py_iter cv ;;
                for_each (fun container _ =>
                   dMB._validate_container_data fromisoformat container ;;
                   Ok tt) items tt) = Ok u).
    { destruct (py_iter cv) as [items | e]; cbn [Py.bind] in H |- *;
        [| discriminate H].
      apply bind_Ok in H. destruct H as [u [Hu _]]. now exists u. }
    destruct Hloop as [u Hloop].
    apply iterated_is_list in Hloop; [| | exact Et].
    2: { intros k s0 s1 Hk. apply bind_Ok in Hk. destruct Hk as [x [Hx _]].
         apply validate_container_data_not_dict in Hx; [exact Hx |].
         intros d; discriminate. }
    destruct Hloop as [c [cs [-> Hloop]]].
    cbn [py_iter Py.bind] in H. rewrite Hloop in H. cbn [Py.bind] in H.
    split; [congruence |]. exists b, c, cs.
    split; [reflexivity |]. split.
    { split; [now exists tc | now exists ls]. }
    split; [reflexivity |]. now apply booking_containers_loop in Hloop.
  - intros [-> [b [c [cs [Hb [[[tc [Htc Hin]] [ls [Hls Hin']]] [Hc Hall]]]]]]].
    injection Hb as ->.
    unfold py_or, py_not_in, py_not. cbn [py_in getitem Py.bind].
    unfold has_key. rewrite Htc, Hls, Hc. cbn [Py.bind negb].
    rewrite Hin, Hin'. cbn [negb raise_if Py.bind truthy py_iter].
    apply (booking_containers_loop fromisoformat (c :: cs) tt) in Hall.
    now rewrite Hall.
Qed.

(** X15: accepted booking documents.  The validator returns [True] exactly
    on a mapping whose [booking] entry is a mapping with a transport
    category and a load status of the enumerations and whose top-level
    [containers] entry is a non-empty list of containers that each pass the
    container check. *)
Theorem accepted_bookings
    (fromisoformat : string -> result datetime.datetime)
    (booking_data : value) :
  dMB._validate_booking_data fromisoformat booking_data = Ok true <->
  booking_document_ok (dMB._validate_container_data fromisoformat)
                      booking_data.
Proof.
  unfold booking_document_ok. split.
  - intros H. destruct booking_data as [| x | n | k | xs | doc].
    1-5: exfalso; revert H; unfold dMB._validate_booking_data, py_not_in,
           py_not; cbn [py_in Py.bind]; try discriminate.
    + destruct (occurs "booking" k); cbn [negb raise_if getitem Py.bind];
        discriminate.
    + destruct (existsb _ xs); cbn [negb raise_if getitem Py.bind];
        discriminate.
    + apply validate_booking_data_dict in H.
      destruct H as [_ [b [c [cs H]]]]. now exists doc, b, c, cs.
  - intros [doc [b [c [cs [-> H]]]]]. apply validate_booking_data_dict.
    split; [reflexivity |]. now exists b, c, cs.
Qed.

Lemma accepted_bookings_witness :
  booking_document_ok (dMB._validate_container_data datetime.fromisoformat)
    (VDict [("booking", VDict [("transport_category", VStr "IMPORT");
                               ("load_status", VStr "FULL")]);
            ("containers", VList [
               VDict [("sequence_number", VInt 1);
                      ("type_code", VStr "22G1");
                      ("provision_at", VStr "2025-05-01T12:30:25Z");
                      ("assumed_net_weight", VInt 18000);
                      ("services", VList [
                         VDict [("type", VStr "VET_STOP");
                                ("quantity", VInt 2)]])]])]).
Proof.
  apply (accepted_bookings datetime.fromisoformat). reflexivity.
Defined.
